(** * Organiza storefront: cart, checkout, address book and order status

    A shallow embedding of the business rules of the storefront (cart
    page, checkout-details modal, product page, profile page and the
    company dashboard) together with the properties its specification
    states about them.

    Modelling conventions.
    - A TypeScript [number] holding an amount of money or a coordinate
      is an IEEE 754 double, a [float] with the binary64 operations of
      the kernel, so sums and products round as they do in the browser.
      A [number] holding a quantity, a count or an index is an integer
      of [Z]; where it meets an amount it is converted by [Js.ofZ].
    - An optional or nullable field ([x?: T], [T | null]) is an
      [option]; [a ?? b] is [Js.nullish], [a || b] on strings is
      [Js.orElse].
    - Strings are [string]s of 8-bit characters; [toLowerCase] folds the
      letters A-Z only.
    - The hosted backend is a record of tables, [World.t]; a handler
      takes the world and the state of its component and returns the
      new ones.  A failure reported by the backend for one call is an
      explicit [option PostgrestError.t] argument of the handler
      ([None]: the call went through).  Values drawn from the
      environment (fresh ids, the clock, the geolocation) are arguments
      too. *)

From Stdlib Require Import ZArith List String Ascii Bool Lia DecimalString.
Import ListNotations.
From Stdlib Require Import Permutation.
From Stdlib Require Import Floats.

Local Open Scope string_scope.
Local Open Scope Z_scope.
Local Open Scope list_scope.

(* ================================================================== *)
(** ** JavaScript operators the handlers rely on *)
(* ================================================================== *)

Module Js.

(** [a ?? b] where [b] is always defined. *)
Definition nullish {A : Type} (a : option A) (b : A) : A :=
  match a with
  | Some x => x
  | None => b
  end.

(** [a ?? b] where [b] may itself be missing. *)
Definition nullishOpt {A : Type} (a b : option A) : option A :=
  match a with
  | Some x => Some x
  | None => b
  end.

(** Truthiness of a string: every string but the empty one. *)
Definition truthy (s : string) : bool :=
  match s with
  | EmptyString => false
  | String _ _ => true
  end.

(** [a || b] on a possibly missing string. *)
Definition orElse (a : option string) (b : string) : string :=
  match a with
  | Some x => if truthy x then x else b
  | None => b
  end.

(** [a || null] and [a || undefined]. *)
Definition orNull (a : option string) : option string :=
  match a with
  | Some x => if truthy x then Some x else None
  | None => None
  end.

Definition toLowerChar (c : ascii) : ascii :=
  let n := nat_of_ascii c in
  if (65 <=? n)%nat && (n <=? 90)%nat then ascii_of_nat (n + 32) else c.

Fixpoint toLowerCase (s : string) : string :=
  match s with
  | EmptyString => EmptyString
  | String c s' => String (toLowerChar c) (toLowerCase s')
  end.

(** [s.includes(sub)]. *)
Fixpoint includes (s sub : string) : bool :=
  String.prefix sub s ||
  match s with
  | EmptyString => false
  | String _ s' => includes s' sub
  end.

Fixpoint indexOfFrom (l : list string) (x : string) (i : Z) : Z :=
  match l with
  | [] => -1
  | y :: l' => if String.eqb y x then i else indexOfFrom l' x (i + 1)
  end.

(** [l.indexOf(x)]: the first position of [x], or [-1]. *)
Definition indexOf (l : list string) (x : string) : Z := indexOfFrom l x 0.

(** [l.find(p)]. *)
Fixpoint find {A : Type} (p : A -> bool) (l : list A) : option A :=
  match l with
  | [] => None
  | x :: l' => if p x then Some x else find p l'
  end.

(** [l.reduce(f, init)]. *)
Definition reduce {A B : Type} (f : B -> A -> B) (init : B) (l : list A) : B :=
  fold_left f l init.

Fixpoint mapiFrom {A B : Type} (f : nat -> A -> B) (i : nat) (l : list A) : list B :=
  match l with
  | [] => []
  | x :: l' => f i x :: mapiFrom f (S i) l'
  end.

(** A number inside a template literal. *)
Definition numberToString (z : Z) : string := NilZero.string_of_int (Z.to_int z).

(** [s.substring(0, n)]. *)
Definition substring0 (n : nat) (s : string) : string := String.substring 0 n s.

(** An integer as a [number]: the double nearest to it. *)
Definition ofZ (z : Z) : float := SF2Prim (binary_normalize prec emax z 0 false).

(** [parseFloat(s)] for a decimal [s] with two places, given by its
    hundredths: the double nearest to [c / 100] (a division of two
    doubles rounds to nearest). *)
Definition ofCents (c : Z) : float := (ofZ c / ofZ 100)%float.

(** [a > b] on numbers. *)
Definition gt (a b : float) : bool := (b <? a)%float.

End Js.

(* ================================================================== *)
(** ** Backend tables and the world *)
(* ================================================================== *)

Module PostgrestError.
Record t := mk {
  code : string;
  message : string
}.
End PostgrestError.

(** A row of [cart_items]. *)
Module CartRow.
Record t := mk {
  id : string;
  user_id : string;
  product_id : string;
  quantity : Z;
  price_at_add : float
}.
End CartRow.

(** The columns of [products] the storefront reads. *)
Module ProductRow.
Record t := mk {
  id : string;
  product_name : option string;
  discount_price : option float;
  original_price : option float
}.
End ProductRow.

Module Address.
Record t := mk {
  id : string;
  name : string;
  houseNumber : string;
  street : string;
  area : string;
  city : string;
  state : string;
  pincode : string;
  country : string;
  primaryPhone : string;
  secondaryPhone : option string;
  isDefault : bool;
  lat : option float;
  lng : option float
}.

(** [{ ...addr, isDefault: b }] *)
Definition withDefault (b : bool) (addr : t) : t :=
  mk (id addr) (name addr) (houseNumber addr) (street addr) (area addr)
     (city addr) (state addr) (pincode addr) (country addr)
     (primaryPhone addr) (secondaryPhone addr) b (lat addr) (lng addr).
End Address.

Module OrderItem.
Record t := mk {
  id : string;
  product_id : string;
  quantity : Z;
  price_at_purchase : float;
  created_at : string
}.
End OrderItem.

(** A row of [orders]. *)
Module Order.
Record t := mk {
  id : string;
  user_id : string;
  total_amount : float;
  payment_id : option string;
  order_id : string;
  signature : option string;
  status : string;
  purchase_time : string;
  customer_name : string;
  primary_phone : string;
  secondary_phone : option string;
  country : string;
  state : string;
  city : string;
  pincode : string;
  area : string;
  street : string;
  house_number : string;
  location : option float * option float;
  order_items : list OrderItem.t
}.

(** [{ ...order, status: s }] *)
Definition withStatus (s : string) (o : t) : t :=
  mk (id o) (user_id o) (total_amount o) (payment_id o) (order_id o)
     (signature o) s (purchase_time o) (customer_name o) (primary_phone o)
     (secondary_phone o) (country o) (state o) (city o) (pincode o)
     (area o) (street o) (house_number o) (location o) (order_items o).
End Order.

(** A row of [user_profiles]. *)
Module UserProfile.
Record t := mk {
  id : string;
  name : option string;
  phone : option string;
  addresses : option (list Address.t)
}.
End UserProfile.

Module Toast.
Record t := mk {
  title : string;
  description : option string;
  variant : string
}.
End Toast.

Module World.
Record t := mk {
  session : option string;
  cart_items : list CartRow.t;
  products : list ProductRow.t;
  orders : list Order.t;
  user_profiles : list UserProfile.t;
  toasts : list Toast.t;
  route : option string
}.

Definition toast (x : Toast.t) (w : t) : t :=
  mk (session w) (cart_items w) (products w) (orders w)
     (user_profiles w) (toasts w ++ [x]) (route w).

Definition routerPush (path : string) (w : t) : t :=
  mk (session w) (cart_items w) (products w) (orders w)
     (user_profiles w) (toasts w) (Some path).

Definition withCartItems (rows : list CartRow.t) (w : t) : t :=
  mk (session w) rows (products w) (orders w)
     (user_profiles w) (toasts w) (route w).

Definition withOrders (os : list Order.t) (w : t) : t :=
  mk (session w) (cart_items w) (products w) os
     (user_profiles w) (toasts w) (route w).

Definition withUserProfiles (ps : list UserProfile.t) (w : t) : t :=
  mk (session w) (cart_items w) (products w) (orders w)
     ps (toasts w) (route w).
End World.

(** The answer to a [.single()] read: the row when exactly one row
    matches, the error [PGRST116] when none or several do, and the
    backend's own error when the call fails. *)
Definition PGRST116 : PostgrestError.t :=
  PostgrestError.mk "PGRST116" "JSON object requested, multiple (or no) rows returned".

Definition single {A : Type} (fault : option PostgrestError.t) (rows : list A)
  : option A * option PostgrestError.t :=
  match fault with
  | Some e => (None, Some e)
  | None =>
      match rows with
      | [r] => (Some r, None)
      | _ => (None, Some PGRST116)
      end
  end.

Record CheckoutItem := mkCheckoutItem {
  productId : string;
  productName : string;
  quantity : Z;
  price_at_add : float
}.

(* ================================================================== *)
(** ** Checkout-details modal *)
(* ================================================================== *)

Module CheckoutDetailsModal.

Record State := mkState {
  showRazorpay : bool;
  orderId : string;
  userName : string;
  primaryPhone : string;
  secondaryPhone : string;
  country : string;
  state : string;
  city : string;
  pincode : string;
  area : string;
  street : string;
  houseNumber : string;
  userAddresses : list Address.t;
  selectedAddressId : option string
}.

Definition setShowRazorpay (b : bool) (st : State) : State :=
  mkState b (orderId st) (userName st) (primaryPhone st) (secondaryPhone st)
          (country st) (state st) (city st) (pincode st) (area st) (street st)
          (houseNumber st) (userAddresses st) (selectedAddressId st).

(** The payload of the gateway's success callback. *)
Record RazorpayResponse := mkResponse {
  razorpay_payment_id : option string;
  razorpay_order_id : option string;
  razorpay_signature : option string
}.

(** The payload of the gateway's failure callback. *)
Record RazorpayError := mkRazorpayError {
  description : option string
}.

Inductive PaymentOutcome :=
  | Paid (response : RazorpayResponse)
  | PaymentFailed (err : RazorpayError).

(** What the handler draws from its environment: the geolocation (or
    [(0, 0)] when it is refused), the calls of [uuidv4()] in order, the
    clock, and the id the backend gives the inserted order. *)
Record Env := mkEnv {
  location : float * float;
  uuidv4 : nat -> string;
  now : string;
  insertedId : string
}.

Definition subtotal (items : list CheckoutItem) : float :=
  Js.reduce (fun sum item => (sum + price_at_add item * Js.ofZ (quantity item))%float)
            0%float items.

Definition totalQuantity (items : list CheckoutItem) : Z :=
  Js.reduce (fun sum item => sum + quantity item) 0 items.

Definition shippingFee (items : list CheckoutItem) : float :=
  if Js.gt (subtotal items) 0 && (subtotal items <? 1000)%float
  then 99%float else 0%float.

Definition totalAmount (items : list CheckoutItem) : float :=
  (subtotal items + shippingFee items)%float.

Definition isNew (st : State) : bool :=
  match selectedAddressId st with
  | Some s => String.eqb s "new"
  | None => false
  end.

(** [addr.id === selectedAddressId] *)
Definition isSelected (st : State) (addr : Address.t) : bool :=
  match selectedAddressId st with
  | Some s => String.eqb (Address.id addr) s
  | None => false
  end.

Definition newAddress (env : Env) (st : State) : Address.t :=
  Address.mk (uuidv4 env 0%nat)
             (houseNumber st ++ ", " ++ street st)%string
             (houseNumber st) (street st) (area st) (city st) (state st)
             (pincode st) (country st) (primaryPhone st)
             (Js.orNull (Some (secondaryPhone st)))
             true
             (Some (fst (location env))) (Some (snd (location env))).

(** The shipping address of the order and the address list saved to
    the profile ([currentShippingAddress], [updatedAddressesForProfile]). *)
Definition shippingAddresses (env : Env) (st : State)
  : option Address.t * list Address.t :=
  if isNew st then
    (Some (newAddress env st),
     map (Address.withDefault false) (userAddresses st) ++ [newAddress env st])
  else
    match Js.find (isSelected st) (userAddresses st) with
    | Some addr =>
        (Some addr,
         map (fun a => Address.withDefault (isSelected st a) a) (userAddresses st))
    | None => (None, userAddresses st)
    end.

Definition orderItemsData (env : Env) (st : State) (items : list CheckoutItem)
  : list OrderItem.t :=
  Js.mapiFrom
    (fun i item =>
       OrderItem.mk (uuidv4 env i) (productId item) (quantity item)
                    (price_at_add item) (now env))
    (if isNew st then 1%nat else 0%nat) items.

Definition orderData (env : Env) (st : State) (items : list CheckoutItem)
           (currentUserId : string) (response : RazorpayResponse)
           (currentShippingAddress : Address.t) : Order.t :=
  Order.mk (insertedId env)
           currentUserId
           (totalAmount items)
           (Js.orNull (razorpay_payment_id response))
           (Js.orElse (razorpay_order_id response) (orderId st))
           (Js.orNull (razorpay_signature response))
           "confirmed"
           (now env)
           (userName st)
           (primaryPhone st)
           (Js.orNull (Some (secondaryPhone st)))
           (Address.country currentShippingAddress)
           (Address.state currentShippingAddress)
           (Address.city currentShippingAddress)
           (Address.pincode currentShippingAddress)
           (Address.area currentShippingAddress)
           (Address.street currentShippingAddress)
           (Address.houseNumber currentShippingAddress)
           (Address.lat currentShippingAddress, Address.lng currentShippingAddress)
           (orderItemsData env st items).

(** [user_profiles.update({ name, phone, addresses }).eq("id", userId)] *)
Definition updateProfile (userId : string) (st : State)
           (addrs : list Address.t) (w : World.t) : World.t :=
  World.withUserProfiles
    (map (fun p =>
            if String.eqb (UserProfile.id p) userId
            then UserProfile.mk (UserProfile.id p) (Some (userName st))
                                (Some (primaryPhone st)) (Some addrs)
            else p)
         (World.user_profiles w))
    w.

Definition orderErrorToast (msg : string) : Toast.t :=
  Toast.mk "Order Error"
           (Some (Js.orElse (Some msg)
                    "Payment was successful, but there was an error creating your order. Please contact support."))
           "destructive".

Section Props.

(** The state of the page that mounts the modal, and the modal's props. *)
Variable Parent : Type.
Variable items : list CheckoutItem.
Variable onClose : Parent -> Parent.
Variable onOrderSuccess : World.t * Parent -> World.t * Parent.

Definition handlePaymentSuccess
           (profileUpdateError orderError : option PostgrestError.t)
           (env : Env) (response : RazorpayResponse)
           (s : World.t * Parent * State) : World.t * Parent * State :=
  let '(w, parent, st) := s in
  match World.session w with
  | Some currentUserId =>
      if Js.truthy currentUserId then
        match shippingAddresses env st with
        | (Some currentShippingAddress, updatedAddressesForProfile) =>
            let w1 :=
              match profileUpdateError with
              | Some _ => w
              | None => updateProfile currentUserId st updatedAddressesForProfile w
              end in
            match orderError with
            | Some e =>
                (World.toast (orderErrorToast (PostgrestError.message e)) w1,
                 parent, setShowRazorpay false st)
            | None =>
                let w2 :=
                  World.withOrders
                    (World.orders w1 ++
                     [orderData env st items currentUserId response
                                currentShippingAddress]) w1 in
                let w3 :=
                  World.toast
                    (Toast.mk "Payment successful!" (Some "Your order has been placed.")
                              "default") w2 in
                let '(w4, parent') := onOrderSuccess (w3, onClose parent) in
                (w4, parent', setShowRazorpay false st)
            end
        | (None, _) =>
            (World.toast (orderErrorToast "No shipping address found or selected.") w,
             parent, setShowRazorpay false st)
        end
      else
        (World.toast
           (Toast.mk "Authentication Error"
                     (Some "User not logged in. Please log in and try again.")
                     "destructive") w,
         parent, st)
  | None =>
      (World.toast
         (Toast.mk "Authentication Error"
                   (Some "User not logged in. Please log in and try again.")
                   "destructive") w,
       parent, st)
  end.

Definition handlePaymentFailure (err : RazorpayError)
           (s : World.t * Parent * State) : World.t * Parent * State :=
  let '(w, parent, st) := s in
  (World.toast
     (Toast.mk "Payment Failed"
               (Some ("Payment failed: " ++ Js.orElse (description err) "Unknown error")%string)
               "destructive") w,
   parent, setShowRazorpay false st).

(** The payment component calls [onSuccess] from the gateway's handler
    and [onFailure] on [payment.failed]. *)
Definition razorpayPayment
           (profileUpdateError orderError : option PostgrestError.t)
           (env : Env) (outcome : PaymentOutcome)
           (s : World.t * Parent * State) : World.t * Parent * State :=
  match outcome with
  | Paid response => handlePaymentSuccess profileUpdateError orderError env response s
  | PaymentFailed err => handlePaymentFailure err s
  end.

End Props.

End CheckoutDetailsModal.

(* ================================================================== *)
(** ** Cart page *)
(* ================================================================== *)

Module CartPage.

(** The joined product columns of a cart line. *)
Record ProductInfo := mkProductInfo {
  product_name : option string;
  discount_price : option float;
  original_price : option float
}.

Record CartItem := mkCartItem {
  id : string;
  product_id : string;
  quantity : Z;
  price_at_add : float;
  products : option ProductInfo
}.

Record State := mkState {
  cartItems : list CartItem;
  error : option string;
  showCheckoutModal : bool;
  searchTerm : string
}.

Definition setCartItems (l : list CartItem) (st : State) : State :=
  mkState l (error st) (showCheckoutModal st) (searchTerm st).

Definition setError (e : option string) (st : State) : State :=
  mkState (cartItems st) e (showCheckoutModal st) (searchTerm st).

Definition setShowCheckoutModal (b : bool) (st : State) : State :=
  mkState (cartItems st) (error st) b (searchTerm st).

Definition setSearchTerm (s : string) (st : State) : State :=
  mkState (cartItems st) (error st) (showCheckoutModal st) s.

(** The embedded [products (...)] of the select: the product the line
    refers to, or [null] when it is gone. *)
Definition joinedProduct (w : World.t) (pid : string) : option ProductInfo :=
  match Js.find (fun p => String.eqb (ProductRow.id p) pid) (World.products w) with
  | Some p =>
      Some (mkProductInfo (ProductRow.product_name p)
                          (ProductRow.discount_price p)
                          (ProductRow.original_price p))
  | None => None
  end.

(** The table is kept in the order the select asks for (newest first). *)
Definition fetchCartItems (cartError : option PostgrestError.t)
           (s : World.t * State) : World.t * State :=
  let '(w, st) := s in
  let st := setError None st in
  match World.session w with
  | None =>
      (World.routerPush "/login"
         (World.toast (Toast.mk "Please log in to view your cart." None "destructive") w),
       st)
  | Some userId =>
      match cartError with
      | Some _ =>
          (w, setCartItems [] (setError (Some "Failed to load cart items. Please try again.") st))
      | None =>
          (w,
           setCartItems
             (map (fun item =>
                     mkCartItem (CartRow.id item) (CartRow.product_id item)
                                (CartRow.quantity item) (CartRow.price_at_add item)
                                (joinedProduct w (CartRow.product_id item)))
                  (filter (fun r => String.eqb (CartRow.user_id r) userId)
                          (World.cart_items w)))
             st)
      end
  end.

Definition handleQuantityChange (updateError : option PostgrestError.t)
           (itemId : string) (newQuantity : Z)
           (s : World.t * State) : World.t * State :=
  let '(w, st) := s in
  if newQuantity <? 1 then (w, st)
  else
    match Js.orNull (World.session w) with
    | None =>
        (World.toast
           (Toast.mk "Please log in to update cart quantity." None "destructive") w,
         st)
    | Some userId =>
        match updateError with
        | Some e =>
            (World.toast
               (Toast.mk (Js.orElse (Some (PostgrestError.message e))
                                    "Failed to update product quantity.")
                         None "destructive") w,
             st)
        | None =>
            (World.withCartItems
               (map (fun r =>
                       if String.eqb (CartRow.id r) itemId
                          && String.eqb (CartRow.user_id r) userId
                       then CartRow.mk (CartRow.id r) (CartRow.user_id r)
                                       (CartRow.product_id r) newQuantity
                                       (CartRow.price_at_add r)
                       else r)
                    (World.cart_items w))
               w,
             setCartItems
               (map (fun item =>
                       if String.eqb (id item) itemId
                       then mkCartItem (id item) (product_id item) newQuantity
                                       (price_at_add item) (products item)
                       else item)
                    (cartItems st))
               st)
        end
    end.

(** [item.products?.product_name?.toLowerCase().includes(term.toLowerCase())];
    a missing product or name leaves the chain undefined, hence falsy. *)
Definition matchesSearch (term : string) (item : CartItem) : bool :=
  match products item with
  | None => false
  | Some p =>
      match product_name p with
      | None => false
      | Some n => Js.includes (Js.toLowerCase n) (Js.toLowerCase term)
      end
  end.

Definition filteredCartItems (st : State) : list CartItem :=
  filter (matchesSearch (searchTerm st)) (cartItems st).

(** [item.products?.discount_price ?? item.products?.original_price ?? item.price_at_add] *)
Definition unitPrice (item : CartItem) : float :=
  Js.nullish
    (Js.nullishOpt
       (match products item with Some p => discount_price p | None => None end)
       (match products item with Some p => original_price p | None => None end))
    (price_at_add item).

Definition subtotal (st : State) : float :=
  Js.reduce (fun sum item => (sum + unitPrice item * Js.ofZ (quantity item))%float)
            0%float (filteredCartItems st).

Definition shippingFee (st : State) : float :=
  if Js.gt (subtotal st) 0 && (subtotal st <? 1000)%float
  then 99%float else 0%float.

Definition total (st : State) : float := (subtotal st + shippingFee st)%float.

Definition handleProceedToCheckout (s : World.t * State) : World.t * State :=
  let '(w, st) := s in
  match filteredCartItems st with
  | [] =>
      (World.toast
         (Toast.mk "Please add items to your cart before proceeding to checkout."
                   None "destructive") w,
       st)
  | _ :: _ => (w, setShowCheckoutModal true st)
  end.

(** [cart_items.delete().eq("user_id", userId)], then the local list is
    emptied when the backend reported no error. *)
Definition handleOrderSuccess (deleteError : option PostgrestError.t)
           (s : World.t * State) : World.t * State :=
  let '(w, st) := s in
  let '(w1, st1) :=
    match Js.orNull (World.session w) with
    | Some userId =>
        match deleteError with
        | Some _ => (w, st)
        | None =>
            (World.withCartItems
               (filter (fun r => negb (String.eqb (CartRow.user_id r) userId))
                       (World.cart_items w))
               w,
             setCartItems [] st)
        end
    | None => (w, st)
    end in
  (World.routerPush "/orders" w1, st1).

(** The [items] prop handed to the checkout modal. *)
Definition checkoutItem (item : CartItem) : CheckoutItem :=
  let unitPrice := unitPrice item in
  mkCheckoutItem
    (product_id item)
    (Js.orElse (match products item with Some p => product_name p | None => None end)
               "Unknown Product")
    (quantity item)
    unitPrice.

Definition checkoutItems (st : State) : list CheckoutItem :=
  map checkoutItem (filteredCartItems st).

(** The modal as the page mounts it: [items], [onClose] and
    [onOrderSuccess] are the page's, the payment outcome is the
    gateway's. *)
Definition checkout (profileUpdateError orderError deleteError : option PostgrestError.t)
           (env : CheckoutDetailsModal.Env)
           (outcome : CheckoutDetailsModal.PaymentOutcome)
           (s : World.t * State * CheckoutDetailsModal.State)
  : World.t * State * CheckoutDetailsModal.State :=
  CheckoutDetailsModal.razorpayPayment
    State
    (checkoutItems (snd (fst s)))
    (setShowCheckoutModal false)
    (handleOrderSuccess deleteError)
    profileUpdateError orderError env outcome s.

(** [cart_items.delete().eq("id", itemId).eq("user_id", userId)], then
    the line is dropped from the local list. *)
Definition handleRemoveItem (deleteError : option PostgrestError.t)
           (itemId productName : string)
           (s : World.t * State) : World.t * State :=
  let '(w, st) := s in
  match Js.orNull (World.session w) with
  | None =>
      (World.toast
         (Toast.mk "Please log in to remove items from cart." None "destructive") w,
       st)
  | Some userId =>
      match deleteError with
      | Some e =>
          (World.toast
             (Toast.mk (Js.orElse (Some (PostgrestError.message e))
                                  "Failed to remove product from cart.")
                       None "destructive") w,
           st)
      | None =>
          (World.toast
             (Toast.mk (productName ++ " has been removed from your cart.")%string
                       None "default")
             (World.withCartItems
                (filter (fun r => negb (String.eqb (CartRow.id r) itemId
                                        && String.eqb (CartRow.user_id r) userId))
                        (World.cart_items w))
                w),
           setCartItems
             (filter (fun item => negb (String.eqb (id item) itemId)) (cartItems st))
             st)
      end
  end.

(** The number of items shown beside the subtotal. *)
Definition itemCount (st : State) : Z :=
  Js.reduce (fun acc item => acc + quantity item) 0 (filteredCartItems st).

End CartPage.

(* ================================================================== *)
(** ** Product page *)
(* ================================================================== *)

Module ProductPage.

Record Product := mkProduct {
  id : string;
  productName : string;
  originalPrice : float;
  discountPrice : option float
}.

Record State := mkState {
  quantity : Z;
  showAuthPopup : bool;
  inCart : bool;
  showCheckoutModal : bool;
  currentUserId : option string
}.

Definition setQuantity (q : Z) (st : State) : State :=
  mkState q (showAuthPopup st) (inCart st) (showCheckoutModal st) (currentUserId st).

Definition setShowAuthPopup (b : bool) (st : State) : State :=
  mkState (quantity st) b (inCart st) (showCheckoutModal st) (currentUserId st).

Definition setInCart (b : bool) (st : State) : State :=
  mkState (quantity st) (showAuthPopup st) b (showCheckoutModal st) (currentUserId st).

Definition setShowCheckoutModal (b : bool) (st : State) : State :=
  mkState (quantity st) (showAuthPopup st) (inCart st) b (currentUserId st).

(** [const displayPrice = product.discountPrice ?? product.originalPrice] *)
Definition displayPrice (product : Product) : float :=
  Js.nullish (discountPrice product) (originalPrice product).

Definition addToCartErrorToast (e : PostgrestError.t) : Toast.t :=
  Toast.mk "Error"
           (Some (Js.orElse (Some (PostgrestError.message e))
                            "Could not add product to cart."))
           "destructive".

(** [if (fetchError && fetchError.code !== "PGRST116") throw fetchError] *)
Definition thrownFetchError (fetchError : option PostgrestError.t)
  : option PostgrestError.t :=
  match fetchError with
  | Some e => if String.eqb (PostgrestError.code e) "PGRST116" then None else Some e
  | None => None
  end.

(** [insertedId] is the id the backend gives the new row. *)
Definition handleAddToCart (fetchFault insertError : option PostgrestError.t)
           (insertedId : string) (product : Product)
           (s : World.t * State) : World.t * State :=
  let '(w, st) := s in
  match Js.orNull (currentUserId st) with
  | None => (w, setShowAuthPopup true st)
  | Some userId =>
      let '(existingCartItem, fetchError) :=
        single fetchFault
               (filter (fun r => String.eqb (CartRow.user_id r) userId
                                 && String.eqb (CartRow.product_id r) (id product))
                       (World.cart_items w)) in
      match thrownFetchError fetchError with
      | Some e => (World.toast (addToCartErrorToast e) w, st)
      | None =>
          match existingCartItem with
          | Some _ =>
              (World.toast
                 (Toast.mk "Already in cart"
                           (Some "This product is already in your cart!") "default") w,
               st)
          | None =>
              match insertError with
              | Some e => (World.toast (addToCartErrorToast e) w, st)
              | None =>
                  (World.toast
                     (Toast.mk "Added to cart!"
                        (Some (Js.numberToString (quantity st) ++ " unit(s) of "
                               ++ productName product
                               ++ " added to your shopping cart.")%string)
                        "default")
                     (World.withCartItems
                        (World.cart_items w ++
                         [CartRow.mk insertedId userId (id product)
                                     (quantity st) (displayPrice product)])
                        w),
                   setInCart true st)
              end
          end
      end
  end.

Definition updateQuantity (newQuantity : Z) (st : State) : State :=
  if newQuantity <? 1 then st else setQuantity newQuantity st.

Definition handleDirectBuy (st : State) : State :=
  match Js.orNull (currentUserId st) with
  | None => setShowAuthPopup true st
  | Some _ => setShowCheckoutModal true st
  end.

(** The [items] prop of the modal on a direct buy. *)
Definition checkoutItems (product : Product) (st : State) : list CheckoutItem :=
  [mkCheckoutItem (id product) (productName product) (quantity st) (displayPrice product)].

(** For a direct buy there is no cart to clear. *)
Definition handleOrderSuccess (s : World.t * State) : World.t * State :=
  let '(w, st) := s in (World.routerPush "/orders" w, st).

Definition handleRemoveFromCart (deleteError : option PostgrestError.t)
           (product : Product) (s : World.t * State) : World.t * State :=
  let '(w, st) := s in
  match Js.orNull (currentUserId st) with
  | None => (w, setShowAuthPopup true st)
  | Some userId =>
      match deleteError with
      | Some e =>
          (World.toast
             (Toast.mk "Error"
                       (Some (Js.orElse (Some (PostgrestError.message e))
                                        "Could not remove product from cart."))
                       "destructive") w,
           st)
      | None =>
          (World.toast
             (Toast.mk "Removed from cart"
                       (Some (productName product ++ " removed from your cart.")%string)
                       "default")
             (World.withCartItems
                (filter (fun r => negb (String.eqb (CartRow.user_id r) userId
                                        && String.eqb (CartRow.product_id r) (id product)))
                        (World.cart_items w))
                w),
           setQuantity 1 (setInCart false st))
      end
  end.

End ProductPage.

(* ================================================================== *)
(** ** Profile page: the address book *)
(* ================================================================== *)

Module ProfilePage.

Record State := mkState {
  profile : option UserProfile.t;
  isAddingAddress : bool;
  editingAddress : option Address.t;
  addressName : string;
  houseNumber : string;
  street : string;
  area : string;
  city : string;
  state : string;
  pincode : string;
  country : string;
  addressPrimaryPhone : string;
  addressSecondaryPhone : string;
  isDefaultAddress : bool
}.

Definition setProfile (p : option UserProfile.t) (st : State) : State :=
  mkState p (isAddingAddress st) (editingAddress st) (addressName st)
          (houseNumber st) (street st) (area st) (city st) (state st)
          (pincode st) (country st) (addressPrimaryPhone st)
          (addressSecondaryPhone st) (isDefaultAddress st).


Definition openEditAddressForm (address : Address.t) (st : State) : State :=
  mkState (profile st) true (Some address) (Address.name address)
          (Address.houseNumber address) (Address.street address)
          (Address.area address) (Address.city address) (Address.state address)
          (Address.pincode address) (Address.country address)
          (Address.primaryPhone address)
          (Js.orElse (Address.secondaryPhone address) "")
          (Address.isDefault address).

(** [uuid] is the value [uuidv4()] would return. *)
Definition newAddress (uuid : string) (st : State) : Address.t :=
  Address.mk
    (Js.orElse (match editingAddress st with
                | Some a => Some (Address.id a)
                | None => None
                end) uuid)
    (addressName st) (houseNumber st) (street st) (area st) (city st)
    (state st) (pincode st) (country st) (addressPrimaryPhone st)
    (Js.orNull (Some (addressSecondaryPhone st)))
    (isDefaultAddress st)
    None None.

(** The list [handleAddOrUpdateAddress] writes to the profile. *)
Definition updatedAddresses (uuid : string) (st : State) (p : UserProfile.t)
  : list Address.t :=
  let updatedAddresses := Js.nullish (UserProfile.addresses p) [] in
  let newAddress := newAddress uuid st in
  let updatedAddresses :=
    if isDefaultAddress st
    then map (Address.withDefault false) updatedAddresses
    else updatedAddresses in
  match editingAddress st with
  | Some _ =>
      map (fun addr =>
             if String.eqb (Address.id addr) (Address.id newAddress)
             then newAddress else addr)
          updatedAddresses
  | None => updatedAddresses ++ [newAddress]
  end.

(** The reload of the page.  Without a session it warns and routes to
    the login page, and when the read fails it warns; in both cases
    the profile shown is kept.  Otherwise it shows the profile row of
    the signed-in user, or none when there is no such row. *)
Definition fetchProfileData (profileFault : option PostgrestError.t)
           (s : World.t * State) : World.t * State :=
  let '(w, st) := s in
  match World.session w with
  | None =>
      (World.routerPush "/login"
         (World.toast (Toast.mk "Please log in to view your profile." None "destructive")
                      w),
       st)
  | Some userId =>
      let '(profileData, profileError) :=
        single profileFault
               (filter (fun p => String.eqb (UserProfile.id p) userId)
                       (World.user_profiles w)) in
      match ProductPage.thrownFetchError profileError with
      | Some _ =>
          (World.toast (Toast.mk "Failed to load profile data." None "destructive") w, st)
      | None => (w, setProfile profileData st)
      end
  end.


Definition handleDeleteAddress (error reloadFault : option PostgrestError.t)
           (addressId : string) (s : World.t * State) : World.t * State :=
  let '(w, st) := s in
  match profile st with
  | None => (w, st)
  | Some p =>
      match UserProfile.addresses p with
      | None => (w, st)
      | Some addresses =>
          match error with
          | Some e =>
              (World.toast
                 (Toast.mk (Js.orElse (Some (PostgrestError.message e))
                                      "Failed to delete address.")
                           None "destructive") w,
               st)
          | None =>
              let w1 :=
                World.withUserProfiles
                  (map (fun row =>
                          if String.eqb (UserProfile.id row) (UserProfile.id p)
                          then UserProfile.mk
                                 (UserProfile.id row) (UserProfile.name row)
                                 (UserProfile.phone row)
                                 (Some (filter
                                          (fun addr =>
                                             negb (String.eqb (Address.id addr) addressId))
                                          addresses))
                          else row)
                       (World.user_profiles w))
                  w in
              let w2 :=
                World.toast (Toast.mk "The address has been removed." None "default") w1 in
              fetchProfileData reloadFault (w2, st)
          end
      end
  end.

End ProfilePage.

(* ================================================================== *)
(** ** Company dashboard: order status *)
(* ================================================================== *)

Module Dashboard.

Record TimelineStep := mkStep {
  label : string;
  status : string
}.

Definition proTimelineSteps : list TimelineStep :=
  [ mkStep "Order Confirmed" "confirmed";
    mkStep "Payment Accepted" "payment_accepted";
    mkStep "Order is Being Prepared" "preparing";
    mkStep "Order Has Been Shipped" "shipped";
    mkStep "Order Successfully Delivered" "delivered" ].

Definition statusOrder : list string :=
  ["confirmed"; "payment_accepted"; "preparing"; "shipped"; "delivered"].

Record State := mkState {
  orders : list Order.t;
  isUpdating : bool;
  modalOpen : bool;
  selectedOrder : option Order.t
}.

(** The buttons of the update-status modal: the steps after the
    current one. *)
Definition availableSteps (currentOrder : Order.t) : list TimelineStep :=
  let currentStatusIndex := Js.indexOf statusOrder (Order.status currentOrder) in
  filter (fun step => Js.indexOf statusOrder (status step) >? currentStatusIndex)
         proTimelineSteps.

(** The "Update Status" button of an order card. *)
Definition updateButtonShown (order : Order.t) : bool :=
  negb (String.eqb (Order.status order) "delivered")
  && negb (String.eqb (Order.status order) "cancelled").

Definition openModal (order : Order.t) (st : State) : State :=
  mkState (orders st) (isUpdating st) true (Some order).

Definition setStatus (orderId newStatus : string) (os : list Order.t) : list Order.t :=
  map (fun order =>
         if String.eqb (Order.id order) orderId
         then Order.withStatus newStatus order else order)
      os.

Definition handleStatusUpdate (updateError : option PostgrestError.t)
           (orderId newStatus : string)
           (s : World.t * State) : World.t * State :=
  let '(w, st) := s in
  match updateError with
  | Some _ =>
      (World.toast
         (Toast.mk "Update Failed" (Some "Could not update order status.")
                   "destructive") w,
       mkState (orders st) false (modalOpen st) (selectedOrder st))
  | None =>
      (World.toast
         (Toast.mk "Status Updated!"
                   (Some ("Order " ++ Js.substring0 8 orderId ++ " status set to "
                          ++ newStatus ++ ".")%string)
                   "default")
         (World.withOrders (setStatus orderId newStatus (World.orders w)) w),
       mkState (setStatus orderId newStatus (orders st)) false false (selectedOrder st))
  end.

(** A click in the modal: the button exists only for an available step. *)
Definition clickStep (updateError : option PostgrestError.t)
           (target : string) (s : World.t * State) : option (World.t * State) :=
  match selectedOrder (snd s) with
  | Some currentOrder =>
      if existsb (fun step => String.eqb (status step) target)
                 (availableSteps currentOrder)
      then Some (handleStatusUpdate updateError (Order.id currentOrder) target s)
      else None
  | None => None
  end.

(** The realtime listener of the orders table: the status of the
    updated order is copied into the page. *)
Definition onOrderUpdate (updatedId updatedStatus : string) (st : State) : State :=
  mkState (setStatus updatedId updatedStatus (orders st))
          (isUpdating st) (modalOpen st) (selectedOrder st).

(** [orderStatusCounts]: an object from status to count, as an
    association list in insertion order. *)
Fixpoint getCount (acc : list (string * Z)) (key : string) : option Z :=
  match acc with
  | [] => None
  | (k, v) :: acc' => if String.eqb k key then Some v else getCount acc' key
  end.

Fixpoint setCount (acc : list (string * Z)) (key : string) (v : Z) : list (string * Z) :=
  match acc with
  | [] => [(key, v)]
  | (k, v0) :: acc' =>
      if String.eqb k key then (k, v) :: acc' else (k, v0) :: setCount acc' key v
  end.

(** [acc[key] || 0] *)
Definition countOrZero (acc : list (string * Z)) (key : string) : Z :=
  match getCount acc key with
  | Some v => if Z.eqb v 0 then 0 else v
  | None => 0
  end.

Definition orderStatusCounts (filteredOrders : list Order.t) : list (string * Z) :=
  Js.reduce
    (fun acc order =>
       setCount acc (Order.status order) (countOrZero acc (Order.status order) + 1))
    [] filteredOrders.

Definition statusLabels : list string :=
  ["Pending"; "Confirmed"; "Shipped"; "Delivered"; "Cancelled"].

(** The series of the pie chart. *)
Definition statusCounts (filteredOrders : list Order.t) : list Z :=
  let orderStatusCounts := orderStatusCounts filteredOrders in
  [ countOrZero orderStatusCounts "pending";
    countOrZero orderStatusCounts "confirmed";
    countOrZero orderStatusCounts "shipped";
    countOrZero orderStatusCounts "delivered";
    countOrZero orderStatusCounts "cancelled" ].

End Dashboard.

(* ================================================================== *)
(** ** Sample data *)
(* ================================================================== *)

Module Sample.

Definition honey : CartPage.CartItem :=
  CartPage.mkCartItem "line-1" "prod-honey" 1 200
    (Some (CartPage.mkProductInfo (Some "Forest Honey") (Some 200%float) (Some 250%float))).

Definition almonds : CartPage.CartItem :=
  CartPage.mkCartItem "line-2" "prod-almonds" 2 500
    (Some (CartPage.mkProductInfo (Some "Raw Almonds") (Some 500%float) (Some 650%float))).

(** A line added at 100 whose product now sells at 80. *)
Definition repriced : CartPage.CartItem :=
  CartPage.mkCartItem "line-3" "prod-tea" 1 100
    (Some (CartPage.mkProductInfo (Some "Green Tea") (Some 80%float) (Some 120%float))).

(** A line whose product row carries no price at all. *)
Definition unpriced : CartPage.CartItem :=
  CartPage.mkCartItem "line-4" "prod-ghee" 3 150
    (Some (CartPage.mkProductInfo (Some "Cow Ghee") None None)).

Definition cartOf (l : list CartPage.CartItem) (term : string) : CartPage.State :=
  CartPage.mkState l None false term.

(** A product whose selling price was set above its original price. *)
Definition markedUp : ProductPage.Product :=
  ProductPage.mkProduct "prod-saffron" "Saffron" 100 (Some 120%float).

Definition discounted : ProductPage.Product :=
  ProductPage.mkProduct "prod-honey" "Forest Honey" 250 (Some 200%float).

Definition cartRows : list CartRow.t :=
  [ CartRow.mk "line-1" "user-1" "prod-honey" 1 200;
    CartRow.mk "line-2" "user-1" "prod-almonds" 2 500;
    CartRow.mk "line-9" "user-2" "prod-honey" 4 200 ].

Definition productRows : list ProductRow.t :=
  [ ProductRow.mk "prod-honey" (Some "Forest Honey") (Some 200%float) (Some 250%float);
    ProductRow.mk "prod-almonds" (Some "Raw Almonds") (Some 500%float) (Some 650%float) ].

Definition home : Address.t :=
  Address.mk "addr-1" "Home" "A-101" "SV Road" "Andheri West" "Mumbai"
             "Maharashtra" "400001" "India" "9876543210" None true None None.

Definition office : Address.t :=
  Address.mk "addr-2" "Office" "7" "MG Road" "Fort" "Mumbai"
             "Maharashtra" "400002" "India" "9876543210" None false None None.

Definition profileRow : UserProfile.t :=
  UserProfile.mk "user-1" (Some "Asha") (Some "9876543210") (Some [home; office]).

Definition shippedOrder : Order.t :=
  Order.mk "order-0001" "user-1" 299 (Some "pay_0") "order_0" None "shipped"
           "2025-01-01T10:00:00.000Z" "Asha" "9876543210" None
           "India" "Maharashtra" "Mumbai" "400001" "Andheri West" "SV Road" "A-101"
           (None, None)
           [OrderItem.mk "item-0" "prod-honey" 1 200 "2025-01-01T10:00:00.000Z"].

Definition world : World.t :=
  World.mk (Some "user-1") cartRows productRows [shippedOrder] [profileRow] [] None.

Definition env : CheckoutDetailsModal.Env :=
  CheckoutDetailsModal.mkEnv
    (0%float, 0%float)
    (fun n => ("uuid-" ++ Js.numberToString (Z.of_nat n))%string)
    "2025-01-02T09:30:00.000Z"
    "order-0002".

(** The modal with the saved address [home] selected. *)
Definition modalState : CheckoutDetailsModal.State :=
  CheckoutDetailsModal.mkState
    true "order_1735810200000_42" "Asha" "9876543210" ""
    "India" "Maharashtra" "Mumbai" "400001" "Andheri West" "SV Road" "A-101"
    [home; office] (Some "addr-1").

(** The modal with a new address being entered. *)
Definition modalStateNew : CheckoutDetailsModal.State :=
  CheckoutDetailsModal.mkState
    true "order_1735810200000_42" "Asha" "9876543210" ""
    "India" "Goa" "Panaji" "403001" "Altinho" "Hill Road" "12"
    [home; office] (Some "new").

Definition response : CheckoutDetailsModal.RazorpayResponse :=
  CheckoutDetailsModal.mkResponse (Some "pay_1") None (Some "sig_1").

Definition declined : CheckoutDetailsModal.RazorpayError :=
  CheckoutDetailsModal.mkRazorpayError (Some "Card declined by bank").

(** The cart page of [user-1] after loading, with a search typed in. *)
Definition cartPage (term : string) : CartPage.State :=
  CartPage.setSearchTerm term
    (snd (CartPage.fetchCartItems None (world, CartPage.mkState [] None false ""))).

Definition dashboard : Dashboard.State :=
  Dashboard.mkState [shippedOrder] false true (Some shippedOrder).

Definition productPage : ProductPage.State :=
  ProductPage.mkState 3 false false false (Some "user-1").


(** The profile page while a new default address is added. *)
Definition profilePageAdding : ProfilePage.State :=
  ProfilePage.mkState (Some profileRow) true None "Farm" "3" "Mill Lane"
                      "Wada" "Palghar" "Maharashtra" "421303" "India"
                      "9876543210" "" true.

End Sample.

(* ================================================================== *)
(** ** Predicates of the statements *)
(* ================================================================== *)

(** The shipping fee of a subtotal, as both components spell it out. *)
Definition feeOf (subtotal : float) : float :=
  if Js.gt subtotal 0 && (subtotal <? 1000)%float then 99%float else 0%float.

(** The stored line items of an order, priced again the way the
    checkout priced them: accumulated from 0, line by line. *)
Definition itemsTotal (l : list OrderItem.t) : float :=
  Js.reduce
    (fun sum item =>
       (sum + OrderItem.price_at_purchase item * Js.ofZ (OrderItem.quantity item))%float)
    0%float l.

(** How many addresses of a list are marked default. *)
Definition countDefaults (l : list Address.t) : nat :=
  List.length (filter Address.isDefault l).

(** How many addresses of a list carry a given id. *)
Definition countId (i : string) (l : list Address.t) : nat :=
  List.length (filter (fun a => String.eqb (Address.id a) i) l).

(** The cart lines of a user for a product. *)
Definition linesOf (userId productId : string) (rows : list CartRow.t)
  : list CartRow.t :=
  filter (fun r => String.eqb (CartRow.user_id r) userId
                   && String.eqb (CartRow.product_id r) productId)
         rows.

Definition lineKey (r : CartRow.t) : string * string :=
  (CartRow.user_id r, CartRow.product_id r).

(** At most one cart line per user and product. *)
Definition oneLinePerProduct (rows : list CartRow.t) : Prop :=
  forall userId productId, (List.length (linesOf userId productId rows) <= 1)%nat.

(** [r'] is the row [r] where the quantity alone may differ: it is [q]
    for the line [itemId] of [userId] and the old one otherwise. *)
Definition requantifiedRow (itemId userId : string) (q : Z) (r r' : CartRow.t) : Prop :=
  CartRow.id r' = CartRow.id r
  /\ CartRow.user_id r' = CartRow.user_id r
  /\ CartRow.product_id r' = CartRow.product_id r
  /\ CartRow.price_at_add r' = CartRow.price_at_add r
  /\ CartRow.quantity r'
     = if String.eqb (CartRow.id r) itemId && String.eqb (CartRow.user_id r) userId
       then q else CartRow.quantity r.

(** The same for a line of the page. *)
Definition requantifiedItem (itemId : string) (q : Z)
           (item item' : CartPage.CartItem) : Prop :=
  CartPage.id item' = CartPage.id item
  /\ CartPage.product_id item' = CartPage.product_id item
  /\ CartPage.price_at_add item' = CartPage.price_at_add item
  /\ CartPage.products item' = CartPage.products item
  /\ CartPage.quantity item'
     = if String.eqb (CartPage.id item) itemId then q else CartPage.quantity item.

(** The ids of an address book identify its entries. *)
Definition uniqueIds (l : list Address.t) : Prop := NoDup (map Address.id l).


(** The address chosen in the checkout modal: a new one, or an entry of
    the saved list. *)
Definition selectsAnAddress (st : CheckoutDetailsModal.State) : Prop :=
  CheckoutDetailsModal.isNew st = true
  \/ exists s, CheckoutDetailsModal.selectedAddressId st = Some s
               /\ In s (map Address.id (CheckoutDetailsModal.userAddresses st)).

(** The page shows what the backend holds for the signed-in user. *)
Definition pageIsFresh (w : World.t) (st : CartPage.State) : Prop :=
  CartPage.cartItems st
  = CartPage.cartItems (snd (CartPage.fetchCartItems None (w, st))).

(** A line whose product row is gone, or carries no name. *)
Definition productMissing (item : CartPage.CartItem) : Prop :=
  match CartPage.products item with
  | None => True
  | Some p => CartPage.product_name p = None
  end.

(** The rows of a user, and the page line of a row, as the cart page
    loads them. *)
Definition ofUser (userId : string) (r : CartRow.t) : bool :=
  String.eqb (CartRow.user_id r) userId.

Definition lineOf (w : World.t) (r : CartRow.t) : CartPage.CartItem :=
  CartPage.mkCartItem (CartRow.id r) (CartRow.product_id r) (CartRow.quantity r)
                      (CartRow.price_at_add r)
                      (CartPage.joinedProduct w (CartRow.product_id r)).

(** The line has a product row with a name. *)
Definition hasProductName (item : CartPage.CartItem) : bool :=
  match CartPage.products item with
  | Some p => match CartPage.product_name p with Some _ => true | None => false end
  | None => false
  end.

(** The tables of [w'] are those of [w]. *)
Definition sameTables (w w' : World.t) : Prop :=
  World.cart_items w' = World.cart_items w
  /\ World.products w' = World.products w
  /\ World.orders w' = World.orders w
  /\ World.user_profiles w' = World.user_profiles w.

(** [w'] is [w] after one error notice and nothing else. *)
Definition onlyWarned (w w' : World.t) : Prop :=
  sameTables w w'
  /\ World.route w' = World.route w
  /\ exists t, World.toasts w' = World.toasts w ++ [t]
               /\ Toast.variant t = "destructive".

(* ================================================================== *)
(** ** Checkout-details modal: the form around the payment *)
(* ================================================================== *)

Module CheckoutForm.

(** The state of the modal: the variables [handlePaymentSuccess] reads
    ([fields]) and the remaining ones. *)
Record State := mkState {
  fields : CheckoutDetailsModal.State;
  loading : bool;
  error : option string;
  userEmail : string;
  showNewAddressForm : bool
}.

Definition setFields (f : CheckoutDetailsModal.State) (st : State) : State :=
  mkState f (loading st) (error st) (userEmail st) (showNewAddressForm st).

Definition setError (e : option string) (st : State) : State :=
  mkState (fields st) (loading st) e (userEmail st) (showNewAddressForm st).

Definition setShowNewAddressForm (b : bool) (st : State) : State :=
  mkState (fields st) (loading st) (error st) (userEmail st) b.

(** [!userName || !primaryPhone || !state || !city || !pincode ||
    !houseNumber || !street || !area] *)
Definition missingDetails (f : CheckoutDetailsModal.State) : bool :=
  negb (Js.truthy (CheckoutDetailsModal.userName f))
  || negb (Js.truthy (CheckoutDetailsModal.primaryPhone f))
  || negb (Js.truthy (CheckoutDetailsModal.state f))
  || negb (Js.truthy (CheckoutDetailsModal.city f))
  || negb (Js.truthy (CheckoutDetailsModal.pincode f))
  || negb (Js.truthy (CheckoutDetailsModal.houseNumber f))
  || negb (Js.truthy (CheckoutDetailsModal.street f))
  || negb (Js.truthy (CheckoutDetailsModal.area f)).

(** [tempOrderId] is the id made from the clock and a random number. *)
Definition handleFormSubmit (tempOrderId : string)
           (s : World.t * State) : World.t * State :=
  let '(w, st) := s in
  let st := setError None st in
  let f := fields st in
  if CheckoutDetailsModal.isNew f && missingDetails f then
    (World.toast
       (Toast.mk "Missing Details"
                 (Some "Please fill in all required shipping details.") "destructive") w,
     setError (Some "Please fill in all required shipping details for the new address.") st)
  else
    match Js.orNull (CheckoutDetailsModal.selectedAddressId f) with
    | None =>
        (World.toast
           (Toast.mk "Missing Address"
                     (Some "Please select or add a delivery address.") "destructive") w,
         setError (Some "Please select or add a delivery address.") st)
    | Some _ =>
        (w,
         mkState
           (CheckoutDetailsModal.mkState
              true tempOrderId
              (CheckoutDetailsModal.userName f) (CheckoutDetailsModal.primaryPhone f)
              (CheckoutDetailsModal.secondaryPhone f) (CheckoutDetailsModal.country f)
              (CheckoutDetailsModal.state f) (CheckoutDetailsModal.city f)
              (CheckoutDetailsModal.pincode f) (CheckoutDetailsModal.area f)
              (CheckoutDetailsModal.street f) (CheckoutDetailsModal.houseNumber f)
              (CheckoutDetailsModal.userAddresses f)
              (CheckoutDetailsModal.selectedAddressId f))
           false (error st) (userEmail st) (showNewAddressForm st))
    end.

(** The form filled from a saved address: contact name kept, the rest
    taken from the address. *)
Definition prefill (userName primaryPhone : string) (addrs : list Address.t)
           (selected : Address.t) (f : CheckoutDetailsModal.State)
  : CheckoutDetailsModal.State :=
  CheckoutDetailsModal.mkState
    (CheckoutDetailsModal.showRazorpay f) (CheckoutDetailsModal.orderId f)
    userName primaryPhone
    (Js.orElse (Address.secondaryPhone selected) "")
    (Js.orElse (Some (Address.country selected)) "India")
    (Js.orElse (Some (Address.state selected)) "")
    (Js.orElse (Some (Address.city selected)) "")
    (Js.orElse (Some (Address.pincode selected)) "")
    (Js.orElse (Some (Address.area selected)) "")
    (Js.orElse (Some (Address.street selected)) "")
    (Js.orElse (Some (Address.houseNumber selected)) "")
    addrs (Some (Address.id selected)).

(** The effect run when the modal opens.  [email] is the [email]
    column of the profile, which the tables of the model do not carry. *)
Definition fetchUserProfile (profileError : option PostgrestError.t)
           (email : option string) (s : World.t * State) : World.t * State :=
  let '(w, st) := s in
  match Js.orNull (World.session w) with
  | None => (w, st)
  | Some userId =>
      let '(profile, profileError) :=
        single profileError
               (filter (fun p => String.eqb (UserProfile.id p) userId)
                       (World.user_profiles w)) in
      match ProductPage.thrownFetchError profileError, profile with
      | Some _, _ => (w, st)
      | None, None => (w, st)
      | None, Some profile =>
          let f := fields st in
          let userName := Js.orElse (UserProfile.name profile) "" in
          let phone := Js.orElse (UserProfile.phone profile) "" in
          match UserProfile.addresses profile with
          | Some (first :: rest) =>
              let addrs := first :: rest in
              let defaultAddress :=
                Js.nullish (Js.find Address.isDefault addrs) first in
              (w,
               mkState
                 (prefill userName
                          (Js.orElse (Some (Address.primaryPhone defaultAddress)) phone)
                          addrs defaultAddress f)
                 (loading st) (error st) (Js.orElse email "") false)
          | _ =>
              (w,
               mkState
                 (CheckoutDetailsModal.mkState
                    (CheckoutDetailsModal.showRazorpay f) (CheckoutDetailsModal.orderId f)
                    userName phone
                    (CheckoutDetailsModal.secondaryPhone f) (CheckoutDetailsModal.country f)
                    (CheckoutDetailsModal.state f) (CheckoutDetailsModal.city f)
                    (CheckoutDetailsModal.pincode f) (CheckoutDetailsModal.area f)
                    (CheckoutDetailsModal.street f) (CheckoutDetailsModal.houseNumber f)
                    (CheckoutDetailsModal.userAddresses f) (Some "new"))
                 (loading st) (error st) (Js.orElse email "") true)
          end
      end
  end.

(** A choice in the radio group of saved addresses. *)
Definition handleAddressSelectionChange (value : string) (st : State) : State :=
  let f := fields st in
  if String.eqb value "new" then
    mkState
      (CheckoutDetailsModal.mkState
         (CheckoutDetailsModal.showRazorpay f) (CheckoutDetailsModal.orderId f)
         (CheckoutDetailsModal.userName f) (CheckoutDetailsModal.primaryPhone f)
         "" "India" "" "" "" "" "" ""
         (CheckoutDetailsModal.userAddresses f) (Some value))
      (loading st) (error st) (userEmail st) true
  else
    match Js.find (fun addr => String.eqb (Address.id addr) value)
                  (CheckoutDetailsModal.userAddresses f) with
    | Some selected =>
        mkState
          (prefill (CheckoutDetailsModal.userName f)
                   (Js.orElse (Some (Address.primaryPhone selected)) "")
                   (CheckoutDetailsModal.userAddresses f) selected f)
          (loading st) (error st) (userEmail st) false
    | None =>
        mkState
          (CheckoutDetailsModal.mkState
             (CheckoutDetailsModal.showRazorpay f) (CheckoutDetailsModal.orderId f)
             (CheckoutDetailsModal.userName f) (CheckoutDetailsModal.primaryPhone f)
             (CheckoutDetailsModal.secondaryPhone f) (CheckoutDetailsModal.country f)
             (CheckoutDetailsModal.state f) (CheckoutDetailsModal.city f)
             (CheckoutDetailsModal.pincode f) (CheckoutDetailsModal.area f)
             (CheckoutDetailsModal.street f) (CheckoutDetailsModal.houseNumber f)
             (CheckoutDetailsModal.userAddresses f) (Some value))
          (loading st) (error st) (userEmail st) false
    end.

(** The "Set as Default Address" checkbox of the new-address form. *)
Definition onCheckedChange (checked : bool) (st : State) : State :=
  let f := fields st in
  let select (sel : option string) :=
    setFields
      (CheckoutDetailsModal.mkState
         (CheckoutDetailsModal.showRazorpay f) (CheckoutDetailsModal.orderId f)
         (CheckoutDetailsModal.userName f) (CheckoutDetailsModal.primaryPhone f)
         (CheckoutDetailsModal.secondaryPhone f) (CheckoutDetailsModal.country f)
         (CheckoutDetailsModal.state f) (CheckoutDetailsModal.city f)
         (CheckoutDetailsModal.pincode f) (CheckoutDetailsModal.area f)
         (CheckoutDetailsModal.street f) (CheckoutDetailsModal.houseNumber f)
         (CheckoutDetailsModal.userAddresses f) sel)
      st in
  if checked then select (Some "new")
  else
    match CheckoutDetailsModal.userAddresses f with
    | first :: _ => select (Some (Address.id first))
    | [] => select None
    end.

End CheckoutForm.

(** The form can be paid: an address is chosen and, for a new address,
    every required detail is filled in. *)
Definition formComplete (f : CheckoutDetailsModal.State) : Prop :=
  (exists s, CheckoutDetailsModal.selectedAddressId f = Some s /\ s <> "")
  /\ (CheckoutDetailsModal.selectedAddressId f = Some "new" ->
      CheckoutDetailsModal.userName f <> ""
      /\ CheckoutDetailsModal.primaryPhone f <> ""
      /\ CheckoutDetailsModal.state f <> ""
      /\ CheckoutDetailsModal.city f <> ""
      /\ CheckoutDetailsModal.pincode f <> ""
      /\ CheckoutDetailsModal.houseNumber f <> ""
      /\ CheckoutDetailsModal.street f <> ""
      /\ CheckoutDetailsModal.area f <> "").

(** The shipping columns of an order are the fields of an address. *)
Definition shipsTo (o : Order.t) (a : Address.t) : Prop :=
  Order.country o = Address.country a
  /\ Order.state o = Address.state a
  /\ Order.city o = Address.city a
  /\ Order.pincode o = Address.pincode a
  /\ Order.area o = Address.area a
  /\ Order.street o = Address.street a
  /\ Order.house_number o = Address.houseNumber a
  /\ Order.location o = (Address.lat a, Address.lng a).

(** A success callback that leaves orders and profiles alone, as those
    of the cart page and of the product page do. *)
Definition keepsOrdersAndProfiles {Parent : Type}
           (onOrderSuccess : World.t * Parent -> World.t * Parent) : Prop :=
  forall s, World.orders (fst (onOrderSuccess s)) = World.orders (fst s)
            /\ World.user_profiles (fst (onOrderSuccess s))
               = World.user_profiles (fst s).

(* ================================================================== *)
(** ** Product details: favourites, reviews and the reload *)
(* ================================================================== *)

(** A row of [favorites]. *)
Module Favorite.
Record t := mk {
  user_id : string;
  product_id : string
}.
End Favorite.

(** A row of [reviews]. *)
Module Review.
Record t := mk {
  product_id : string;
  user_id : string;
  rating : Z;
  comment : string;
  created_at : string
}.
End Review.

Module ProductDetails.

(** The tables of the backend beside those of [World.t]. *)
Record Tables := mkTables {
  favorites : list Favorite.t;
  reviews : list Review.t
}.

(** The state of the component beside [ProductPage.State]. *)
Record Extra := mkExtra {
  isFavorite : bool;
  showReviewModal : bool;
  reviewRating : Z;
  reviewText : string;
  hasReviewed : bool
}.

Definition favoritesOf (userId productId : string) (l : list Favorite.t)
  : list Favorite.t :=
  filter (fun r => String.eqb (Favorite.user_id r) userId
                   && String.eqb (Favorite.product_id r) productId) l.

Definition reviewsOf (userId productId : string) (l : list Review.t) : list Review.t :=
  filter (fun r => String.eqb (Review.user_id r) userId
                   && String.eqb (Review.product_id r) productId) l.

(** [!!data] *)
Definition present {A : Type} (data : option A) : bool :=
  match data with Some _ => true | None => false end.

(** The effect that loads the user's status for the product: the three
    faults are those of the cart, favourite and review lookups. *)
Definition fetchUserData (cartFault favFault reviewFault : option PostgrestError.t)
           (product : ProductPage.Product)
           (s : World.t * Tables * ProductPage.State * Extra)
  : World.t * Tables * ProductPage.State * Extra :=
  let '(w, tb, st, ex) := s in
  match Js.orNull (World.session w) with
  | Some userId =>
      let cartData :=
        fst (single cartFault
                    (filter (fun r => String.eqb (CartRow.user_id r) userId
                                      && String.eqb (CartRow.product_id r)
                                                    (ProductPage.id product))
                            (World.cart_items w))) in
      let favData :=
        fst (single favFault (favoritesOf userId (ProductPage.id product) (favorites tb))) in
      let reviewData :=
        fst (single reviewFault (reviewsOf userId (ProductPage.id product) (reviews tb))) in
      (w, tb,
       ProductPage.mkState
         (match cartData with Some row => CartRow.quantity row | None => 1 end)
         (ProductPage.showAuthPopup st)
         (present cartData)
         (ProductPage.showCheckoutModal st)
         (Some userId),
       mkExtra (present favData) (showReviewModal ex) (reviewRating ex) (reviewText ex)
               (present reviewData))
  | None =>
      (w, tb,
       ProductPage.mkState 1 (ProductPage.showAuthPopup st) false
                           (ProductPage.showCheckoutModal st) None,
       mkExtra false (showReviewModal ex) (reviewRating ex) (reviewText ex) false)
  end.

Definition toggleFavorite (error : option PostgrestError.t)
           (product : ProductPage.Product)
           (s : World.t * Tables * ProductPage.State * Extra)
  : World.t * Tables * ProductPage.State * Extra :=
  let '(w, tb, st, ex) := s in
  match Js.orNull (ProductPage.currentUserId st) with
  | None => (w, tb, ProductPage.setShowAuthPopup true st, ex)
  | Some userId =>
      match error with
      | Some e =>
          (World.toast
             (Toast.mk "Error"
                       (Some (Js.orElse (Some (PostgrestError.message e))
                                        "Could not update favorites."))
                       "destructive") w,
           tb, st, ex)
      | None =>
          if isFavorite ex then
            (World.toast
               (Toast.mk "Removed from favorites"
                         (Some (ProductPage.productName product
                                ++ " removed from your wishlist.")%string)
                         "default") w,
             mkTables
               (filter (fun r => negb (String.eqb (Favorite.user_id r) userId
                                       && String.eqb (Favorite.product_id r)
                                                     (ProductPage.id product)))
                       (favorites tb))
               (reviews tb),
             st,
             mkExtra false (showReviewModal ex) (reviewRating ex) (reviewText ex)
                     (hasReviewed ex))
          else
            (World.toast
               (Toast.mk "Added to favorites!"
                         (Some (ProductPage.productName product
                                ++ " added to your wishlist.")%string)
                         "default") w,
             mkTables
               (favorites tb ++ [Favorite.mk userId (ProductPage.id product)])
               (reviews tb),
             st,
             mkExtra true (showReviewModal ex) (reviewRating ex) (reviewText ex)
                     (hasReviewed ex))
      end
  end.

Definition reviewErrorToast (e : PostgrestError.t) : Toast.t :=
  Toast.mk "Error"
           (Some (Js.orElse (Some (PostgrestError.message e)) "Could not submit review."))
           "destructive".

(** [now] is the clock's reading. *)
Definition handleReviewSubmit (fetchFault insertError : option PostgrestError.t)
           (now : string) (product : ProductPage.Product)
           (s : World.t * Tables * ProductPage.State * Extra)
  : World.t * Tables * ProductPage.State * Extra :=
  let '(w, tb, st, ex) := s in
  match Js.orNull (ProductPage.currentUserId st) with
  | None => (w, tb, ProductPage.setShowAuthPopup true st, ex)
  | Some userId =>
      let '(existingReview, fetchReviewError) :=
        single fetchFault (reviewsOf userId (ProductPage.id product) (reviews tb)) in
      match ProductPage.thrownFetchError fetchReviewError with
      | Some e => (World.toast (reviewErrorToast e) w, tb, st, ex)
      | None =>
          match existingReview with
          | Some _ =>
              (World.toast
                 (Toast.mk "Already Reviewed"
                           (Some "You have already reviewed this product!") "default") w,
               tb, st, ex)
          | None =>
              match insertError with
              | Some e => (World.toast (reviewErrorToast e) w, tb, st, ex)
              | None =>
                  (World.toast
                     (Toast.mk "Review Submitted!"
                               (Some "Your review has been successfully submitted.")
                               "default") w,
                   mkTables
                     (favorites tb)
                     (reviews tb ++
                      [Review.mk (ProductPage.id product) userId (reviewRating ex)
                                 (reviewText ex) now]),
                   st,
                   mkExtra (isFavorite ex) false 5 "" true)
              end
          end
      end
  end.

(** The reviews shown for the product, and their number. *)
Definition fetchReviews (product : ProductPage.Product) (tb : Tables) : list Review.t :=
  filter (fun r => String.eqb (Review.product_id r) (ProductPage.id product)) (reviews tb).

Definition reviewCount (product : ProductPage.Product) (tb : Tables) : Z :=
  Z.of_nat (List.length (fetchReviews product tb)).

End ProductDetails.

(** At most one review per user and product. *)
Definition oneReviewPerProduct (l : list Review.t) : Prop :=
  forall userId productId,
    (List.length (ProductDetails.reviewsOf userId productId l) <= 1)%nat.

(* ================================================================== *)
(** ** The order status timeline *)
(* ================================================================== *)

(** The timeline shown to the customer and, inline, on the order cards
    of the dashboard; both use the steps and the order of
    [Dashboard]. *)
Module OrderStatusTimeline.

Definition isActive (currentStatus : string) (step : Dashboard.TimelineStep) : bool :=
  Js.indexOf Dashboard.statusOrder (Dashboard.status step)
  =? Js.indexOf Dashboard.statusOrder currentStatus.

Definition isCompleted (currentStatus : string) (step : Dashboard.TimelineStep) : bool :=
  Js.indexOf Dashboard.statusOrder (Dashboard.status step)
  <? Js.indexOf Dashboard.statusOrder currentStatus.

(** The three looks of a step icon. *)
Inductive Look := Active | Completed | Inactive.

(** [isActive ? ... : isCompleted ? ... : ...] *)
Definition look (currentStatus : string) (step : Dashboard.TimelineStep) : Look :=
  if isActive currentStatus step then Active
  else if isCompleted currentStatus step then Completed
  else Inactive.

Definition timeline (currentStatus : string) : list (string * Look) :=
  map (fun step => (Dashboard.label step, look currentStatus step))
      Dashboard.proTimelineSteps.

End OrderStatusTimeline.

(** The sum of a list of numbers. *)
Definition total (l : list Z) : Z := fold_right Z.add 0 l.

(** How many orders have a given status. *)
Definition ordersWithStatus (s : string) (l : list Order.t) : Z :=
  Z.of_nat (List.length (filter (fun o => String.eqb (Order.status o) s) l)).

(* ================================================================== *)
(** ** Vendor dashboard: the statistics *)
(* ================================================================== *)

(** [DashboardPage]: the overview a vendor sees.  The answers of the
    four backend calls of [fetchDashboardStats] are its arguments.  The
    three chart series, which depend on the browser's clock and locale,
    are computed beside the figures below and are not part of [Stats]. *)
Module DashboardPage.

(** A row of [products] as the dashboard selects it. *)
Module ProductData.
Record t := mk {
  id : string;
  product_name : string;
  discount_price : option float;
  original_price : option float;
  stock_quantity : Z;
  is_approved : bool;
  product_photo_urls : list string
}.
End ProductData.

(** A value of [productSales]. *)
Module Sale.
Record t := mk {
  units : Z;
  revenue : float
}.
End Sale.

(** An entry of [allSellingProducts]. *)
Module SellingProduct.
Record t := mk {
  product_id : string;
  product_name : string;
  units_sold : Z;
  revenue_generated : float;
  product_photo_urls : list string
}.
End SellingProduct.

Record Stats := mkStats {
  companyName : string;
  totalProducts : Z;
  totalSalesAmount : float;
  totalOrders : Z;
  pendingOrders : Z;
  activeListings : Z;
  outOfStockProducts : Z;
  lowStockProducts : list ProductData.t;
  allSellingProducts : list SellingProduct.t
}.

Record State := mkState {
  stats : option Stats;
  loading : bool;
  error : option string
}.

(** [productsData?.f(...)] followed by [|| d], where [d] is what [f]
    gives on no rows. *)
Definition orEmpty {A : Type} (data : option (list A)) : list A :=
  match data with
  | Some rows => rows
  | None => []
  end.

(** [new Set(productsData?.map((p) => p.id))] and its [has]. *)
Definition companyProductIds (productsData : option (list ProductData.t)) : list string :=
  map ProductData.id (orEmpty productsData).

Definition has (ids : list string) (x : string) : bool :=
  existsb (String.eqb x) ids.

(** [new Map(productsData?.map((p) => [p.id, p]))] and its [get]: of
    two rows with one id the later one is kept. *)
Definition productDetailsMap_get (productsData : option (list ProductData.t))
           (productId : string) : option ProductData.t :=
  Js.find (fun p => String.eqb (ProductData.id p) productId)
          (rev (orEmpty productsData)).

(** [productSales], an object keyed by product id.  Product ids are
    uuids, and keys that are not array indices are listed in insertion
    order.  [addSale] creates the entry at zero when it is missing and
    then adds to both of its fields. *)
Fixpoint addSale (productSales : list (string * Sale.t)) (productId : string)
         (quantity : Z) (amount : float) : list (string * Sale.t) :=
  match productSales with
  | [] => [(productId, Sale.mk (0 + quantity) (0 + amount)%float)]
  | (k, v) :: rest =>
      if String.eqb k productId
      then (k, Sale.mk (Sale.units v + quantity) (Sale.revenue v + amount)%float) :: rest
      else (k, v) :: addSale rest productId quantity amount
  end.

(** The variables of the loop over the items of one order. *)
Record ItemAcc := mkItemAcc {
  hasCompanyProductInOrder : bool;
  companySpecificOrderAmount : float;
  itemSales : list (string * Sale.t)
}.

Definition itemStep (ids : list string) (a : ItemAcc) (item : OrderItem.t) : ItemAcc :=
  if has ids (OrderItem.product_id item)
  then mkItemAcc true
                 (companySpecificOrderAmount a
                  + OrderItem.price_at_purchase item * Js.ofZ (OrderItem.quantity item))%float
                 (addSale (itemSales a) (OrderItem.product_id item)
                          (OrderItem.quantity item)
                          (OrderItem.price_at_purchase item
                           * Js.ofZ (OrderItem.quantity item))%float)
  else a.

(** The variables of the loop over the orders. *)
Record Acc := mkAcc {
  accSalesAmount : float;
  accOrders : Z;
  accPending : Z;
  productSales : list (string * Sale.t)
}.

Definition orderStep (ids : list string) (acc : Acc) (order : Order.t) : Acc :=
  let r := fold_left (itemStep ids) (Order.order_items order)
                     (mkItemAcc false 0 (productSales acc)) in
  if hasCompanyProductInOrder r
  then mkAcc (accSalesAmount acc + companySpecificOrderAmount r)%float
             (accOrders acc + 1)
             (if String.eqb (Order.status order) "pending"
                 || String.eqb (Order.status order) "confirmed"
              then accPending acc + 1 else accPending acc)
             (itemSales r)
  else mkAcc (accSalesAmount acc) (accOrders acc) (accPending acc) (itemSales r).

Definition aggregate (ids : list string) (allOrdersData : list Order.t) : Acc :=
  fold_left (orderStep ids) allOrdersData (mkAcc 0 0 0 []).

(** [.sort((a, b) => b.units_sold - a.units_sold)]: the sort is stable,
    so an entry moves behind a later one only when the comparator is
    positive. *)
Fixpoint insertSorted (a : SellingProduct.t) (sorted : list SellingProduct.t)
  : list SellingProduct.t :=
  match sorted with
  | [] => [a]
  | b :: rest =>
      if SellingProduct.units_sold b - SellingProduct.units_sold a >? 0
      then b :: insertSorted a rest
      else a :: sorted
  end.

Definition sortByUnits (l : list SellingProduct.t) : list SellingProduct.t :=
  fold_right insertSorted [] l.

Definition sellingProduct (productsData : option (list ProductData.t))
           (entry : string * Sale.t) : SellingProduct.t :=
  let '(productId, data) := entry in
  let productInfo := productDetailsMap_get productsData productId in
  SellingProduct.mk
    productId
    (Js.orElse (option_map ProductData.product_name productInfo) "Unknown Product")
    (Sale.units data)
    (Sale.revenue data)
    (match productInfo with
     | Some p => ProductData.product_photo_urls p
     | None => []
     end).

Definition computeStats (companyName : string)
           (productsData : option (list ProductData.t))
           (allOrdersData : option (list Order.t)) : Stats :=
  let rows := orEmpty productsData in
  let acc := aggregate (companyProductIds productsData) (orEmpty allOrdersData) in
  mkStats
    companyName
    (Z.of_nat (List.length rows))
    (accSalesAmount acc)
    (accOrders acc)
    (accPending acc)
    (Z.of_nat (List.length (filter ProductData.is_approved rows)))
    (Z.of_nat (List.length (filter (fun p => ProductData.stock_quantity p =? 0) rows)))
    (filter (fun p => (ProductData.stock_quantity p >? 0)
                      && (ProductData.stock_quantity p <? 10)) rows)
    (sortByUnits (map (sellingProduct productsData) (productSales acc))).

(** The effect: each backend call may fail, and the first failure ends
    the load with its message. *)
Definition fetchDashboardStats
           (session : option string) (sessionError : option PostgrestError.t)
           (companyData : option (string * string))
           (companyError : option PostgrestError.t)
           (productsData : option (list ProductData.t))
           (productsError : option PostgrestError.t)
           (allOrdersData : option (list Order.t))
           (ordersError : option PostgrestError.t)
           (st : State) : State :=
  match sessionError, session with
  | None, Some _ =>
      match companyError, companyData with
      | None, Some (_, companyName) =>
          match productsError with
          | Some _ => mkState (stats st) false (Some "Failed to load product data.")
          | None =>
              match ordersError with
              | Some _ => mkState (stats st) false (Some "Failed to load order data.")
              | None =>
                  mkState (Some (computeStats companyName productsData allOrdersData))
                          false None
              end
          end
      | _, _ => mkState (stats st) false (Some "Company not found or not approved.")
      end
  | _, _ => mkState (stats st) false (Some "Authentication required.")
  end.

End DashboardPage.

(** Figures in decreasing order. *)
Fixpoint descending (l : list Z) : Prop :=
  match l with
  | [] => True
  | x :: l' => Forall (fun y => y <= x) l' /\ descending l'
  end.

(** An order with at least one item of the vendor. *)
Definition hasCompanyItem (ids : list string) (order : Order.t) : bool :=
  existsb (fun item => DashboardPage.has ids (OrderItem.product_id item))
          (Order.order_items order).

(** The items of an order that are products of the vendor, and those
    of all orders, in the order the loops visit them. *)
Definition companyItems (ids : list string) (order : Order.t) : list OrderItem.t :=
  filter (fun item => DashboardPage.has ids (OrderItem.product_id item))
         (Order.order_items order).

Definition soldItems (ids : list string) (orders : list Order.t) : list OrderItem.t :=
  flat_map (companyItems ids) orders.

Definition lineAmount (item : OrderItem.t) : float :=
  (OrderItem.price_at_purchase item * Js.ofZ (OrderItem.quantity item))%float.

(** [companySpecificOrderAmount] of an order: the amounts of its vendor
    items, accumulated from 0. *)
Definition orderAmount (ids : list string) (order : Order.t) : float :=
  fold_left (fun amount item => (amount + lineAmount item)%float)
            (companyItems ids order) 0%float.

(** The quantities of the items of one product. *)
Definition soldUnits (productId : string) (items : list OrderItem.t) : Z :=
  total (map OrderItem.quantity
             (filter (fun item => String.eqb (OrderItem.product_id item) productId)
                     items)).

(** The units [productSales] holds for a product, 0 when it has no
    entry. *)
Definition unitsOf (productSales : list (string * DashboardPage.Sale.t))
           (productId : string) : Z :=
  match Js.find (fun e => String.eqb (fst e) productId) productSales with
  | Some e => DashboardPage.Sale.units (snd e)
  | None => 0
  end.

Definition awaitsVendor (order : Order.t) : bool :=
  String.eqb (Order.status order) "pending"
  || String.eqb (Order.status order) "confirmed".

(* ================================================================== *)
(** ** Vendor orders page: the load *)
(* ================================================================== *)

(** [fetchCompanyOrders] of [CompanyMyOrdersPage].  The answers of the
    session, company and orders calls are arguments; the two reads of
    [products] are filters of the table.  [Dashboard.State] keeps of
    each loaded order the row [ResolvedOrder.order]. *)
Module CompanyOrders.

(** A row of [products], columns [id, product_name,
    product_photo_urls, company_id]. *)
Module ProductDetailsForOrder.
Record t := mk {
  id : string;
  product_name : string;
  product_photo_urls : list string;
  company_id : string
}.
End ProductDetailsForOrder.

(** [{ ...item, products }] *)
Module OrderItemWithProduct.
Record t := mk {
  item : OrderItem.t;
  products : option ProductDetailsForOrder.t
}.
End OrderItemWithProduct.

(** [{ ...order, resolved_order_items }] *)
Module ResolvedOrder.
Record t := mk {
  order : Order.t;
  resolved_order_items : list OrderItemWithProduct.t
}.
End ResolvedOrder.

Record State := mkState {
  orders : list ResolvedOrder.t;
  loading : bool;
  error : option string
}.

(** [.from("products").select("id, company_id").eq("company_id", companyId)]
    and the set of its ids. *)
Definition companyProductIds (productsTable : list ProductDetailsForOrder.t)
           (companyId : string) : list string :=
  map ProductDetailsForOrder.id
      (filter (fun p => String.eqb (ProductDetailsForOrder.company_id p) companyId)
              productsTable).

Definition filteredCompanyOrders (ids : list string)
           (allOrdersData : option (list Order.t)) : list Order.t :=
  filter (fun order =>
            existsb (fun item => DashboardPage.has ids (OrderItem.product_id item))
                    (Order.order_items order))
         (DashboardPage.orEmpty allOrdersData).

(** The set of the product ids of all items of the orders kept. *)
Definition productIdsInCompanyOrders (kept : list Order.t) : list string :=
  flat_map (fun order => map OrderItem.product_id (Order.order_items order)) kept.

(** [productsMap]: filled from [.in("id", ids)] unless that read
    failed or there was no id to ask for; of two rows with one id the
    later one is kept. *)
Definition productsMap (productsTable : list ProductDetailsForOrder.t)
           (productsDetailsError : option PostgrestError.t)
           (ids : list string) : list ProductDetailsForOrder.t :=
  match ids with
  | [] => []
  | _ :: _ =>
      match productsDetailsError with
      | Some _ => []
      | None =>
          filter (fun p => DashboardPage.has ids (ProductDetailsForOrder.id p))
                 productsTable
      end
  end.

Definition productsMap_get (entries : list ProductDetailsForOrder.t)
           (productId : string) : option ProductDetailsForOrder.t :=
  Js.find (fun p => String.eqb (ProductDetailsForOrder.id p) productId) (rev entries).

Definition resolvedOrders (companyIds : list string)
           (entries : list ProductDetailsForOrder.t)
           (kept : list Order.t) : list ResolvedOrder.t :=
  map (fun order =>
         ResolvedOrder.mk
           order
           (map (fun item =>
                   OrderItemWithProduct.mk
                     item (productsMap_get entries (OrderItem.product_id item)))
                (filter (fun item =>
                           DashboardPage.has companyIds (OrderItem.product_id item))
                        (Order.order_items order))))
      kept.

Definition fetchCompanyOrders
           (session : option string) (sessionError : option PostgrestError.t)
           (companyData : option string) (companyError : option PostgrestError.t)
           (productsTable : list ProductDetailsForOrder.t)
           (productsError : option PostgrestError.t)
           (allOrdersData : option (list Order.t))
           (allOrdersError : option PostgrestError.t)
           (productsDetailsError : option PostgrestError.t)
           (s : World.t * State) : World.t * State :=
  let '(w, st) := s in
  (* setLoading(true); setError(null) *)
  match sessionError, session with
  | None, Some _ =>
      match companyError, companyData with
      | None, Some companyId =>
          match productsError with
          | Some _ =>
              (w, mkState (orders st) false
                          (Some "Failed to load company products for order filtering."))
          | None =>
              let companyProductIds := companyProductIds productsTable companyId in
              match companyProductIds with
              | [] => (w, mkState [] false None)
              | _ :: _ =>
                  match allOrdersError with
                  | Some _ =>
                      (w, mkState [] false
                                  (Some "Failed to load orders. Please try again."))
                  | None =>
                      let kept := filteredCompanyOrders companyProductIds allOrdersData in
                      match kept with
                      | [] => (w, mkState [] false None)
                      | _ :: _ =>
                          let entries :=
                            productsMap productsTable productsDetailsError
                                        (productIdsInCompanyOrders kept) in
                          (w, mkState (resolvedOrders companyProductIds entries kept)
                                      false None)
                      end
                  end
              end
          end
      | _, _ =>
          (w, mkState (orders st) false (Some "Company record not found for this user."))
      end
  | _, _ =>
      (World.routerPush "/login"
         (World.toast
            (Toast.mk "Authentication Required"
                      (Some "Please log in to view your company's orders.")
                      "destructive") w),
       mkState (orders st) true None)
  end.

End CompanyOrders.

(* ================================================================== *)
(** ** More sample data *)
(* ================================================================== *)

Module Scenario.

(** The checkout form with a complete new address, not yet submitted. *)
Definition formNew : CheckoutForm.State :=
  CheckoutForm.mkState
    (CheckoutDetailsModal.mkState
       false "" "Asha" "9876543210" ""
       "India" "Goa" "Panaji" "403001" "Altinho" "Hill Road" "12"
       [Sample.home; Sample.office] (Some "new"))
    false None "asha@example.org" true.

(** The same form with the city left empty. *)
Definition formNoCity : CheckoutForm.State :=
  CheckoutForm.mkState
    (CheckoutDetailsModal.mkState
       false "" "Asha" "9876543210" ""
       "India" "Goa" "" "403001" "Altinho" "Hill Road" "12"
       [Sample.home; Sample.office] (Some "new"))
    false None "asha@example.org" true.

(** The form as the modal first renders it. *)
Definition formBlank : CheckoutForm.State :=
  CheckoutForm.mkState
    (CheckoutDetailsModal.mkState
       false "" "" "" "" "India" "" "" "" "" "" "" [] None)
    false None "" false.

(** A product that is not in the sample cart. *)
Definition ghee : ProductPage.Product :=
  ProductPage.mkProduct "prod-ghee" "Cow Ghee" 900 (Some 750%float).

Definition tables : ProductDetails.Tables :=
  ProductDetails.mkTables
    [Favorite.mk "user-2" "prod-ghee"]
    [Review.mk "prod-ghee" "user-2" 4 "Good" "2025-01-01T08:00:00.000Z"].

Definition extra : ProductDetails.Extra :=
  ProductDetails.mkExtra false true 3 "Too salty" false.

(** An address as the checkout stores it, with coordinates. *)
Definition farm : Address.t :=
  Address.mk "addr-3" "3, Mill Lane" "3" "Mill Lane" "Wada" "Palghar"
             "Maharashtra" "421303" "India" "9876543210" (Some "") false
             (Some 19%float) (Some 73%float).

Definition farmProfile : UserProfile.t :=
  UserProfile.mk "user-1" (Some "Asha") (Some "9876543210") (Some [Sample.home; farm]).


(** The vendor's catalogue on the dashboard: honey is nearly sold out,
    almonds are sold out. *)
Definition catalogue : list DashboardPage.ProductData.t :=
  [ DashboardPage.ProductData.mk "prod-honey" "Forest Honey" (Some 200%float) (Some 250%float)
                                 4 true [];
    DashboardPage.ProductData.mk "prod-almonds" "" None (Some 500%float) 0 false [] ].

(** The dashboard before its first load. *)
Definition overview : DashboardPage.State :=
  DashboardPage.mkState None true None.


(** The [products] table behind the vendor's orders page: the two
    catalogue products of company-1 and one of another vendor. *)
Definition productsTable : list CompanyOrders.ProductDetailsForOrder.t :=
  [ CompanyOrders.ProductDetailsForOrder.mk "prod-honey" "Forest Honey" [] "company-1";
    CompanyOrders.ProductDetailsForOrder.mk "prod-almonds" "" [] "company-1";
    CompanyOrders.ProductDetailsForOrder.mk "prod-ghee" "Cow Ghee" [] "company-2" ].

(** The orders page before its first load. *)
Definition ordersPage : CompanyOrders.State :=
  CompanyOrders.mkState [] true None.



(** The lines of a checkout of three units at 33.33. *)
Definition threeJars : list CheckoutItem :=
  [mkCheckoutItem "prod-jam" "Fig Jam" 3 (Js.ofCents 3333)].


End Scenario.

(* ================================================================== *)
(** ** Sums *)
(* ================================================================== *)

Section Sums.

Context {A : Type} (f : A -> Z).

Lemma reduce_shift (l : list A) (a : Z) :
  Js.reduce (fun sum x => sum + f x) a l
  = a + Js.reduce (fun sum x => sum + f x) 0 l.
Proof.
  unfold Js.reduce. revert a.
  induction l as [|x l IH]; intros a; simpl.
  - lia.
  - rewrite (IH (a + f x)), (IH (f x)). lia.
Qed.

Lemma reduce_cons (x : A) (l : list A) :
  Js.reduce (fun sum x => sum + f x) 0 (x :: l)
  = f x + Js.reduce (fun sum x => sum + f x) 0 l.
Proof.
  change (Js.reduce (fun sum x => sum + f x) 0 (x :: l))
    with (Js.reduce (fun sum x => sum + f x) (0 + f x) l).
  rewrite reduce_shift. lia.
Qed.

End Sums.

Lemma reduce_map {A B C : Type} (g : A -> B) (step : C -> B -> C) (init : C)
      (l : list A) :
  Js.reduce step init (map g l) = Js.reduce (fun acc x => step acc (g x)) init l.
Proof.
  unfold Js.reduce. revert init.
  induction l as [|x l IH]; intros init; [reflexivity|]. simpl. apply IH.
Qed.

(* ================================================================== *)
(** ** Comparing numbers *)
(* ================================================================== *)




(** Two numbers that [===] tells apart are different. *)
Lemma number_neq (x y : float) : (x =? y)%float = false -> (x =? x)%float = true -> x <> y.
Proof. intros Hxy Hxx E. rewrite <- E in Hxy. congruence. Qed.


(* ================================================================== *)
(** ** Cart totals *)
(* ================================================================== *)




(* ================================================================== *)
(** ** Which price a cart line is charged at *)
(* ================================================================== *)

(** The price chain of the cart page, case by case. *)
Lemma unitPrice_cases (item : CartPage.CartItem) :
  CartPage.unitPrice item =
  match CartPage.products item with
  | Some p =>
      match CartPage.discount_price p, CartPage.original_price p with
      | Some d, _ => d
      | None, Some o => o
      | None, None => CartPage.price_at_add item
      end
  | None => CartPage.price_at_add item
  end.
Proof.
  unfold CartPage.unitPrice.
  destruct (CartPage.products item) as [p|]; [|reflexivity].
  destruct (CartPage.discount_price p), (CartPage.original_price p); reflexivity.
Qed.

(** C2, as stated, fails: a line added at 100 whose product sells at 80
    when the cart is shown enters the subtotal, and the checkout modal,
    at 80. *)
Lemma repriced_line_charged_at_catalog_price :
  (CartPage.price_at_add Sample.repriced
   * Js.ofZ (CartPage.quantity Sample.repriced))%float = 100%float
  /\ CartPage.subtotal (Sample.cartOf [Sample.repriced] "") = 80%float
  /\ map price_at_add (CartPage.checkoutItems (Sample.cartOf [Sample.repriced] ""))
     = [80%float]
  /\ CheckoutDetailsModal.subtotal
       (CartPage.checkoutItems (Sample.cartOf [Sample.repriced] "")) = 80%float
  /\ CartPage.subtotal (Sample.cartOf [Sample.repriced] "")
     <> (CartPage.price_at_add Sample.repriced
         * Js.ofZ (CartPage.quantity Sample.repriced))%float.
Proof.
  repeat split; try reflexivity. apply number_neq; reflexivity.
Qed.

(** C2, amended.  The price of a cart line, in the cart subtotal and in
    the line handed to the checkout modal, is the product's current
    discount price when it has one, else its current original price
    when it has one, and the price-at-add only when the product row
    carries neither (or is gone); the modal charges the price it is
    handed and derives nothing itself, so both subtotals agree. *)
Theorem line_price_prefers_catalog_price (st : CartPage.State) :
  (forall item p d,
      CartPage.products item = Some p -> CartPage.discount_price p = Some d ->
      CartPage.unitPrice item = d)
  /\ (forall item p o,
      CartPage.products item = Some p -> CartPage.discount_price p = None ->
      CartPage.original_price p = Some o ->
      CartPage.unitPrice item = o)
  /\ (forall item,
      (CartPage.products item = None
       \/ exists p, CartPage.products item = Some p
                    /\ CartPage.discount_price p = None
                    /\ CartPage.original_price p = None) ->
      CartPage.unitPrice item = CartPage.price_at_add item)
  /\ CartPage.subtotal st
     = Js.reduce (fun sum item =>
                    (sum + CartPage.unitPrice item * Js.ofZ (CartPage.quantity item))%float)
                 0%float (CartPage.filteredCartItems st)
  /\ map price_at_add (CartPage.checkoutItems st)
     = map CartPage.unitPrice (CartPage.filteredCartItems st)
  /\ map quantity (CartPage.checkoutItems st)
     = map CartPage.quantity (CartPage.filteredCartItems st)
  /\ CheckoutDetailsModal.subtotal (CartPage.checkoutItems st) = CartPage.subtotal st.
Proof.
  repeat split.
  - intros item p d Hp Hd. rewrite unitPrice_cases, Hp, Hd. reflexivity.
  - intros item p o Hp Hd Ho. rewrite unitPrice_cases, Hp, Hd, Ho. reflexivity.
  - intros item [Hn | [p [Hp [Hd Ho]]]]; rewrite unitPrice_cases.
    + rewrite Hn. reflexivity.
    + rewrite Hp, Hd, Ho. reflexivity.
  - unfold CartPage.checkoutItems. rewrite map_map. reflexivity.
  - unfold CartPage.checkoutItems. rewrite map_map. reflexivity.
  - unfold CheckoutDetailsModal.subtotal, CartPage.subtotal, CartPage.checkoutItems.
    rewrite reduce_map. reflexivity.
Qed.

Lemma line_price_prefers_catalog_price_witness :
  CartPage.unitPrice Sample.repriced = 80%float
  /\ CartPage.unitPrice Sample.unpriced = 150%float
  /\ CheckoutDetailsModal.subtotal
       (CartPage.checkoutItems (Sample.cartOf [Sample.repriced; Sample.unpriced] ""))
     = 530%float.
Proof.
  destruct (line_price_prefers_catalog_price
              (Sample.cartOf [Sample.repriced; Sample.unpriced] ""))
    as [Hd [_ [Hn [_ [_ [_ Hs]]]]]].
  split; [|split].
  - apply (Hd Sample.repriced
              (CartPage.mkProductInfo (Some "Green Tea") (Some 80%float)
                                      (Some 120%float)));
      reflexivity.
  - rewrite (Hn Sample.unpriced); [reflexivity|].
    right. exists (CartPage.mkProductInfo (Some "Cow Ghee") None None).
    repeat split.
  - rewrite Hs. reflexivity.
Defined.

(* ================================================================== *)
(** ** The effective unit price of a product *)
(* ================================================================== *)

(** C3, as stated, fails: a product whose discount price (120) is not
    lower than its original price (100) is still sold at the discount
    price. *)
Lemma marked_up_product_sold_at_discount_price :
  ProductPage.discountPrice Sample.markedUp = Some 120%float
  /\ (120 <? ProductPage.originalPrice Sample.markedUp)%float = false
  /\ ProductPage.displayPrice Sample.markedUp = 120%float
  /\ ProductPage.displayPrice Sample.markedUp
     <> ProductPage.originalPrice Sample.markedUp.
Proof.
  repeat split; try reflexivity. apply number_neq; reflexivity.
Qed.

(** C3, amended.  The effective unit price of a product is its discount
    price whenever one is present, whether or not it is lower than the
    original price, and the original price when none is present; the
    cart page follows the same rule on the joined product columns.  In
    particular the price is the discount price when that is present and
    lower than the original. *)
Theorem display_price_is_discount_when_present (product : ProductPage.Product) :
  (forall d, ProductPage.discountPrice product = Some d ->
             ProductPage.displayPrice product = d)
  /\ (ProductPage.discountPrice product = None ->
      ProductPage.displayPrice product = ProductPage.originalPrice product)
  /\ (forall d, ProductPage.discountPrice product = Some d ->
                (d <? ProductPage.originalPrice product)%float = true ->
                ProductPage.displayPrice product = d
                /\ (ProductPage.displayPrice product
                    <? ProductPage.originalPrice product)%float = true)
  /\ (forall item p,
         CartPage.products item = Some p ->
         CartPage.unitPrice item
         = Js.nullish (CartPage.discount_price p)
                      (Js.nullish (CartPage.original_price p)
                                  (CartPage.price_at_add item))).
Proof.
  unfold ProductPage.displayPrice. split; [|split; [|split]].
  - intros d Hd. rewrite Hd. reflexivity.
  - intros Hn. rewrite Hn. reflexivity.
  - intros d Hd Hlt. rewrite Hd. simpl. split; [reflexivity | exact Hlt].
  - intros item p Hp. rewrite unitPrice_cases, Hp.
    destruct (CartPage.discount_price p), (CartPage.original_price p); reflexivity.
Qed.

Lemma display_price_is_discount_when_present_witness :
  ProductPage.displayPrice Sample.discounted = 200%float
  /\ ProductPage.displayPrice Sample.markedUp = 120%float.
Proof.
  destruct (display_price_is_discount_when_present Sample.discounted) as [_ [_ [Hlow _]]].
  destruct (display_price_is_discount_when_present Sample.markedUp) as [Hd _].
  split.
  - apply (Hlow 200%float); reflexivity.
  - apply (Hd 120%float). reflexivity.
Defined.

(* ================================================================== *)
(** ** Order status *)
(* ================================================================== *)

Lemma indexOfFrom_bounds (l : list string) (x : string) (i : Z) :
  0 <= i -> Js.indexOfFrom l x i = -1 \/ i <= Js.indexOfFrom l x i.
Proof.
  revert i. induction l as [|y l IH]; intros i Hi; simpl.
  - left. reflexivity.
  - destruct (String.eqb y x).
    + right. lia.
    + destruct (IH (i + 1)) as [H|H]; [lia | left; exact H | right; lia].
Qed.

Lemma indexOfFrom_In (l : list string) (x : string) (i : Z) :
  Js.indexOfFrom l x i <> -1 -> In x l.
Proof.
  revert i. induction l as [|y l IH]; intros i H; simpl in *.
  - congruence.
  - destruct (String.eqb y x) eqn:E.
    + left. apply String.eqb_eq. exact E.
    + right. apply (IH (i + 1)). exact H.
Qed.

Lemma indexOf_ge (l : list string) (x : string) : -1 <= Js.indexOf l x.
Proof.
  unfold Js.indexOf. destruct (indexOfFrom_bounds l x 0); lia.
Qed.

(** The modal offers a status exactly when it comes later in
    [statusOrder] than the status of the order it was opened on. *)
Lemma offered_iff_later (currentOrder : Order.t) (target : string) :
  In target (map Dashboard.status (Dashboard.availableSteps currentOrder))
  <-> Js.indexOf Dashboard.statusOrder target
      > Js.indexOf Dashboard.statusOrder (Order.status currentOrder).
Proof.
  unfold Dashboard.availableSteps. rewrite in_map_iff. split.
  - intros [step [Hs Hin]]. apply filter_In in Hin. destruct Hin as [_ Hgt].
    subst target. apply Z.gtb_lt in Hgt. lia.
  - intros Hgt.
    pose proof (indexOf_ge Dashboard.statusOrder (Order.status currentOrder)) as Hc.
    assert (Hin : In target (map Dashboard.status Dashboard.proTimelineSteps)).
    { change (map Dashboard.status Dashboard.proTimelineSteps) with Dashboard.statusOrder.
      apply (indexOfFrom_In _ _ 0). unfold Js.indexOf in *. lia. }
    apply in_map_iff in Hin. destruct Hin as [step [Hs Hin]].
    exists step. split; [exact Hs|].
    apply filter_In. split; [exact Hin|].
    rewrite Hs. apply Z.gtb_lt. lia.
Qed.

Lemma setStatus_sets (orderId newStatus : string) (os : list Order.t) :
  Forall (fun o => Order.id o = orderId -> Order.status o = newStatus)
         (Dashboard.setStatus orderId newStatus os)
  /\ map Order.id (Dashboard.setStatus orderId newStatus os) = map Order.id os.
Proof.
  unfold Dashboard.setStatus. split.
  - apply Forall_forall. intros o Ho. apply in_map_iff in Ho.
    destruct Ho as [o0 [Heq _]].
    destruct (String.eqb (Order.id o0) orderId) eqn:E; subst o.
    + reflexivity.
    + intros Hid. apply String.eqb_neq in E. contradiction.
  - rewrite map_map. apply map_ext. intros o.
    destruct (String.eqb (Order.id o) orderId); reflexivity.
Qed.

(** C4, as stated, fails: [handleStatusUpdate] rejects nothing.  Given
    a shipped order and the earlier status "preparing" it stores
    "preparing" and reports success. *)
Lemma status_update_accepts_earlier_stage :
  Js.indexOf Dashboard.statusOrder "preparing"
  < Js.indexOf Dashboard.statusOrder (Order.status Sample.shippedOrder)
  /\ map Order.status
         (World.orders
            (fst (Dashboard.handleStatusUpdate None "order-0001" "preparing"
                    (Sample.world, Sample.dashboard))))
     = ["preparing"]
  /\ map Toast.title
         (World.toasts
            (fst (Dashboard.handleStatusUpdate None "order-0001" "preparing"
                    (Sample.world, Sample.dashboard))))
     = ["Status Updated!"].
Proof. vm_compute. repeat split. Qed.

Lemma clickStep_offered (updateError : option PostgrestError.t)
      (currentOrder : Order.t) (target : string) (s : World.t * Dashboard.State) :
  Dashboard.selectedOrder (snd s) = Some currentOrder ->
  Dashboard.clickStep updateError target s
  = if Js.indexOf Dashboard.statusOrder target
       >? Js.indexOf Dashboard.statusOrder (Order.status currentOrder)
    then Some (Dashboard.handleStatusUpdate updateError (Order.id currentOrder) target s)
    else None.
Proof.
  intros Hsel. unfold Dashboard.clickStep. rewrite Hsel.
  destruct (existsb _ (Dashboard.availableSteps currentOrder)) eqn:E.
  - apply existsb_exists in E. destruct E as [step [Hin Heq]].
    apply String.eqb_eq in Heq.
    assert (Hoff : In target (map Dashboard.status (Dashboard.availableSteps currentOrder)))
      by (apply in_map_iff; exists step; split; assumption).
    apply offered_iff_later in Hoff.
    destruct (Z.gtb_spec (Js.indexOf Dashboard.statusOrder target)
                         (Js.indexOf Dashboard.statusOrder (Order.status currentOrder)));
      [reflexivity | lia].
  - destruct (Z.gtb_spec (Js.indexOf Dashboard.statusOrder target)
                         (Js.indexOf Dashboard.statusOrder (Order.status currentOrder)))
      as [Hlt|Hle]; [|reflexivity].
    assert (Hoff : In target (map Dashboard.status (Dashboard.availableSteps currentOrder)))
      by (apply offered_iff_later; lia).
    apply in_map_iff in Hoff. destruct Hoff as [step [Heq Hin]].
    assert (Ht : existsb (fun step => String.eqb (Dashboard.status step) target)
                         (Dashboard.availableSteps currentOrder) = true).
    { apply existsb_exists. exists step. split; [exact Hin|].
      apply String.eqb_eq. exact Heq. }
    congruence.
Qed.

(** C4, amended.  The update-status modal offers a target status if and
    only if its index in [confirmed, payment_accepted, preparing,
    shipped, delivered] is strictly greater than the index of the
    status of the order it shows (an unknown status has index -1): a
    click on an offered status runs [handleStatusUpdate], a status that
    is not offered cannot be clicked, and nothing named
    InvalidTransition is raised.  [handleStatusUpdate] itself stores
    whatever status it is given.  For a shipped order "delivered" is
    offered and stored on click, "preparing" is not offered. *)
Theorem modal_offers_only_later_stages
        (currentOrder : Order.t) (target : string)
        (orderId newStatus : string) (s : World.t * Dashboard.State) :
  (In target (map Dashboard.status (Dashboard.availableSteps currentOrder))
   <-> Js.indexOf Dashboard.statusOrder target
       > Js.indexOf Dashboard.statusOrder (Order.status currentOrder))
  /\ (Dashboard.selectedOrder (snd s) = Some currentOrder ->
      (Js.indexOf Dashboard.statusOrder target
       > Js.indexOf Dashboard.statusOrder (Order.status currentOrder) ->
       Dashboard.clickStep None target s
       = Some (Dashboard.handleStatusUpdate None (Order.id currentOrder) target s))
      /\ (Js.indexOf Dashboard.statusOrder target
          <= Js.indexOf Dashboard.statusOrder (Order.status currentOrder) ->
          Dashboard.clickStep None target s = None))
  /\ Forall (fun o => Order.id o = orderId -> Order.status o = newStatus)
            (World.orders (fst (Dashboard.handleStatusUpdate None orderId newStatus s)))
  /\ map Order.id (World.orders (fst (Dashboard.handleStatusUpdate None orderId newStatus s)))
     = map Order.id (World.orders (fst s)).
Proof.
  split; [apply offered_iff_later|]. split.
  - intros Hsel. rewrite (clickStep_offered None currentOrder target s Hsel).
    destruct (Z.gtb_spec (Js.indexOf Dashboard.statusOrder target)
                         (Js.indexOf Dashboard.statusOrder (Order.status currentOrder)));
      split; intros; try reflexivity; lia.
  - destruct s as [w st]. simpl. apply setStatus_sets.
Qed.

Lemma modal_offers_only_later_stages_witness :
  In "delivered" (map Dashboard.status (Dashboard.availableSteps Sample.shippedOrder))
  /\ ~ In "preparing" (map Dashboard.status (Dashboard.availableSteps Sample.shippedOrder))
  /\ Dashboard.clickStep None "preparing" (Sample.world, Sample.dashboard) = None
  /\ Dashboard.clickStep None "delivered" (Sample.world, Sample.dashboard)
     = Some (Dashboard.handleStatusUpdate None "order-0001" "delivered"
                                          (Sample.world, Sample.dashboard)).
Proof.
  destruct (modal_offers_only_later_stages
              Sample.shippedOrder "delivered" "order-0001" "delivered"
              (Sample.world, Sample.dashboard)) as [Hd [Hcd _]].
  destruct (modal_offers_only_later_stages
              Sample.shippedOrder "preparing" "order-0001" "preparing"
              (Sample.world, Sample.dashboard)) as [Hp [Hcp _]].
  split; [|split; [|split]].
  - apply Hd. vm_compute. reflexivity.
  - intros H. apply Hp in H. vm_compute in H. discriminate H.
  - apply (Hcp eq_refl). vm_compute. discriminate.
  - apply (Hcd eq_refl). vm_compute. reflexivity.
Defined.

(* ================================================================== *)
(** ** The default address *)
(* ================================================================== *)

Lemma countDefaults_app (l1 l2 : list Address.t) :
  countDefaults (l1 ++ l2) = (countDefaults l1 + countDefaults l2)%nat.
Proof. unfold countDefaults. rewrite filter_app, length_app. reflexivity. Qed.

Lemma countDefaults_cleared (l : list Address.t) :
  countDefaults (map (Address.withDefault false) l) = 0%nat.
Proof.
  unfold countDefaults. induction l as [|a l IH]; simpl; [reflexivity | exact IH].
Qed.

Lemma map_id_cleared (l : list Address.t) :
  map Address.id (map (Address.withDefault false) l) = map Address.id l.
Proof. rewrite map_map. reflexivity. Qed.

(** With unique ids, an id that occurs in the book occurs once. *)
Lemma countId_unique (i : string) (l : list Address.t) :
  uniqueIds l -> In i (map Address.id l) -> countId i l = 1%nat.
Proof.
  unfold uniqueIds, countId. induction l as [|a l IH]; simpl; intros Hnd Hin.
  - contradiction.
  - inversion Hnd as [|x xs Hnotin Hnd']; subst.
    destruct (String.eqb (Address.id a) i) eqn:E.
    + apply String.eqb_eq in E. subst i. simpl. f_equal.
      clear IH Hin Hnd Hnd'. induction l as [|b l IHl]; simpl; [reflexivity|].
      destruct (String.eqb (Address.id b) (Address.id a)) eqn:E'.
      * apply String.eqb_eq in E'. exfalso. apply Hnotin. left. exact E'.
      * apply IHl. intros H. apply Hnotin. right. exact H.
    + apply String.eqb_neq in E. destruct Hin as [Hin|Hin]; [contradiction|].
      apply IH; assumption.
Qed.


(** Marking the entries of id [s] default and all others not leaves as
    many defaults as there are such entries. *)
Lemma countDefaults_select (s : string) (l : list Address.t) :
  countDefaults (map (fun a => Address.withDefault (String.eqb (Address.id a) s) a) l)
  = countId s l.
Proof.
  unfold countDefaults, countId. induction l as [|a l IH]; simpl; [reflexivity|].
  destruct (String.eqb (Address.id a) s); simpl; rewrite IH; reflexivity.
Qed.

Lemma find_selected (s : string) (l : list Address.t) :
  In s (map Address.id l) ->
  exists a, Js.find (fun a => String.eqb (Address.id a) s) l = Some a.
Proof.
  induction l as [|b l IH]; simpl; intros Hin; [contradiction|].
  destruct (String.eqb (Address.id b) s) eqn:E.
  - exists b. reflexivity.
  - apply String.eqb_neq in E. destruct Hin as [Hin|Hin]; [contradiction|].
    apply IH, Hin.
Qed.


Lemma checkout_one_default (env : CheckoutDetailsModal.Env)
      (st : CheckoutDetailsModal.State) :
  uniqueIds (CheckoutDetailsModal.userAddresses st) ->
  selectsAnAddress st ->
  (exists addr, fst (CheckoutDetailsModal.shippingAddresses env st) = Some addr)
  /\ countDefaults (snd (CheckoutDetailsModal.shippingAddresses env st)) = 1%nat.
Proof.
  intros Hu Hs. unfold CheckoutDetailsModal.shippingAddresses.
  destruct (CheckoutDetailsModal.isNew st) eqn:En.
  - simpl. split; [eexists; reflexivity|].
    rewrite countDefaults_app, countDefaults_cleared. reflexivity.
  - destruct Hs as [Hs | [s [Hsel Hin]]]; [congruence|].
    assert (Hf : CheckoutDetailsModal.isSelected st
                 = fun a => String.eqb (Address.id a) s).
    { unfold CheckoutDetailsModal.isSelected. rewrite Hsel. reflexivity. }
    rewrite Hf. destruct (find_selected s _ Hin) as [a Ha]. rewrite Ha. simpl.
    split; [eexists; reflexivity|].
    rewrite countDefaults_select. apply countId_unique; assumption.
Qed.

(** The reload of the profile page writes nothing. *)
Lemma fetchProfileData_profiles (profileFault : option PostgrestError.t)
      (s : World.t * ProfilePage.State) :
  World.user_profiles (fst (ProfilePage.fetchProfileData profileFault s))
  = World.user_profiles (fst s).
Proof.
  destruct s as [w st]. unfold ProfilePage.fetchProfileData.
  destruct (World.session w) as [userId|]; [|reflexivity].
  destruct (single profileFault _) as [profileData profileError].
  destruct (ProductPage.thrownFetchError profileError); reflexivity.
Qed.




(* ================================================================== *)
(** ** Adding a product that is already in the cart *)
(* ================================================================== *)

Lemma linesOf_In (userId productId : string) (rows : list CartRow.t) (r : CartRow.t) :
  In r rows -> CartRow.user_id r = userId -> CartRow.product_id r = productId ->
  In r (linesOf userId productId rows).
Proof.
  intros Hin Hu Hp. apply filter_In. split; [exact Hin|].
  rewrite Hu, Hp, !String.eqb_refl. reflexivity.
Qed.

(** Under the one-line-per-product invariant, a line that exists is the
    one row the lookup returns. *)
Lemma single_existing_line (userId productId : string) (rows : list CartRow.t)
      (r : CartRow.t) :
  oneLinePerProduct rows ->
  In r rows -> CartRow.user_id r = userId -> CartRow.product_id r = productId ->
  single None (linesOf userId productId rows) = (Some r, None).
Proof.
  intros Hone Hin Hu Hp.
  pose proof (linesOf_In _ _ _ _ Hin Hu Hp) as Hl.
  specialize (Hone userId productId).
  destruct (linesOf userId productId rows) as [|x [|y l]]; simpl in *.
  - contradiction.
  - destruct Hl as [Hl|[]]. subst x. reflexivity.
  - lia.
Qed.

Lemma linesOf_app (userId productId : string) (l1 l2 : list CartRow.t) :
  linesOf userId productId (l1 ++ l2)
  = linesOf userId productId l1 ++ linesOf userId productId l2.
Proof. apply filter_app. Qed.

(** Rows with pairwise distinct (user, product) keys satisfy the
    invariant. *)
Lemma distinct_keys_one_line (rows : list CartRow.t) :
  NoDup (map lineKey rows) -> oneLinePerProduct rows.
Proof.
  intros Hnd u p. unfold linesOf.
  induction rows as [|r rows IH]; simpl; [lia|].
  inversion Hnd as [|k ks Hnotin Hnd']; subst.
  destruct (String.eqb (CartRow.user_id r) u && String.eqb (CartRow.product_id r) p)
    eqn:E.
  - apply andb_true_iff in E. destruct E as [E1 E2].
    apply String.eqb_eq in E1, E2.
    assert (Hnone : filter (fun r0 => String.eqb (CartRow.user_id r0) u
                                      && String.eqb (CartRow.product_id r0) p) rows = []).
    { destruct (filter _ rows) as [|x l] eqn:Ef; [reflexivity|].
      exfalso. apply Hnotin.
      assert (Hx : In x (filter (fun r0 => String.eqb (CartRow.user_id r0) u
                                           && String.eqb (CartRow.product_id r0) p) rows))
        by (rewrite Ef; left; reflexivity).
      apply filter_In in Hx. destruct Hx as [Hx Hm].
      apply andb_true_iff in Hm. destruct Hm as [M1 M2].
      apply String.eqb_eq in M1, M2.
      apply in_map_iff. exists x. split; [|exact Hx].
      unfold lineKey. congruence. }
    rewrite Hnone. simpl. lia.
  - apply IH. exact Hnd'.
Qed.

(** [handleAddToCart] keeps the one-line-per-product invariant. *)
Lemma handleAddToCart_keeps_one_line
      (insertError : option PostgrestError.t) (insertedId : string)
      (product : ProductPage.Product) (w : World.t) (st : ProductPage.State) :
  oneLinePerProduct (World.cart_items w) ->
  oneLinePerProduct
    (World.cart_items
       (fst (ProductPage.handleAddToCart None insertError insertedId product (w, st)))).
Proof.
  intros Hone. unfold ProductPage.handleAddToCart.
  destruct (Js.orNull (ProductPage.currentUserId st)) as [userId|]; [|exact Hone].
  fold (linesOf userId (ProductPage.id product) (World.cart_items w)).
  destruct (linesOf userId (ProductPage.id product) (World.cart_items w))
    as [|x [|y l]] eqn:El; simpl.
  - destruct insertError; simpl; [exact Hone|].
    intros u p. rewrite linesOf_app, length_app. simpl.
    destruct (String.eqb userId u && String.eqb (ProductPage.id product) p) eqn:E.
    + apply andb_true_iff in E. destruct E as [E1 E2].
      apply String.eqb_eq in E1, E2. subst u p. rewrite El. simpl. lia.
    + simpl. specialize (Hone u p). lia.
  - exact Hone.
  - destruct insertError; simpl; [exact Hone|].
    specialize (Hone userId (ProductPage.id product)). rewrite El in Hone.
    simpl in Hone. lia.
Qed.

(** C6.  When the cart already holds a line for the signed-in user and
    the product, [handleAddToCart] answers with the "Already in cart"
    notice and changes nothing else: no line is inserted and the line
    that exists keeps its quantity.  The cart holds at most one line
    per user and product, which [handleAddToCart] maintains. *)
Theorem add_existing_product_is_rejected
        (insertError : option PostgrestError.t) (insertedId : string)
        (product : ProductPage.Product) (w : World.t) (st : ProductPage.State)
        (userId : string) (line : CartRow.t) :
  ProductPage.currentUserId st = Some userId ->
  userId <> "" ->
  oneLinePerProduct (World.cart_items w) ->
  In line (World.cart_items w) ->
  CartRow.user_id line = userId ->
  CartRow.product_id line = ProductPage.id product ->
  let s' := ProductPage.handleAddToCart None insertError insertedId product (w, st) in
  World.cart_items (fst s') = World.cart_items w
  /\ In line (World.cart_items (fst s'))
  /\ World.toasts (fst s')
     = World.toasts w
       ++ [Toast.mk "Already in cart" (Some "This product is already in your cart!")
                    "default"]
  /\ snd s' = st
  /\ oneLinePerProduct (World.cart_items (fst s')).
Proof.
  intros Hu Hne Hone Hin Hlu Hlp s'.
  assert (Hs : s' = (World.toast
                       (Toast.mk "Already in cart"
                                 (Some "This product is already in your cart!") "default") w,
                     st)).
  { unfold s', ProductPage.handleAddToCart. rewrite Hu.
    destruct userId as [|c u]; [congruence|]. simpl Js.orNull. cbv iota.
    fold (linesOf (String c u) (ProductPage.id product) (World.cart_items w)).
    rewrite (single_existing_line _ _ _ line Hone Hin Hlu Hlp). reflexivity. }
  rewrite Hs. simpl. repeat split; assumption.
Qed.

Lemma add_existing_product_is_rejected_witness :
  World.cart_items
    (fst (ProductPage.handleAddToCart None None "line-10" Sample.discounted
                                      (Sample.world, Sample.productPage)))
  = Sample.cartRows.
Proof.
  assert (Hone : oneLinePerProduct (World.cart_items Sample.world)).
  { apply distinct_keys_one_line. unfold lineKey. simpl.
    repeat constructor; simpl; intuition congruence. }
  apply (add_existing_product_is_rejected
           None "line-10" Sample.discounted Sample.world Sample.productPage
           "user-1" (CartRow.mk "line-1" "user-1" "prod-honey" 1 200)).
  - reflexivity.
  - discriminate.
  - exact Hone.
  - left. reflexivity.
  - reflexivity.
  - reflexivity.
Defined.

(* ================================================================== *)
(** ** Changing a quantity *)
(* ================================================================== *)

Lemma Forall2_map_self {A : Type} (R : A -> A -> Prop) (f : A -> A) (l : list A) :
  (forall x, R x (f x)) -> Forall2 R l (map f l).
Proof.
  intros H. induction l as [|x l IH]; simpl; constructor; [apply H | exact IH].
Qed.

(** C8, as stated, fails.  Nothing is raised for a quantity below 1:
    given the quantity 0 for a line of the cart, [handleQuantityChange]
    returns the world and the page as they are, with no notice and no
    error text, whatever the backend would have answered; the counter
    of the product page ignores the value in the same way. *)
Lemma quantity_below_one_raises_nothing :
  (forall updateError,
      CartPage.handleQuantityChange updateError "line-1" 0
                                    (Sample.world, Sample.cartPage "")
      = (Sample.world, Sample.cartPage ""))
  /\ World.toasts
       (fst (CartPage.handleQuantityChange None "line-1" 0
                                           (Sample.world, Sample.cartPage ""))) = []
  /\ CartPage.error
       (snd (CartPage.handleQuantityChange None "line-1" 0
                                           (Sample.world, Sample.cartPage ""))) = None
  /\ ProductPage.updateQuantity 0 Sample.productPage = Sample.productPage.
Proof. repeat split. Qed.

(** C8, amended.  A new quantity below 1 is ignored without any error
    or notice: [handleQuantityChange] returns at once, leaving the
    backend, its notices, the page and so the line as they were.
    Otherwise, for the signed-in user and an update the backend
    accepts, the quantity of the line is replaced, in the table and on
    the page, every other column, the price-at-add among them, is kept,
    and no notice is shown.  On the product page [updateQuantity]
    touches no cart line: it sets the quantity counter of the page and
    nothing else, and ignores a value below 1 in the same silent way. *)
Theorem quantity_below_one_ignored_else_replaced
        (itemId : string) (newQuantity : Z) (w : World.t) (st : CartPage.State)
        (pst : ProductPage.State) :
  (newQuantity < 1 ->
   (forall updateError,
       CartPage.handleQuantityChange updateError itemId newQuantity (w, st) = (w, st)
       /\ World.toasts
            (fst (CartPage.handleQuantityChange updateError itemId newQuantity (w, st)))
          = World.toasts w
       /\ CartPage.error
            (snd (CartPage.handleQuantityChange updateError itemId newQuantity (w, st)))
          = CartPage.error st)
   /\ ProductPage.updateQuantity newQuantity pst = pst)
  /\
  (1 <= newQuantity ->
   (forall userId, World.session w = Some userId -> userId <> "" ->
      let s' := CartPage.handleQuantityChange None itemId newQuantity (w, st) in
      Forall2 (requantifiedRow itemId userId newQuantity)
              (World.cart_items w) (World.cart_items (fst s'))
      /\ Forall2 (requantifiedItem itemId newQuantity)
                 (CartPage.cartItems st) (CartPage.cartItems (snd s'))
      /\ World.toasts (fst s') = World.toasts w)
   /\ ProductPage.updateQuantity newQuantity pst
      = ProductPage.mkState newQuantity
                            (ProductPage.showAuthPopup pst) (ProductPage.inCart pst)
                            (ProductPage.showCheckoutModal pst)
                            (ProductPage.currentUserId pst)
   /\ ProductPage.quantity (ProductPage.updateQuantity newQuantity pst) = newQuantity).
Proof.
  split.
  - intros Hlt. apply Z.ltb_lt in Hlt. split.
    + intros updateError. unfold CartPage.handleQuantityChange. rewrite Hlt.
      repeat split.
    + unfold ProductPage.updateQuantity. rewrite Hlt. reflexivity.
  - intros Hge.
    assert (Hnlt : (newQuantity <? 1) = false) by (apply Z.ltb_ge; lia).
    split; [|split].
    + intros userId Hs Hne s'.
      assert (Hu : Js.orNull (World.session w) = Some userId).
      { rewrite Hs. destruct userId; [congruence | reflexivity]. }
      unfold s', CartPage.handleQuantityChange. rewrite Hnlt, Hu. simpl.
      split; [|split].
      * apply Forall2_map_self. intros r. unfold requantifiedRow.
        destruct (String.eqb (CartRow.id r) itemId
                  && String.eqb (CartRow.user_id r) userId);
          simpl; repeat split.
      * apply Forall2_map_self. intros item. unfold requantifiedItem.
        destruct (String.eqb (CartPage.id item) itemId); simpl; repeat split.
      * reflexivity.
    + unfold ProductPage.updateQuantity. rewrite Hnlt. reflexivity.
    + unfold ProductPage.updateQuantity. rewrite Hnlt. reflexivity.
Qed.

Lemma quantity_below_one_ignored_else_replaced_witness :
  CartPage.handleQuantityChange None "line-1" 0 (Sample.world, Sample.cartPage "")
  = (Sample.world, Sample.cartPage "")
  /\ Forall2 (requantifiedRow "line-1" "user-1" 5)
             Sample.cartRows
             (World.cart_items
                (fst (CartPage.handleQuantityChange None "line-1" 5
                        (Sample.world, Sample.cartPage ""))))
  /\ map CartRow.quantity
         (World.cart_items
            (fst (CartPage.handleQuantityChange None "line-1" 5
                    (Sample.world, Sample.cartPage ""))))
     = [5; 2; 4].
Proof.
  split; [|split].
  - apply (quantity_below_one_ignored_else_replaced
             "line-1" 0 Sample.world (Sample.cartPage "") Sample.productPage).
    lia.
  - assert (H5 : 1 <= 5) by lia.
    destruct (quantity_below_one_ignored_else_replaced
                "line-1" 5 Sample.world (Sample.cartPage "") Sample.productPage)
      as [_ H].
    destruct (H H5) as [Hcart _].
    apply (Hcart "user-1"); [reflexivity | discriminate].
  - reflexivity.
Defined.

(* ================================================================== *)
(** ** A failed payment *)
(* ================================================================== *)

(** C9.  When the gateway reports a failure, the checkout only shows
    the "Payment Failed" notice, whose text carries the reason the
    gateway gave, and closes the payment window: no order is stored,
    the cart (table and page) and the profiles are as before, and the
    success callback is not run. *)
Theorem payment_failure_leaves_orders_and_cart
        (Parent : Type) (items : list CheckoutItem)
        (onClose : Parent -> Parent)
        (onOrderSuccess : World.t * Parent -> World.t * Parent)
        (profileUpdateError orderError deleteError : option PostgrestError.t)
        (env : CheckoutDetailsModal.Env) (err : CheckoutDetailsModal.RazorpayError)
        (w : World.t) (parent : Parent) (page : CartPage.State)
        (st : CheckoutDetailsModal.State) :
  let notice :=
    Toast.mk "Payment Failed"
             (Some ("Payment failed: "
                    ++ Js.orElse (CheckoutDetailsModal.description err) "Unknown error")%string)
             "destructive" in
  let s' :=
    CheckoutDetailsModal.razorpayPayment
      Parent items onClose onOrderSuccess profileUpdateError orderError env
      (CheckoutDetailsModal.PaymentFailed err) (w, parent, st) in
  World.orders (fst (fst s')) = World.orders w
  /\ World.cart_items (fst (fst s')) = World.cart_items w
  /\ World.user_profiles (fst (fst s')) = World.user_profiles w
  /\ snd (fst s') = parent
  /\ World.toasts (fst (fst s')) = World.toasts w ++ [notice]
  /\ CartPage.checkout profileUpdateError orderError deleteError env
                       (CheckoutDetailsModal.PaymentFailed err) (w, page, st)
     = (World.toast notice w, page, CheckoutDetailsModal.setShowRazorpay false st)
  /\ (forall reason,
         CheckoutDetailsModal.description err = Some reason -> reason <> "" ->
         Toast.description notice = Some ("Payment failed: " ++ reason)%string).
Proof.
  simpl. repeat split.
  intros reason Hr Hne. rewrite Hr. destruct reason; [congruence | reflexivity].
Qed.

Lemma payment_failure_leaves_orders_and_cart_witness :
  let s' :=
    CartPage.checkout None None None Sample.env
                      (CheckoutDetailsModal.PaymentFailed Sample.declined)
                      (Sample.world, Sample.cartPage "", Sample.modalState) in
  World.orders (fst (fst s')) = [Sample.shippedOrder]
  /\ World.cart_items (fst (fst s')) = Sample.cartRows
  /\ snd (fst s') = Sample.cartPage ""
  /\ map Toast.description (World.toasts (fst (fst s')))
     = [Some "Payment failed: Card declined by bank"].
Proof.
  destruct (payment_failure_leaves_orders_and_cart
              CartPage.State
              (CartPage.checkoutItems (Sample.cartPage ""))
              (CartPage.setShowCheckoutModal false)
              (CartPage.handleOrderSuccess None)
              None None None Sample.env Sample.declined
              Sample.world (Sample.cartPage "") (Sample.cartPage "") Sample.modalState)
    as [Ho [Hc [_ [Hp [Ht [_ Hr]]]]]].
  split; [exact Ho|]. split; [exact Hc|]. split; [exact Hp|].
  intros. transitivity (map Toast.description
                            (World.toasts Sample.world
                             ++ [Toast.mk "Payment Failed"
                                          (Some "Payment failed: Card declined by bank")
                                          "destructive"])).
  - exact (f_equal (map Toast.description) Ht).
  - reflexivity.
Defined.

(* ================================================================== *)
(** ** The order stored at checkout *)
(* ================================================================== *)

Lemma reduce_mapiFrom {A B C : Type} (f : nat -> A -> B)
      (g : C -> B -> C) (h : C -> A -> C) (i : nat) (l : list A) (init : C) :
  (forall i x acc, g acc (f i x) = h acc x) ->
  Js.reduce g init (Js.mapiFrom f i l) = Js.reduce h init l.
Proof.
  intros Hgh. unfold Js.reduce. revert i init.
  induction l as [|x l IH]; intros i init; [reflexivity|].
  simpl. rewrite Hgh. apply IH.
Qed.

Lemma map_mapiFrom {A B C : Type} (f : nat -> A -> B) (g : B -> C) (h : A -> C)
      (i : nat) (l : list A) :
  (forall i x, g (f i x) = h x) ->
  map g (Js.mapiFrom f i l) = map h l.
Proof.
  intros Hgh. revert i. induction l as [|x l IH]; intros i; simpl.
  - reflexivity.
  - rewrite IH, Hgh. reflexivity.
Qed.

(** The stored line items add up to the subtotal of the modal: the
    same lines are accumulated in the same order. *)
Lemma itemsTotal_orderItemsData (env : CheckoutDetailsModal.Env)
      (st : CheckoutDetailsModal.State) (items : list CheckoutItem) :
  itemsTotal (CheckoutDetailsModal.orderItemsData env st items)
  = CheckoutDetailsModal.subtotal items.
Proof.
  unfold itemsTotal, CheckoutDetailsModal.orderItemsData, CheckoutDetailsModal.subtotal.
  apply reduce_mapiFrom. reflexivity.
Qed.

Lemma orderItemsData_lines (env : CheckoutDetailsModal.Env)
      (st : CheckoutDetailsModal.State) (items : list CheckoutItem) :
  map (fun item => (OrderItem.price_at_purchase item, OrderItem.quantity item))
      (CheckoutDetailsModal.orderItemsData env st items)
  = map (fun item => (price_at_add item, quantity item)) items.
Proof.
  unfold CheckoutDetailsModal.orderItemsData. apply map_mapiFrom. reflexivity.
Qed.

Section PaymentSuccess.

Variable Parent : Type.
Variable items : list CheckoutItem.
Variable onClose : Parent -> Parent.
Variable onOrderSuccess : World.t * Parent -> World.t * Parent.
Variables profileUpdateError orderError : option PostgrestError.t.
Variable env : CheckoutDetailsModal.Env.
Variable response : CheckoutDetailsModal.RazorpayResponse.

(** What [handlePaymentSuccess] does once the user is signed in, a
    shipping address is resolved and the backend accepts the order. *)
Lemma payment_success_steps (w : World.t) (parent : Parent)
      (st : CheckoutDetailsModal.State) (userId : string)
      (addr : Address.t) (addrs : list Address.t) :
  World.session w = Some userId -> userId <> "" ->
  CheckoutDetailsModal.shippingAddresses env st = (Some addr, addrs) ->
  orderError = None ->
  let w1 := match profileUpdateError with
            | Some _ => w
            | None => CheckoutDetailsModal.updateProfile userId st addrs w
            end in
  let o := CheckoutDetailsModal.orderData env st items userId response addr in
  CheckoutDetailsModal.handlePaymentSuccess
    Parent items onClose onOrderSuccess profileUpdateError orderError env response
    (w, parent, st)
  = (fst (onOrderSuccess
            (World.toast (Toast.mk "Payment successful!"
                                   (Some "Your order has been placed.") "default")
                         (World.withOrders (World.orders w1 ++ [o]) w1),
             onClose parent)),
     snd (onOrderSuccess
            (World.toast (Toast.mk "Payment successful!"
                                   (Some "Your order has been placed.") "default")
                         (World.withOrders (World.orders w1 ++ [o]) w1),
             onClose parent)),
     CheckoutDetailsModal.setShowRazorpay false st).
Proof.
  intros Hs Hne Ha He w1 o.
  unfold CheckoutDetailsModal.handlePaymentSuccess. rewrite Hs, Ha, He.
  destruct userId; [congruence|]. simpl Js.truthy. cbv iota.
  fold w1. fold o.
  destruct (onOrderSuccess _) as [w4 parent']. reflexivity.
Qed.

(** Whatever the outcome, [handlePaymentSuccess] stores at most one
    order, the one built by [orderData]. *)
Lemma payment_success_orders (w : World.t) (parent : Parent)
      (st : CheckoutDetailsModal.State) :
  (forall s, World.orders (fst (onOrderSuccess s)) = World.orders (fst s)) ->
  let w' :=
    fst (fst (CheckoutDetailsModal.handlePaymentSuccess
                Parent items onClose onOrderSuccess profileUpdateError orderError
                env response (w, parent, st))) in
  World.orders w' = World.orders w
  \/ exists userId addr,
       World.orders w'
       = World.orders w
         ++ [CheckoutDetailsModal.orderData env st items userId response addr].
Proof.
  intros Hcb. unfold CheckoutDetailsModal.handlePaymentSuccess.
  destruct (World.session w) as [userId|]; [|left; reflexivity].
  destruct (Js.truthy userId); [|left; reflexivity].
  destruct (CheckoutDetailsModal.shippingAddresses env st) as [[addr|] addrs];
    [|left; reflexivity].
  destruct orderError.
  - left. destruct profileUpdateError; reflexivity.
  - right. exists userId, addr.
    match goal with
    | |- context [onOrderSuccess ?x] =>
        pose proof (Hcb x) as Hx; destruct (onOrderSuccess x) as [w4 parent']
    end.
    simpl in *. rewrite Hx. destruct profileUpdateError; reflexivity.
Qed.

End PaymentSuccess.

Lemma cart_callback_keeps_orders (deleteError : option PostgrestError.t)
      (s : World.t * CartPage.State) :
  World.orders (fst (CartPage.handleOrderSuccess deleteError s)) = World.orders (fst s).
Proof.
  destruct s as [w st]. unfold CartPage.handleOrderSuccess.
  destruct (Js.orNull (World.session w)); [destruct deleteError|]; reflexivity.
Qed.

(** C7, as stated, fails.  The amounts are doubles: for a checkout of
    three units at 33.33 the stored items add up to 99.99 as computed,
    the fee is 99, and the stored total less the fee is another number
    than the items total, although 33.33 * 3 + 99 - 99 is 99.99 in
    exact arithmetic. *)
Lemma stored_total_less_fee_is_not_items_total :
  let w' :=
    fst (fst (CheckoutDetailsModal.handlePaymentSuccess
                CartPage.State Scenario.threeJars
                (CartPage.setShowCheckoutModal false) (CartPage.handleOrderSuccess None)
                None None Sample.env Sample.response
                (Sample.world, Sample.cartPage "", Sample.modalState))) in
  exists o,
    World.orders w' = [Sample.shippedOrder; o]
    /\ map (fun item => (OrderItem.price_at_purchase item, OrderItem.quantity item))
           (Order.order_items o)
       = [(Js.ofCents 3333, 3)]
    /\ CheckoutDetailsModal.shippingFee Scenario.threeJars = 99%float
    /\ (itemsTotal (Order.order_items o) =? Order.total_amount o - 99)%float = false
    /\ itemsTotal (Order.order_items o) <> (Order.total_amount o - 99)%float.
Proof.
  cbv zeta. eexists. split; [reflexivity|].
  split; [reflexivity|]. split; [reflexivity|]. split; [reflexivity|].
  apply number_neq; reflexivity.
Qed.

(** C7, amended.  For every order stored by the checkout, the stored
    items carry the prices and quantities of the checkout lines in
    their order, and the stored total amount is the sum, in double
    precision, of the items total and the shipping fee, where the items
    total is price-at-purchase times quantity accumulated from 0 line
    by line and the fee is the one charged by the modal for that
    total.  The handler stores either nothing or exactly one order;
    the success callback of the page (clearing the cart, routing) does
    not touch the orders table. *)
Theorem stored_total_is_items_total_plus_fee
        (Parent : Type) (items : list CheckoutItem)
        (onClose : Parent -> Parent)
        (onOrderSuccess : World.t * Parent -> World.t * Parent)
        (profileUpdateError orderError : option PostgrestError.t)
        (env : CheckoutDetailsModal.Env)
        (response : CheckoutDetailsModal.RazorpayResponse)
        (w : World.t) (parent : Parent) (st : CheckoutDetailsModal.State) :
  (forall s, World.orders (fst (onOrderSuccess s)) = World.orders (fst s)) ->
  let w' :=
    fst (fst (CheckoutDetailsModal.handlePaymentSuccess
                Parent items onClose onOrderSuccess profileUpdateError orderError
                env response (w, parent, st))) in
  World.orders w' = World.orders w
  \/ exists o,
       World.orders w' = World.orders w ++ [o]
       /\ map (fun item => (OrderItem.price_at_purchase item, OrderItem.quantity item))
              (Order.order_items o)
          = map (fun item => (price_at_add item, quantity item)) items
       /\ itemsTotal (Order.order_items o) = CheckoutDetailsModal.subtotal items
       /\ feeOf (itemsTotal (Order.order_items o))
          = CheckoutDetailsModal.shippingFee items
       /\ Order.total_amount o = CheckoutDetailsModal.totalAmount items
       /\ Order.total_amount o
          = (itemsTotal (Order.order_items o)
             + feeOf (itemsTotal (Order.order_items o)))%float.
Proof.
  intros Hcb w'.
  destruct (payment_success_orders
              Parent items onClose onOrderSuccess profileUpdateError orderError
              env response w parent st Hcb) as [H | [userId [addr H]]].
  - left. exact H.
  - right. eexists. split; [exact H|].
    cbn [CheckoutDetailsModal.orderData Order.order_items Order.total_amount].
    rewrite orderItemsData_lines, itemsTotal_orderItemsData.
    repeat split.
Qed.

Lemma stored_total_is_items_total_plus_fee_witness :
  let w' :=
    fst (fst (CartPage.checkout None None None Sample.env
                (CheckoutDetailsModal.Paid Sample.response)
                (Sample.world, Sample.cartPage "", Sample.modalState))) in
  exists o,
    World.orders w' = [Sample.shippedOrder; o]
    /\ Order.total_amount o = 1200%float
    /\ itemsTotal (Order.order_items o) = 1200%float.
Proof.
  destruct (stored_total_is_items_total_plus_fee
              CartPage.State
              (CartPage.checkoutItems (Sample.cartPage ""))
              (CartPage.setShowCheckoutModal false)
              (CartPage.handleOrderSuccess None)
              None None Sample.env Sample.response
              Sample.world (Sample.cartPage "") Sample.modalState
              (cart_callback_keeps_orders None))
    as [H | [o [Ho [_ [Hi [_ [Ht _]]]]]]].
  - vm_compute in H. discriminate H.
  - exists o. split; [exact Ho|]. split.
    + rewrite Ht. reflexivity.
    + rewrite Hi. reflexivity.
Defined.

(* ================================================================== *)
(** ** Checking out a filtered cart *)
(* ================================================================== *)

Lemma checkout_paid_from_cart
      (profileUpdateError : option PostgrestError.t)
      (env : CheckoutDetailsModal.Env)
      (response : CheckoutDetailsModal.RazorpayResponse)
      (w : World.t) (page : CartPage.State) (st : CheckoutDetailsModal.State)
      (userId : string) (addr : Address.t) (addrs : list Address.t) :
  World.session w = Some userId -> userId <> "" ->
  CheckoutDetailsModal.shippingAddresses env st = (Some addr, addrs) ->
  let s' := CartPage.checkout profileUpdateError None None env
                              (CheckoutDetailsModal.Paid response) (w, page, st) in
  World.orders (fst (fst s'))
  = World.orders w
    ++ [CheckoutDetailsModal.orderData env st (CartPage.checkoutItems page)
                                       userId response addr]
  /\ World.cart_items (fst (fst s'))
     = filter (fun r => negb (String.eqb (CartRow.user_id r) userId))
              (World.cart_items w)
  /\ CartPage.cartItems (snd (fst s')) = [].
Proof.
  intros Hs Hne Ha s'. unfold s', CartPage.checkout, CheckoutDetailsModal.razorpayPayment.
  rewrite (payment_success_steps
             CartPage.State (CartPage.checkoutItems (snd (fst (w, page, st))))
             (CartPage.setShowCheckoutModal false) (CartPage.handleOrderSuccess None)
             profileUpdateError None env response w page st userId addr addrs
             Hs Hne Ha eq_refl).
  unfold CartPage.handleOrderSuccess.
  assert (Hu : Js.orNull (Some userId) = Some userId).
  { destruct userId; [congruence | reflexivity]. }
  destruct profileUpdateError; simpl; rewrite Hs, Hu; simpl; repeat split.
Qed.

(** C10.  When an order is placed from the cart page while a search
    term is active, the stored order is built from the lines whose
    product name matches the term and from no other, while the cart
    clear that follows deletes every cart line of the user; so there
    is a cart with a line that does not match the term which is deleted
    although no order includes it. *)
Theorem filtered_checkout_orders_matches_but_clears_all
        (profileUpdateError : option PostgrestError.t)
        (env : CheckoutDetailsModal.Env)
        (response : CheckoutDetailsModal.RazorpayResponse)
        (w : World.t) (page : CartPage.State) (st : CheckoutDetailsModal.State)
        (userId : string) (addr : Address.t) (addrs : list Address.t) :
  (World.session w = Some userId -> userId <> "" ->
   CheckoutDetailsModal.shippingAddresses env st = (Some addr, addrs) ->
   let s' := CartPage.checkout profileUpdateError None None env
                               (CheckoutDetailsModal.Paid response) (w, page, st) in
   let matching :=
     filter (CartPage.matchesSearch (CartPage.searchTerm page)) (CartPage.cartItems page) in
   (exists o,
       World.orders (fst (fst s')) = World.orders w ++ [o]
       /\ map OrderItem.product_id (Order.order_items o)
          = map CartPage.product_id matching
       /\ map OrderItem.quantity (Order.order_items o)
          = map CartPage.quantity matching
       /\ map OrderItem.price_at_purchase (Order.order_items o)
          = map CartPage.unitPrice matching)
   /\ (forall r, In r (World.cart_items w) -> CartRow.user_id r = userId ->
                 ~ In r (World.cart_items (fst (fst s'))))
   /\ (forall r, In r (World.cart_items w) -> CartRow.user_id r <> userId ->
                 In r (World.cart_items (fst (fst s'))))
   /\ CartPage.cartItems (snd (fst s')) = [])
  /\
  (exists line item,
      In line (World.cart_items Sample.world)
      /\ In item (CartPage.cartItems (Sample.cartPage "honey"))
      /\ CartPage.id item = CartRow.id line
      /\ CartPage.matchesSearch "honey" item = false
      /\ let w' :=
           fst (fst (CartPage.checkout None None None Sample.env
                       (CheckoutDetailsModal.Paid Sample.response)
                       (Sample.world, Sample.cartPage "honey", Sample.modalState))) in
         ~ In line (World.cart_items w')
         /\ List.length (World.orders w') = S (List.length (World.orders Sample.world))
         /\ forall o, In o (World.orders w') ->
                      ~ In (CartRow.product_id line)
                           (map OrderItem.product_id (Order.order_items o))).
Proof.
  split.
  - intros Hs Hne Ha s' matching.
    destruct (checkout_paid_from_cart profileUpdateError env response w page st
                                      userId addr addrs Hs Hne Ha)
      as [Ho [Hc Hp]].
    fold s' in Ho, Hc, Hp. split; [|split; [|split]].
    + eexists. split; [exact Ho|].
      unfold CheckoutDetailsModal.orderData, CheckoutDetailsModal.orderItemsData,
        CartPage.checkoutItems, CartPage.filteredCartItems.
      simpl Order.order_items. fold matching.
      repeat split.
      * rewrite (map_mapiFrom _ OrderItem.product_id productId) by reflexivity.
        rewrite map_map. reflexivity.
      * rewrite (map_mapiFrom _ OrderItem.quantity quantity) by reflexivity.
        rewrite map_map. reflexivity.
      * rewrite (map_mapiFrom _ OrderItem.price_at_purchase price_at_add) by reflexivity.
        rewrite map_map. reflexivity.
    + intros r Hin Hu Hin'. rewrite Hc in Hin'. apply filter_In in Hin'.
      destruct Hin' as [_ Hneq]. rewrite Hu, String.eqb_refl in Hneq. discriminate.
    + intros r Hin Hu. rewrite Hc. apply filter_In. split; [exact Hin|].
      apply String.eqb_neq in Hu. rewrite Hu. reflexivity.
    + exact Hp.
  - exists (CartRow.mk "line-2" "user-1" "prod-almonds" 2 500), Sample.almonds.
    split; [right; left; reflexivity|].
    split; [right; left; reflexivity|].
    split; [reflexivity|]. split; [reflexivity|].
    vm_compute. split; [|split].
    + intros [H|[]]. discriminate H.
    + reflexivity.
    + intros o [H|[H|[]]]; subst o; simpl; intros [H|[]]; discriminate H.
Qed.

Lemma filtered_checkout_orders_matches_but_clears_all_witness :
  let s' := CartPage.checkout None None None Sample.env
                              (CheckoutDetailsModal.Paid Sample.response)
                              (Sample.world, Sample.cartPage "honey", Sample.modalState) in
  (exists o,
      World.orders (fst (fst s')) = [Sample.shippedOrder; o]
      /\ map OrderItem.product_id (Order.order_items o) = ["prod-honey"])
  /\ ~ In (CartRow.mk "line-2" "user-1" "prod-almonds" 2 500)
          (World.cart_items (fst (fst s'))).
Proof.
  destruct (filtered_checkout_orders_matches_but_clears_all
              None Sample.env Sample.response Sample.world (Sample.cartPage "honey")
              Sample.modalState "user-1" Sample.home
              [Sample.home; Sample.office])
    as [Hall _].
  assert (Hne : "user-1" <> "") by discriminate.
  destruct (Hall eq_refl Hne eq_refl) as [[o [Ho [Hp _]]] [Hgone _]].
  split.
  - exists o. split; [exact Ho | exact Hp].
  - apply Hgone; [right; left; reflexivity | reflexivity].
Defined.

(* ================================================================== *)
(** ** Cart page: removing, reloading, missing products *)
(* ================================================================== *)

Lemma orNull_session (w : World.t) (userId : string) :
  World.session w = Some userId -> userId <> "" ->
  Js.orNull (World.session w) = Some userId.
Proof.
  intros Hs Hne. rewrite Hs. destruct userId; [congruence | reflexivity].
Qed.

Lemma filter_filter_same {A : Type} (p : A -> bool) (l : list A) :
  filter p (filter p l) = filter p l.
Proof.
  induction l as [|x l IH]; simpl; [reflexivity|].
  destruct (p x) eqn:E; simpl; [rewrite E, IH; reflexivity | exact IH].
Qed.

Lemma filter_length_le {A : Type} (p q : A -> bool) (l : list A) :
  (List.length (filter p (filter q l)) <= List.length (filter p l))%nat.
Proof.
  induction l as [|x l IH]; simpl; [lia|].
  destruct (q x); simpl; destruct (p x); simpl; lia.
Qed.

Lemma filter_map_commute {A : Type} (p : A -> bool) (f : A -> A) (l : list A) :
  (forall x, p (f x) = p x) -> filter p (map f l) = map f (filter p l).
Proof.
  intros H. induction l as [|x l IH]; simpl; [reflexivity|].
  rewrite H. destruct (p x); simpl; rewrite IH; reflexivity.
Qed.

(** X1.  Removing a line deletes the signed-in user's row of that id
    and nothing else, from the table and from the page; a second
    removal changes the table no further; the one-line-per-product
    invariant and the orders are kept. *)
Theorem remove_item_deletes_only_that_line
        (itemId productName userId : string) (w : World.t) (st : CartPage.State) :
  World.session w = Some userId -> userId <> "" ->
  let s' := CartPage.handleRemoveItem None itemId productName (w, st) in
  (forall r, In r (World.cart_items (fst s'))
             <-> In r (World.cart_items w)
                 /\ ~ (CartRow.id r = itemId /\ CartRow.user_id r = userId))
  /\ (forall item, In item (CartPage.cartItems (snd s'))
                   <-> In item (CartPage.cartItems st) /\ CartPage.id item <> itemId)
  /\ World.cart_items (fst (CartPage.handleRemoveItem None itemId productName s'))
     = World.cart_items (fst s')
  /\ (oneLinePerProduct (World.cart_items w) ->
      oneLinePerProduct (World.cart_items (fst s')))
  /\ World.orders (fst s') = World.orders w.
Proof.
  intros Hs Hne s'.
  pose proof (orNull_session w userId Hs Hne) as Hu.
  assert (Hs' : s' = (World.toast
                        (Toast.mk (productName ++ " has been removed from your cart.")%string
                                  None "default")
                        (World.withCartItems
                           (filter (fun r => negb (String.eqb (CartRow.id r) itemId
                                                   && String.eqb (CartRow.user_id r) userId))
                                   (World.cart_items w)) w),
                      CartPage.setCartItems
                        (filter (fun item => negb (String.eqb (CartPage.id item) itemId))
                                (CartPage.cartItems st)) st)).
  { unfold s', CartPage.handleRemoveItem. rewrite Hu. reflexivity. }
  rewrite Hs'. split; [|split; [|split; [|split]]].
  - intros r. simpl. rewrite filter_In. split; intros [Hin Hc]; split; try exact Hin.
    + intros [Hi Hus]. rewrite Hi, Hus, !String.eqb_refl in Hc. discriminate.
    + destruct (String.eqb_spec (CartRow.id r) itemId),
               (String.eqb_spec (CartRow.user_id r) userId); simpl; try reflexivity.
      exfalso. apply Hc. split; assumption.
  - intros item. simpl. rewrite filter_In. split; intros [Hin Hc]; split; try exact Hin.
    + intros Hi. rewrite Hi, String.eqb_refl in Hc. discriminate.
    + apply String.eqb_neq in Hc. rewrite Hc. reflexivity.
  - unfold CartPage.handleRemoveItem. simpl World.session. rewrite Hu. simpl.
    apply filter_filter_same.
  - intros Hone u p. simpl. unfold linesOf.
    specialize (Hone u p). unfold linesOf in Hone.
    pose proof (filter_length_le
                  (fun r => String.eqb (CartRow.user_id r) u
                            && String.eqb (CartRow.product_id r) p)
                  (fun r => negb (String.eqb (CartRow.id r) itemId
                                  && String.eqb (CartRow.user_id r) userId))
                  (World.cart_items w)).
    lia.
  - reflexivity.
Qed.

Lemma remove_item_deletes_only_that_line_witness :
  map CartRow.id
      (World.cart_items
         (fst (CartPage.handleRemoveItem None "line-1" "Forest Honey"
                 (Sample.world, Sample.cartPage ""))))
  = ["line-2"; "line-9"]
  /\ ~ In (CartRow.mk "line-1" "user-1" "prod-honey" 1 200)
          (World.cart_items
             (fst (CartPage.handleRemoveItem None "line-1" "Forest Honey"
                     (Sample.world, Sample.cartPage "")))).
Proof.
  assert (Hne : "user-1" <> "") by discriminate.
  destruct (remove_item_deletes_only_that_line
              "line-1" "Forest Honey" "user-1" Sample.world (Sample.cartPage "")
              eq_refl Hne) as [Hrows _].
  split; [reflexivity|].
  intros Hin. apply Hrows in Hin. destruct Hin as [_ Hc]. apply Hc. split; reflexivity.
Defined.

Lemma fetch_loaded (userId : string) (w : World.t) (st : CartPage.State) :
  World.session w = Some userId ->
  CartPage.cartItems (snd (CartPage.fetchCartItems None (w, st)))
  = map (lineOf w) (filter (ofUser userId) (World.cart_items w)).
Proof.
  intros Hs. unfold CartPage.fetchCartItems. rewrite Hs. reflexivity.
Qed.

Lemma lineOf_same_products (w w' : World.t) (r : CartRow.t) :
  World.products w' = World.products w -> lineOf w' r = lineOf w r.
Proof.
  intros Hp. unfold lineOf, CartPage.joinedProduct. rewrite Hp. reflexivity.
Qed.

Lemma handleQuantityChange_accepted
      (userId itemId : string) (newQuantity : Z) (w : World.t) (st : CartPage.State) :
  World.session w = Some userId -> userId <> "" -> 1 <= newQuantity ->
  CartPage.handleQuantityChange None itemId newQuantity (w, st)
  = (World.withCartItems
       (map (fun r =>
               if String.eqb (CartRow.id r) itemId && String.eqb (CartRow.user_id r) userId
               then CartRow.mk (CartRow.id r) (CartRow.user_id r) (CartRow.product_id r)
                               newQuantity (CartRow.price_at_add r)
               else r)
            (World.cart_items w)) w,
     CartPage.setCartItems
       (map (fun item =>
               if String.eqb (CartPage.id item) itemId
               then CartPage.mkCartItem (CartPage.id item) (CartPage.product_id item)
                                        newQuantity (CartPage.price_at_add item)
                                        (CartPage.products item)
               else item)
            (CartPage.cartItems st)) st).
Proof.
  intros Hs Hne Hq.
  assert (Hnlt : (newQuantity <? 1) = false) by (apply Z.ltb_ge; lia).
  unfold CartPage.handleQuantityChange.
  rewrite Hnlt, (orNull_session w userId Hs Hne). reflexivity.
Qed.

Lemma handleRemoveItem_accepted
      (userId itemId productName : string) (w : World.t) (st : CartPage.State) :
  World.session w = Some userId -> userId <> "" ->
  CartPage.handleRemoveItem None itemId productName (w, st)
  = (World.toast
       (Toast.mk (productName ++ " has been removed from your cart.")%string
                 None "default")
       (World.withCartItems
          (filter (fun r => negb (String.eqb (CartRow.id r) itemId
                                  && String.eqb (CartRow.user_id r) userId))
                  (World.cart_items w)) w),
     CartPage.setCartItems
       (filter (fun item => negb (String.eqb (CartPage.id item) itemId))
               (CartPage.cartItems st)) st).
Proof.
  intros Hs Hne. unfold CartPage.handleRemoveItem.
  rewrite (orNull_session w userId Hs Hne). reflexivity.
Qed.

Lemma handleOrderSuccess_accepted
      (userId : string) (w : World.t) (st : CartPage.State) :
  World.session w = Some userId -> userId <> "" ->
  CartPage.handleOrderSuccess None (w, st)
  = (World.routerPush "/orders"
       (World.withCartItems
          (filter (fun r => negb (String.eqb (CartRow.user_id r) userId))
                  (World.cart_items w)) w),
     CartPage.setCartItems [] st).
Proof.
  intros Hs Hne. unfold CartPage.handleOrderSuccess.
  rewrite (orNull_session w userId Hs Hne). reflexivity.
Qed.

Lemma reload_after_quantity_change
      (userId itemId : string) (newQuantity : Z) (w : World.t) (st : CartPage.State) :
  World.session w = Some userId -> userId <> "" -> 1 <= newQuantity ->
  pageIsFresh w st ->
  pageIsFresh (fst (CartPage.handleQuantityChange None itemId newQuantity (w, st)))
              (snd (CartPage.handleQuantityChange None itemId newQuantity (w, st))).
Proof.
  intros Hs Hne Hq Hfresh. unfold pageIsFresh in *.
  rewrite (fetch_loaded userId w st Hs) in Hfresh.
  rewrite (handleQuantityChange_accepted userId) by assumption.
  cbn [fst snd].
  rewrite (fetch_loaded userId) by exact Hs.
  cbn [CartPage.cartItems CartPage.setCartItems World.cart_items World.withCartItems].
  rewrite Hfresh.
  rewrite filter_map_commute.
  2:{ intros r. unfold ofUser.
      destruct (String.eqb (CartRow.id r) itemId && String.eqb (CartRow.user_id r) userId);
        reflexivity. }
  rewrite !map_map. apply map_ext_in. intros r Hr.
  apply filter_In in Hr. destruct Hr as [_ Hr]. unfold ofUser in Hr.
  rewrite Hr, andb_true_r.
  unfold lineOf, CartPage.joinedProduct. simpl.
  destruct (String.eqb (CartRow.id r) itemId); reflexivity.
Qed.

Lemma reload_after_remove
      (userId itemId productName : string) (w : World.t) (st : CartPage.State) :
  World.session w = Some userId -> userId <> "" ->
  pageIsFresh w st ->
  pageIsFresh (fst (CartPage.handleRemoveItem None itemId productName (w, st)))
              (snd (CartPage.handleRemoveItem None itemId productName (w, st))).
Proof.
  intros Hs Hne Hfresh. unfold pageIsFresh in *.
  rewrite (fetch_loaded userId w st Hs) in Hfresh.
  rewrite (handleRemoveItem_accepted userId) by assumption.
  cbn [fst snd].
  rewrite (fetch_loaded userId) by exact Hs.
  cbn [CartPage.cartItems CartPage.setCartItems World.cart_items World.withCartItems
       World.toast].
  rewrite Hfresh. clear Hfresh.
  unfold ofUser, lineOf, CartPage.joinedProduct.
  cbn [World.products World.withCartItems World.toast].
  induction (World.cart_items w) as [|r rows IH]; [reflexivity|].
  cbn [filter map].
  destruct (String.eqb (CartRow.user_id r) userId) eqn:Eu;
    destruct (String.eqb (CartRow.id r) itemId) eqn:Ei;
    cbn [andb negb filter map CartPage.id]; rewrite ?Eu, ?Ei;
    cbn [andb negb filter map CartPage.id]; rewrite ?Ei; cbn [negb];
    rewrite IH; reflexivity.
Qed.

Lemma reload_after_order (userId : string) (w : World.t) (st : CartPage.State) :
  World.session w = Some userId -> userId <> "" ->
  pageIsFresh (fst (CartPage.handleOrderSuccess None (w, st)))
              (snd (CartPage.handleOrderSuccess None (w, st))).
Proof.
  intros Hs Hne. unfold pageIsFresh.
  rewrite (handleOrderSuccess_accepted userId) by assumption.
  cbn [fst snd].
  rewrite (fetch_loaded userId) by exact Hs.
  cbn [CartPage.cartItems CartPage.setCartItems World.cart_items World.withCartItems
       World.routerPush].
  unfold ofUser.
  induction (World.cart_items w) as [|r rows IH]; [reflexivity|].
  cbn [filter].
  destruct (String.eqb (CartRow.user_id r) userId) eqn:Eu; cbn [negb filter].
  - exact IH.
  - rewrite Eu. exact IH.
Qed.

(** X2.  The optimistic updates of the cart page agree with a reload:
    when the page shows what the backend holds, then after a quantity
    change, a removal or the cart clear of a placed order it still
    does - reloading the cart would show the same lines. *)
Theorem optimistic_updates_agree_with_reload
        (itemId productName userId : string) (newQuantity : Z)
        (w : World.t) (st : CartPage.State) :
  World.session w = Some userId -> userId <> "" ->
  pageIsFresh w st ->
  (1 <= newQuantity ->
   pageIsFresh (fst (CartPage.handleQuantityChange None itemId newQuantity (w, st)))
               (snd (CartPage.handleQuantityChange None itemId newQuantity (w, st))))
  /\ pageIsFresh (fst (CartPage.handleRemoveItem None itemId productName (w, st)))
                 (snd (CartPage.handleRemoveItem None itemId productName (w, st)))
  /\ pageIsFresh (fst (CartPage.handleOrderSuccess None (w, st)))
                 (snd (CartPage.handleOrderSuccess None (w, st))).
Proof.
  intros Hs Hne Hfresh. split; [|split].
  - intros Hq. apply (reload_after_quantity_change userId); assumption.
  - apply (reload_after_remove userId); assumption.
  - apply (reload_after_order userId); assumption.
Qed.

Lemma optimistic_updates_agree_with_reload_witness :
  CartPage.cartItems
    (snd (CartPage.handleQuantityChange None "line-2" 3 (Sample.world, Sample.cartPage "")))
  = CartPage.cartItems
      (snd (CartPage.fetchCartItems None
              (CartPage.handleQuantityChange None "line-2" 3
                                             (Sample.world, Sample.cartPage "")))).
Proof.
  assert (Hne : "user-1" <> "") by discriminate.
  assert (Hq : 1 <= 3) by lia.
  destruct (optimistic_updates_agree_with_reload
              "line-2" "Raw Almonds" "user-1" 3 Sample.world (Sample.cartPage "")
              eq_refl Hne eq_refl) as [H _].
  pose proof (H Hq) as Hf. unfold pageIsFresh in Hf.
  destruct (CartPage.handleQuantityChange None "line-2" 3
                                          (Sample.world, Sample.cartPage ""))
    as [w' st'] eqn:E.
  exact Hf.
Defined.

Lemma includes_empty (s : string) : Js.includes s "" = true.
Proof. destruct s; reflexivity. Qed.

Lemma find_none_absent {A : Type} (p : A -> bool) (l : list A) :
  (forall x, In x l -> p x = false) -> Js.find p l = None.
Proof.
  induction l as [|x l IH]; intros H; simpl; [reflexivity|].
  rewrite (H x (or_introl eq_refl)). apply IH. intros y Hy. apply H. right. exact Hy.
Qed.

Lemma missing_never_matches (term : string) (item : CartPage.CartItem) :
  productMissing item -> CartPage.matchesSearch term item = false.
Proof.
  unfold productMissing, CartPage.matchesSearch.
  destruct (CartPage.products item) as [p|]; [|reflexivity].
  intros Hn. rewrite Hn. reflexivity.
Qed.

Lemma filter_all_false {A : Type} (p : A -> bool) (l : list A) :
  Forall (fun x => p x = false) l -> filter p l = [].
Proof.
  induction 1 as [|x l Hx _ IH]; simpl; [reflexivity|]. rewrite Hx. exact IH.
Qed.

(** X3.  A cart line whose product row is gone (or has no name) matches
    no search term, not even the empty one: it is not shown, not
    charged and not handed to the checkout, and a cart made of such
    lines cannot be checked out.  A product id without a row in
    [products] loads as such a line.  With an empty search term the
    page shows exactly the lines that do have a product name. *)
Theorem lines_of_missing_products_are_dropped (w : World.t) (st : CartPage.State) :
  (forall item term, productMissing item -> CartPage.matchesSearch term item = false)
  /\ (forall r, (forall p, In p (World.products w) -> ProductRow.id p <> CartRow.product_id r) ->
                productMissing (lineOf w r))
  /\ (Forall productMissing (CartPage.cartItems st) ->
      CartPage.filteredCartItems st = []
      /\ CartPage.subtotal st = 0%float
      /\ CartPage.total st = 0%float
      /\ CartPage.checkoutItems st = []
      /\ CartPage.handleProceedToCheckout (w, st)
         = (World.toast
              (Toast.mk "Please add items to your cart before proceeding to checkout."
                        None "destructive") w,
            st))
  /\ (CartPage.searchTerm st = "" ->
      CartPage.filteredCartItems st = filter hasProductName (CartPage.cartItems st)).
Proof.
  split; [intros item term; apply missing_never_matches|].
  split; [|split].
  - intros r Hr. unfold productMissing, lineOf, CartPage.joinedProduct. simpl.
    rewrite find_none_absent; [exact I|].
    intros p Hp. apply String.eqb_neq. apply Hr. exact Hp.
  - intros Hall.
    assert (Hf : CartPage.filteredCartItems st = []).
    { unfold CartPage.filteredCartItems. apply filter_all_false.
      apply Forall_forall. intros item Hin. apply missing_never_matches.
      rewrite Forall_forall in Hall. apply Hall. exact Hin. }
    unfold CartPage.total, CartPage.shippingFee, CartPage.subtotal,
      CartPage.checkoutItems, CartPage.handleProceedToCheckout.
    rewrite Hf. repeat split.
  - intros Hterm. unfold CartPage.filteredCartItems. rewrite Hterm.
    apply filter_ext. intros item. unfold CartPage.matchesSearch, hasProductName.
    destruct (CartPage.products item) as [p|]; [|reflexivity].
    destruct (CartPage.product_name p); [|reflexivity].
    apply includes_empty.
Qed.

Lemma lines_of_missing_products_are_dropped_witness :
  CartPage.subtotal
    (Sample.cartOf [CartPage.mkCartItem "line-5" "prod-gone" 2 300 None] "") = 0%float
  /\ CartPage.checkoutItems
       (Sample.cartOf [CartPage.mkCartItem "line-5" "prod-gone" 2 300 None] "") = [].
Proof.
  destruct (lines_of_missing_products_are_dropped
              Sample.world
              (Sample.cartOf [CartPage.mkCartItem "line-5" "prod-gone" 2 300 None] ""))
    as [_ [_ [H _]]].
  assert (Hall : Forall productMissing [CartPage.mkCartItem "line-5" "prod-gone" 2 300 None]).
  { constructor; [exact I | constructor]. }
  destruct (H Hall) as [_ [Hs [_ [Hc _]]]].
  split; [exact Hs | exact Hc].
Defined.

(* ================================================================== *)
(** ** Cart page: the item count after a quantity change *)
(* ================================================================== *)

Lemma reduce_ext_in {A : Type} (f g : A -> Z) (l : list A) :
  (forall x, In x l -> f x = g x) ->
  Js.reduce (fun sum x => sum + f x) 0 l = Js.reduce (fun sum x => sum + g x) 0 l.
Proof.
  induction l as [|x l IH]; intros H; [reflexivity|].
  rewrite (reduce_cons f), (reduce_cons g), IH, (H x (or_introl eq_refl)).
  - reflexivity.
  - intros y Hy. apply H. right. exact Hy.
Qed.

(** Changing the summand of the one element of key [k] moves the sum by
    the difference of the summands. *)
Lemma reduce_update_one {A : Type} (key : A -> string) (g g' : A -> Z)
      (a : A) (l : list A) :
  NoDup (map key l) -> In a l ->
  (forall x, In x l -> key x <> key a -> g' x = g x) ->
  Js.reduce (fun sum x => sum + g' x) 0 l
  = Js.reduce (fun sum x => sum + g x) 0 l + (g' a - g a).
Proof.
  induction l as [|x l IH]; intros Hnd Hin Hsame; [contradiction|].
  inversion Hnd as [|k ks Hnotin Hnd']; subst.
  rewrite (reduce_cons g'), (reduce_cons g).
  destruct Hin as [Hx|Hin].
  - subst x.
    rewrite (reduce_ext_in g' g l); [lia|].
    intros y Hy. apply Hsame; [right; exact Hy|].
    intros Hk. apply Hnotin. rewrite <- Hk. apply in_map. exact Hy.
  - rewrite IH; try assumption.
    + rewrite (Hsame x (or_introl eq_refl)); [lia|].
      intros Hk. apply Hnotin. rewrite Hk. apply in_map. exact Hin.
    + intros y Hy. apply Hsame. right. exact Hy.
Qed.

Lemma filter_keeps_distinct_keys {Row Key : Type} (key : Row -> Key)
      (keep : Row -> bool) (rows : list Row) (Hnd : NoDup (map key rows)) :
  NoDup (map key (filter keep rows)).
Proof.
  induction rows as [|r rows IH]; simpl; [constructor|].
  inversion Hnd as [|k ks Hnotin Hnd']; subst.
  destruct (keep r); simpl; [|apply IH; exact Hnd'].
  constructor; [|apply IH; exact Hnd'].
  intros Hin. apply Hnotin. apply in_map_iff in Hin. destruct Hin as [y [Hy Hin]].
  apply filter_In in Hin. rewrite <- Hy. apply in_map. apply Hin.
Qed.

(** X4.  On a page whose lines have distinct ids, changing the quantity
    of a shown line moves the item count by the change.  The same
    lines stay shown, at the same unit prices, and the subtotal is
    accumulated afresh over them with the new quantity in place of the
    old one. *)
Theorem quantity_change_moves_item_count
        (userId itemId : string) (newQuantity : Z)
        (w : World.t) (st : CartPage.State) (item : CartPage.CartItem) :
  World.session w = Some userId -> userId <> "" -> 1 <= newQuantity ->
  NoDup (map CartPage.id (CartPage.cartItems st)) ->
  In item (CartPage.filteredCartItems st) ->
  CartPage.id item = itemId ->
  let st' := snd (CartPage.handleQuantityChange None itemId newQuantity (w, st)) in
  CartPage.itemCount st'
  = CartPage.itemCount st + (newQuantity - CartPage.quantity item)
  /\ map CartPage.id (CartPage.filteredCartItems st')
     = map CartPage.id (CartPage.filteredCartItems st)
  /\ map CartPage.unitPrice (CartPage.filteredCartItems st')
     = map CartPage.unitPrice (CartPage.filteredCartItems st)
  /\ CartPage.subtotal st'
     = Js.reduce
         (fun sum x =>
            (sum + CartPage.unitPrice x
                   * Js.ofZ (if String.eqb (CartPage.id x) itemId
                             then newQuantity else CartPage.quantity x))%float)
         0%float (CartPage.filteredCartItems st).
Proof.
  intros Hs Hne Hq Hnd Hin Hid st'.
  unfold st'. rewrite (handleQuantityChange_accepted userId) by assumption.
  cbn [snd].
  set (upd := fun item0 : CartPage.CartItem =>
                if String.eqb (CartPage.id item0) itemId
                then CartPage.mkCartItem (CartPage.id item0) (CartPage.product_id item0)
                                         newQuantity (CartPage.price_at_add item0)
                                         (CartPage.products item0)
                else item0).
  assert (Hm : forall x, CartPage.matchesSearch (CartPage.searchTerm st) (upd x)
                         = CartPage.matchesSearch (CartPage.searchTerm st) x).
  { intros x. unfold upd. destruct (String.eqb (CartPage.id x) itemId); reflexivity. }
  assert (Hf : CartPage.filteredCartItems
                 (CartPage.setCartItems (map upd (CartPage.cartItems st)) st)
               = map upd (CartPage.filteredCartItems st)).
  { unfold CartPage.filteredCartItems. simpl. apply filter_map_commute. exact Hm. }
  assert (Hnd' : NoDup (map CartPage.id (CartPage.filteredCartItems st))).
  { unfold CartPage.filteredCartItems. apply filter_keeps_distinct_keys. exact Hnd. }
  assert (Hother : forall x, CartPage.id x <> CartPage.id item -> upd x = x).
  { intros x Hx. unfold upd. rewrite Hid in Hx. apply String.eqb_neq in Hx.
    rewrite Hx. reflexivity. }
  assert (Hitem : upd item
                  = CartPage.mkCartItem (CartPage.id item) (CartPage.product_id item)
                                        newQuantity (CartPage.price_at_add item)
                                        (CartPage.products item)).
  { unfold upd. rewrite Hid, String.eqb_refl. reflexivity. }
  unfold CartPage.subtotal, CartPage.itemCount. rewrite Hf.
  split; [|split; [|split]].
  - rewrite reduce_map.
    rewrite (reduce_update_one
               CartPage.id CartPage.quantity (fun x => CartPage.quantity (upd x))
               item _ Hnd' Hin).
    + rewrite Hitem. simpl. lia.
    + intros x _ Hx. rewrite (Hother x Hx). reflexivity.
  - rewrite map_map. apply map_ext. intros x. unfold upd.
    destruct (String.eqb (CartPage.id x) itemId); reflexivity.
  - rewrite map_map. apply map_ext. intros x. unfold upd.
    destruct (String.eqb (CartPage.id x) itemId); reflexivity.
  - rewrite reduce_map. unfold Js.reduce.
    set (l := CartPage.filteredCartItems st). clearbody l. clear.
    generalize 0%float.
    induction l as [|x l IH]; intros a; [reflexivity|].
    cbn [fold_left]. rewrite IH. f_equal. unfold upd.
    destruct (String.eqb (CartPage.id x) itemId); reflexivity.
Qed.

Lemma quantity_change_moves_item_count_witness :
  CartPage.itemCount
    (snd (CartPage.handleQuantityChange None "line-1" 3 (Sample.world, Sample.cartPage "")))
  = 3 + (3 - 1).
Proof.
  assert (Hne : "user-1" <> "") by discriminate.
  assert (Hq : 1 <= 3) by lia.
  assert (Hnd : NoDup (map CartPage.id (CartPage.cartItems (Sample.cartPage "")))).
  { simpl. repeat constructor; simpl; intuition congruence. }
  assert (Hin : In Sample.honey (CartPage.filteredCartItems (Sample.cartPage ""))).
  { left. reflexivity. }
  exact (proj1 (quantity_change_moves_item_count
                  "user-1" "line-1" 3 Sample.world (Sample.cartPage "") Sample.honey
                  eq_refl Hne Hq Hnd Hin eq_refl)).
Defined.

(* ================================================================== *)
(** ** Cart page: failures *)
(* ================================================================== *)

Lemma sameTables_refl (w : World.t) : sameTables w w.
Proof. repeat split. Qed.

Lemma onlyWarned_toast (w : World.t) (ttl : string) (d : option string) :
  onlyWarned w (World.toast (Toast.mk ttl d "destructive") w).
Proof.
  split; [repeat split|]. split; [reflexivity|].
  eexists. split; reflexivity.
Qed.

(** X5.  When nobody is signed in, or the backend reports an error, the
    cart-page handlers write nothing.  A quantity change and a removal
    only show a destructive notice and keep the page as it is; the cart
    clear after an order keeps table and page but still routes to the
    orders page; a failed load empties the page and sets its error
    text, and a load without a session routes to the login page. *)
Theorem cart_handlers_write_nothing_on_failure
        (itemId productName : string) (newQuantity : Z)
        (fault : option PostgrestError.t) (w : World.t) (st : CartPage.State) :
  Js.orNull (World.session w) = None \/ fault <> None ->
  (1 <= newQuantity ->
   onlyWarned w (fst (CartPage.handleQuantityChange fault itemId newQuantity (w, st)))
   /\ snd (CartPage.handleQuantityChange fault itemId newQuantity (w, st)) = st)
  /\ (onlyWarned w (fst (CartPage.handleRemoveItem fault itemId productName (w, st)))
      /\ snd (CartPage.handleRemoveItem fault itemId productName (w, st)) = st)
  /\ (sameTables w (fst (CartPage.handleOrderSuccess fault (w, st)))
      /\ World.route (fst (CartPage.handleOrderSuccess fault (w, st))) = Some "/orders"
      /\ World.toasts (fst (CartPage.handleOrderSuccess fault (w, st))) = World.toasts w
      /\ snd (CartPage.handleOrderSuccess fault (w, st)) = st)
  /\ sameTables w (fst (CartPage.fetchCartItems fault (w, st)))
  /\ (World.session w = None ->
      World.route (fst (CartPage.fetchCartItems fault (w, st))) = Some "/login"
      /\ CartPage.cartItems (snd (CartPage.fetchCartItems fault (w, st)))
         = CartPage.cartItems st)
  /\ (World.session w <> None -> fault <> None ->
      CartPage.cartItems (snd (CartPage.fetchCartItems fault (w, st))) = []
      /\ CartPage.error (snd (CartPage.fetchCartItems fault (w, st)))
         = Some "Failed to load cart items. Please try again.").
Proof.
  intros Hfail. split; [|split; [|split; [|split; [|split]]]].
  - intros Hq.
    assert (Hnlt : (newQuantity <? 1) = false) by (apply Z.ltb_ge; lia).
    unfold CartPage.handleQuantityChange. rewrite Hnlt.
    destruct (Js.orNull (World.session w)) as [u|].
    + destruct fault as [e|].
      * split; [apply onlyWarned_toast | reflexivity].
      * destruct Hfail as [H|H]; congruence.
    + split; [apply onlyWarned_toast | reflexivity].
  - unfold CartPage.handleRemoveItem.
    destruct (Js.orNull (World.session w)) as [u|].
    + destruct fault as [e|].
      * split; [apply onlyWarned_toast | reflexivity].
      * destruct Hfail as [H|H]; congruence.
    + split; [apply onlyWarned_toast | reflexivity].
  - unfold CartPage.handleOrderSuccess.
    destruct (Js.orNull (World.session w)) as [u|].
    + destruct fault as [e|].
      * repeat split.
      * destruct Hfail as [H|H]; congruence.
    + repeat split.
  - unfold CartPage.fetchCartItems.
    destruct (World.session w); [destruct fault|]; repeat split.
  - intros Hs. unfold CartPage.fetchCartItems. rewrite Hs. split; reflexivity.
  - intros Hs Hf. unfold CartPage.fetchCartItems.
    destruct (World.session w); [|congruence].
    destruct fault; [split; reflexivity | congruence].
Qed.

Lemma cart_handlers_write_nothing_on_failure_witness :
  World.cart_items
    (fst (CartPage.handleRemoveItem
            (Some (PostgrestError.mk "42501" "permission denied"))
            "line-1" "Forest Honey" (Sample.world, Sample.cartPage "")))
  = Sample.cartRows
  /\ map Toast.title
         (World.toasts
            (fst (CartPage.handleRemoveItem
                    (Some (PostgrestError.mk "42501" "permission denied"))
                    "line-1" "Forest Honey" (Sample.world, Sample.cartPage ""))))
     = ["permission denied"].
Proof.
  assert (Hf : Js.orNull (World.session Sample.world) = None
               \/ Some (PostgrestError.mk "42501" "permission denied") <> None).
  { right. discriminate. }
  destruct (cart_handlers_write_nothing_on_failure
              "line-1" "Forest Honey" 1
              (Some (PostgrestError.mk "42501" "permission denied"))
              Sample.world (Sample.cartPage "") Hf)
    as [_ [[[[Hrows _] _] _] _]].
  split; [exact Hrows | reflexivity].
Defined.

(* ================================================================== *)
(** ** Checkout: the form *)
(* ================================================================== *)

Lemma truthy_iff (s : string) : Js.truthy s = true <-> s <> "".
Proof. destruct s; simpl; split; congruence. Qed.

Lemma not_truthy_iff (s : string) : negb (Js.truthy s) = false <-> s <> "".
Proof. rewrite negb_false_iff. apply truthy_iff. Qed.

Lemma missingDetails_false (f : CheckoutDetailsModal.State) :
  CheckoutForm.missingDetails f = false
  <-> (CheckoutDetailsModal.userName f <> ""
       /\ CheckoutDetailsModal.primaryPhone f <> ""
       /\ CheckoutDetailsModal.state f <> ""
       /\ CheckoutDetailsModal.city f <> ""
       /\ CheckoutDetailsModal.pincode f <> ""
       /\ CheckoutDetailsModal.houseNumber f <> ""
       /\ CheckoutDetailsModal.street f <> ""
       /\ CheckoutDetailsModal.area f <> "").
Proof.
  unfold CheckoutForm.missingDetails.
  rewrite !orb_false_iff, !not_truthy_iff. tauto.
Qed.

Lemma isNew_iff (f : CheckoutDetailsModal.State) :
  CheckoutDetailsModal.isNew f = true
  <-> CheckoutDetailsModal.selectedAddressId f = Some "new".
Proof.
  unfold CheckoutDetailsModal.isNew.
  destruct (CheckoutDetailsModal.selectedAddressId f) as [s|]; [|split; congruence].
  rewrite String.eqb_eq. split; congruence.
Qed.

Lemma formComplete_dec (f : CheckoutDetailsModal.State) :
  formComplete f
  <-> (CheckoutDetailsModal.isNew f && CheckoutForm.missingDetails f = false
       /\ Js.orNull (CheckoutDetailsModal.selectedAddressId f) <> None).
Proof.
  unfold formComplete. split.
  - intros [[s [Hs Hne]] Hnew]. split.
    + destruct (CheckoutDetailsModal.isNew f) eqn:En; [|reflexivity].
      apply isNew_iff in En. simpl. apply missingDetails_false. apply Hnew. exact En.
    + rewrite Hs. destruct s; [congruence | discriminate].
  - intros [Hm Hsel]. split.
    + destruct (CheckoutDetailsModal.selectedAddressId f) as [s|]; [|simpl in Hsel; congruence].
      exists s. split; [reflexivity|]. intros He. subst s. simpl in Hsel. congruence.
    + intros Hnew. apply isNew_iff in Hnew. rewrite Hnew in Hm. simpl in Hm.
      apply missingDetails_false. exact Hm.
Qed.

(** X6.  Submitting the checkout form opens the payment window exactly
    when an address is chosen and, for a new address, the name, phone,
    state, city, pincode, house number, street and area are all filled
    in; the order id drawn for the attempt is then stored and nothing
    is written or notified.  Otherwise the window stays closed, the
    form is kept, an error text is set and a destructive notice is
    shown. *)
Theorem payment_opens_iff_form_complete
        (tempOrderId : string) (w : World.t) (st : CheckoutForm.State) :
  let s' := CheckoutForm.handleFormSubmit tempOrderId (w, st) in
  (formComplete (CheckoutForm.fields st) ->
   fst s' = w
   /\ CheckoutDetailsModal.showRazorpay (CheckoutForm.fields (snd s')) = true
   /\ CheckoutDetailsModal.orderId (CheckoutForm.fields (snd s')) = tempOrderId
   /\ CheckoutForm.error (snd s') = None
   /\ CheckoutDetailsModal.selectedAddressId (CheckoutForm.fields (snd s'))
      = CheckoutDetailsModal.selectedAddressId (CheckoutForm.fields st)
   /\ CheckoutDetailsModal.userAddresses (CheckoutForm.fields (snd s'))
      = CheckoutDetailsModal.userAddresses (CheckoutForm.fields st))
  /\ (~ formComplete (CheckoutForm.fields st) ->
      onlyWarned w (fst s')
      /\ CheckoutForm.fields (snd s') = CheckoutForm.fields st
      /\ CheckoutForm.error (snd s') <> None).
Proof.
  intros s'. unfold s', CheckoutForm.handleFormSubmit.
  rewrite formComplete_dec. simpl CheckoutForm.fields.
  destruct (CheckoutDetailsModal.isNew (CheckoutForm.fields st)
            && CheckoutForm.missingDetails (CheckoutForm.fields st)) eqn:Em.
  - split.
    + intros [Hc _]. congruence.
    + intros _. split; [apply onlyWarned_toast|]. split; [reflexivity | discriminate].
  - destruct (Js.orNull (CheckoutDetailsModal.selectedAddressId (CheckoutForm.fields st)))
      as [sel|] eqn:Es.
    + split.
      * intros _. repeat split.
      * intros Hn. exfalso. apply Hn. split; [reflexivity | discriminate].
    + split.
      * intros [_ Hc]. congruence.
      * intros _. split; [apply onlyWarned_toast|]. split; [reflexivity | discriminate].
Qed.

Lemma payment_opens_iff_form_complete_witness :
  CheckoutDetailsModal.showRazorpay
    (CheckoutForm.fields
       (snd (CheckoutForm.handleFormSubmit "order_1735810200000_42"
               (Sample.world, Scenario.formNew)))) = true
  /\ CheckoutForm.fields
       (snd (CheckoutForm.handleFormSubmit "order_1735810200000_42"
               (Sample.world, Scenario.formNoCity)))
     = CheckoutForm.fields Scenario.formNoCity.
Proof.
  split.
  - apply (payment_opens_iff_form_complete
             "order_1735810200000_42" Sample.world Scenario.formNew).
    split.
    + exists "new". split; [reflexivity | discriminate].
    + intros _. repeat split; discriminate.
  - apply (payment_opens_iff_form_complete
             "order_1735810200000_42" Sample.world Scenario.formNoCity).
    intros [_ Hnew]. destruct (Hnew eq_refl) as [_ [_ [_ [Hcity _]]]].
    apply Hcity. reflexivity.
Defined.

(* ================================================================== *)
(** ** Checkout: where the order ships *)
(* ================================================================== *)

Lemma find_some {A : Type} (p : A -> bool) (l : list A) (x : A) :
  Js.find p l = Some x -> In x l /\ p x = true.
Proof.
  induction l as [|y l IH]; simpl; [discriminate|].
  destruct (p y) eqn:E.
  - intros H. injection H as H. subst y. split; [left; reflexivity | exact E].
  - intros H. destruct (IH H) as [Hin Hp]. split; [right; exact Hin | exact Hp].
Qed.

(** A chosen address resolves, and its copy marked default is in the
    list saved to the profile. *)
Lemma selected_address_resolves (env : CheckoutDetailsModal.Env)
      (st : CheckoutDetailsModal.State) :
  selectsAnAddress st ->
  exists addr addrs,
    CheckoutDetailsModal.shippingAddresses env st = (Some addr, addrs)
    /\ In (Address.withDefault true addr) addrs.
Proof.
  intros Hs. unfold CheckoutDetailsModal.shippingAddresses.
  destruct (CheckoutDetailsModal.isNew st) eqn:En.
  - eexists. eexists. split; [reflexivity|].
    apply in_or_app. right. left. reflexivity.
  - destruct Hs as [Hs | [s [Hsel Hin]]]; [congruence|].
    assert (Hf : CheckoutDetailsModal.isSelected st
                 = fun a => String.eqb (Address.id a) s).
    { unfold CheckoutDetailsModal.isSelected. rewrite Hsel. reflexivity. }
    rewrite Hf. destruct (find_selected s _ Hin) as [a Ha]. rewrite Ha.
    eexists. eexists. split; [reflexivity|].
    destruct (find_some _ _ _ Ha) as [Hina Hpa].
    apply in_map_iff. exists a. split; [|exact Hina].
    rewrite Hpa. reflexivity.
Qed.

Lemma callbacks_keep_orders_and_profiles (deleteError : option PostgrestError.t) :
  keepsOrdersAndProfiles (CartPage.handleOrderSuccess deleteError)
  /\ keepsOrdersAndProfiles ProductPage.handleOrderSuccess.
Proof.
  split; intros [w st].
  - unfold CartPage.handleOrderSuccess.
    destruct (Js.orNull (World.session w)); [destruct deleteError|]; split; reflexivity.
  - split; reflexivity.
Qed.

(** X7.  After a paid checkout the stored order ships to the address
    that the saved profile now marks default: the order is stored
    with status "confirmed" for the signed-in user and the contact of
    the form, its shipping columns are those of the one default address
    of the list written to the user's profile row, together with the
    name and phone of the form; the other profile rows are kept. *)
Theorem paid_order_ships_to_saved_default
        (Parent : Type) (items : list CheckoutItem)
        (onClose : Parent -> Parent)
        (onOrderSuccess : World.t * Parent -> World.t * Parent)
        (env : CheckoutDetailsModal.Env)
        (response : CheckoutDetailsModal.RazorpayResponse)
        (w : World.t) (parent : Parent) (st : CheckoutDetailsModal.State)
        (userId : string) :
  World.session w = Some userId -> userId <> "" ->
  uniqueIds (CheckoutDetailsModal.userAddresses st) ->
  selectsAnAddress st ->
  keepsOrdersAndProfiles onOrderSuccess ->
  let w' :=
    fst (fst (CheckoutDetailsModal.handlePaymentSuccess
                Parent items onClose onOrderSuccess None None env response
                (w, parent, st))) in
  exists o addrs a,
    World.orders w' = World.orders w ++ [o]
    /\ Order.user_id o = userId
    /\ Order.status o = "confirmed"
    /\ Order.customer_name o = CheckoutDetailsModal.userName st
    /\ Order.primary_phone o = CheckoutDetailsModal.primaryPhone st
    /\ In a addrs /\ Address.isDefault a = true /\ countDefaults addrs = 1%nat
    /\ shipsTo o a
    /\ Forall (fun row =>
                 UserProfile.id row = userId ->
                 UserProfile.addresses row = Some addrs
                 /\ UserProfile.name row = Some (CheckoutDetailsModal.userName st)
                 /\ UserProfile.phone row = Some (CheckoutDetailsModal.primaryPhone st))
              (World.user_profiles w')
    /\ (forall row, In row (World.user_profiles w) -> UserProfile.id row <> userId ->
                    In row (World.user_profiles w')).
Proof.
  intros Hs Hne Hu Hsel Hcb w'.
  destruct (selected_address_resolves env st Hsel) as [addr [addrs [Ha Hin]]].
  destruct (checkout_one_default env st Hu Hsel) as [_ Hcount].
  rewrite Ha in Hcount. simpl in Hcount.
  unfold w'.
  rewrite (payment_success_steps
             Parent items onClose onOrderSuccess None None env response
             w parent st userId addr addrs Hs Hne Ha eq_refl).
  cbn [fst snd].
  match goal with
  | |- context [onOrderSuccess ?x] => destruct (Hcb x) as [Ho Hp]; rewrite Ho, Hp
  end.
  cbn [fst World.orders World.user_profiles World.toast World.withOrders].
  exists (CheckoutDetailsModal.orderData env st items userId response addr),
         addrs, (Address.withDefault true addr).
  split; [reflexivity|].
  split; [reflexivity|]. split; [reflexivity|]. split; [reflexivity|].
  split; [reflexivity|]. split; [exact Hin|]. split; [reflexivity|].
  split; [exact Hcount|]. split; [repeat split|]. split.
  - unfold CheckoutDetailsModal.updateProfile. simpl.
    apply Forall_forall. intros row Hrow. apply in_map_iff in Hrow.
    destruct Hrow as [r [Heq _]].
    destruct (String.eqb (UserProfile.id r) userId) eqn:E; subst row.
    + intros _. repeat split.
    + apply String.eqb_neq in E. intros H. contradiction.
  - intros row Hrow Hid. unfold CheckoutDetailsModal.updateProfile. simpl.
    apply in_map_iff. exists row. split; [|exact Hrow].
    apply String.eqb_neq in Hid. rewrite Hid. reflexivity.
Qed.

Lemma paid_order_ships_to_saved_default_witness :
  let w' :=
    fst (fst (CartPage.checkout None None None Sample.env
                (CheckoutDetailsModal.Paid Sample.response)
                (Sample.world, Sample.cartPage "", Sample.modalStateNew))) in
  exists o a,
    World.orders w' = [Sample.shippedOrder; o]
    /\ Address.isDefault a = true
    /\ shipsTo o a
    /\ Address.city a = "Panaji".
Proof.
  assert (Hne : "user-1" <> "") by discriminate.
  assert (Hu : uniqueIds (CheckoutDetailsModal.userAddresses Sample.modalStateNew)).
  { unfold uniqueIds. simpl. repeat constructor; simpl; intuition discriminate. }
  assert (Hsel : selectsAnAddress Sample.modalStateNew) by (left; reflexivity).
  destruct (paid_order_ships_to_saved_default
              CartPage.State (CartPage.checkoutItems (Sample.cartPage ""))
              (CartPage.setShowCheckoutModal false) (CartPage.handleOrderSuccess None)
              Sample.env Sample.response Sample.world (Sample.cartPage "")
              Sample.modalStateNew "user-1" eq_refl Hne Hu Hsel
              (proj1 (callbacks_keep_orders_and_profiles None)))
    as [o [addrs [a [Ho [_ [_ [_ [_ [_ [Hd [_ [Hship _]]]]]]]]]]]].
  exists o, a. split; [exact Ho|]. split; [exact Hd|]. split; [exact Hship|].
  destruct Hship as [_ [_ [Hcity _]]]. rewrite <- Hcity.
  assert (Ho' : [Sample.shippedOrder; o]
                = World.orders
                    (fst (fst (CartPage.checkout None None None Sample.env
                                 (CheckoutDetailsModal.Paid Sample.response)
                                 (Sample.world, Sample.cartPage "",
                                  Sample.modalStateNew))))) by (symmetry; exact Ho).
  vm_compute in Ho'. injection Ho' as Ho'. subst o. reflexivity.
Defined.

(* ================================================================== *)
(** ** Checkout: choosing the address *)
(* ================================================================== *)

Lemma find_none_all {A : Type} (p : A -> bool) (l : list A) :
  Js.find p l = None -> forall x, In x l -> p x = false.
Proof.
  induction l as [|y l IH]; simpl; intros E x Hx; [contradiction|].
  destruct (p y) eqn:Ey; [discriminate|].
  destruct Hx as [Hx|Hx]; [subst; exact Ey | exact (IH E x Hx)].
Qed.

Lemma find_or_first_in {A : Type} (p : A -> bool) (first : A) (rest : list A) :
  In (Js.nullish (Js.find p (first :: rest)) first) (first :: rest)
  /\ (p (Js.nullish (Js.find p (first :: rest)) first) = true
      \/ (forall x, In x (first :: rest) -> p x = false)
         /\ Js.nullish (Js.find p (first :: rest)) first = first).
Proof.
  destruct (Js.find p (first :: rest)) as [x|] eqn:E.
  - destruct (find_some _ _ _ E) as [Hin Hp]. simpl. split; [exact Hin | left; exact Hp].
  - cbn [Js.nullish]. split; [left; reflexivity|]. right. split; [|reflexivity].
    apply find_none_all. exact E.
Qed.

(** X8.  The address selection made through the modal always resolves.
    Opening the modal on a profile with saved addresses selects the
    default one, or the first when none is default, fills the form
    with it and hides the new-address form; on a profile without
    addresses it selects "new" and shows that form.  A radio choice
    selects the value chosen, and ticking the default box selects
    "new"; clearing the box selects the first saved address, or, on an
    empty list, nothing, and then the form is refused for want of an
    address.  A choice of "new" or of a saved id is a selection that
    finds its shipping address when the payment succeeds. *)
Theorem modal_selection_always_resolves
        (email : option string) (env : CheckoutDetailsModal.Env)
        (w : World.t) (st : CheckoutForm.State)
        (userId value tempOrderId : string) (profile : UserProfile.t) :
  (Js.orNull (World.session w) = Some userId ->
   filter (fun p => String.eqb (UserProfile.id p) userId) (World.user_profiles w)
   = [profile] ->
   let st' := snd (CheckoutForm.fetchUserProfile None email (w, st)) in
   let f := CheckoutForm.fields st' in
   selectsAnAddress f
   /\ fst (CheckoutForm.fetchUserProfile None email (w, st)) = w
   /\ (forall first rest,
          UserProfile.addresses profile = Some (first :: rest) ->
          CheckoutForm.showNewAddressForm st' = false
          /\ exists a,
            In a (first :: rest)
            /\ CheckoutDetailsModal.userAddresses f = first :: rest
            /\ CheckoutDetailsModal.selectedAddressId f = Some (Address.id a)
            /\ (Address.isDefault a = true
                \/ (forall x, In x (first :: rest) -> Address.isDefault x = false)
                   /\ a = first)
            /\ CheckoutDetailsModal.houseNumber f = Address.houseNumber a
            /\ CheckoutDetailsModal.street f = Address.street a
            /\ CheckoutDetailsModal.city f = Address.city a
            /\ CheckoutDetailsModal.pincode f = Address.pincode a)
   /\ (UserProfile.addresses profile = None \/ UserProfile.addresses profile = Some [] ->
       CheckoutDetailsModal.selectedAddressId f = Some "new"
       /\ CheckoutForm.showNewAddressForm st' = true
       /\ CheckoutDetailsModal.userAddresses f
          = CheckoutDetailsModal.userAddresses (CheckoutForm.fields st)))
  /\ (CheckoutDetailsModal.selectedAddressId
        (CheckoutForm.fields (CheckoutForm.handleAddressSelectionChange value st))
      = Some value
      /\ CheckoutForm.showNewAddressForm (CheckoutForm.handleAddressSelectionChange value st)
         = String.eqb value "new"
      /\ CheckoutDetailsModal.userAddresses
           (CheckoutForm.fields (CheckoutForm.handleAddressSelectionChange value st))
         = CheckoutDetailsModal.userAddresses (CheckoutForm.fields st)
      /\ ((value = "new"
           \/ In value (map Address.id
                            (CheckoutDetailsModal.userAddresses (CheckoutForm.fields st)))) ->
          selectsAnAddress
            (CheckoutForm.fields (CheckoutForm.handleAddressSelectionChange value st))))
  /\ (CheckoutDetailsModal.selectedAddressId
        (CheckoutForm.fields (CheckoutForm.onCheckedChange true st)) = Some "new"
      /\ selectsAnAddress (CheckoutForm.fields (CheckoutForm.onCheckedChange true st))
      /\ (forall first rest,
             CheckoutDetailsModal.userAddresses (CheckoutForm.fields st) = first :: rest ->
             CheckoutDetailsModal.selectedAddressId
               (CheckoutForm.fields (CheckoutForm.onCheckedChange false st))
             = Some (Address.id first)
             /\ selectsAnAddress
                  (CheckoutForm.fields (CheckoutForm.onCheckedChange false st)))
      /\ (CheckoutDetailsModal.userAddresses (CheckoutForm.fields st) = [] ->
          CheckoutDetailsModal.selectedAddressId
            (CheckoutForm.fields (CheckoutForm.onCheckedChange false st)) = None
          /\ ~ formComplete (CheckoutForm.fields (CheckoutForm.onCheckedChange false st))
          /\ CheckoutForm.error
               (snd (CheckoutForm.handleFormSubmit
                       tempOrderId (w, CheckoutForm.onCheckedChange false st)))
             = Some "Please select or add a delivery address."
          /\ CheckoutDetailsModal.showRazorpay
               (CheckoutForm.fields
                  (snd (CheckoutForm.handleFormSubmit
                          tempOrderId (w, CheckoutForm.onCheckedChange false st))))
             = CheckoutDetailsModal.showRazorpay (CheckoutForm.fields st)))
  /\ (selectsAnAddress (CheckoutForm.fields st) ->
      exists addr addrs,
        CheckoutDetailsModal.shippingAddresses env (CheckoutForm.fields st)
        = (Some addr, addrs)).
Proof.
  split; [|split; [|split]].
  - intros Hu Hrow st' f. unfold f, st', CheckoutForm.fetchUserProfile. rewrite Hu, Hrow.
    simpl single. cbv iota beta. simpl ProductPage.thrownFetchError. cbv iota.
    destruct (UserProfile.addresses profile) as [[|first rest]|] eqn:Ea.
    + split; [left; reflexivity|]. split; [reflexivity|].
      split; [intros ? ? H; discriminate|]. intros _. repeat split.
    + destruct (find_or_first_in Address.isDefault first rest) as [Hin Hd].
      split; [|split; [reflexivity|split]].
      * right. exists (Address.id (Js.nullish (Js.find Address.isDefault (first :: rest)) first)).
        split; [reflexivity|]. simpl CheckoutDetailsModal.userAddresses.
        apply in_map. exact Hin.
      * intros first' rest' H. injection H as H1 H2. subst first' rest'.
        split; [reflexivity|].
        exists (Js.nullish (Js.find Address.isDefault (first :: rest)) first).
        split; [exact Hin|]. split; [reflexivity|]. split; [reflexivity|].
        split; [exact Hd|].
        unfold CheckoutForm.prefill. simpl.
        repeat split;
          match goal with
          | |- (if Js.truthy ?s then ?s else "") = ?s => destruct s; reflexivity
          end.
      * intros [H|H]; discriminate H.
    + split; [left; reflexivity|]. split; [reflexivity|].
      split; [intros ? ? H; discriminate|]. intros _. repeat split.
  - unfold CheckoutForm.handleAddressSelectionChange.
    destruct (String.eqb value "new") eqn:En.
    + split; [reflexivity|]. split; [reflexivity|]. split; [reflexivity|].
      intros _. left. unfold CheckoutDetailsModal.isNew. simpl. exact En.
    + destruct (Js.find (fun addr => String.eqb (Address.id addr) value)
                        (CheckoutDetailsModal.userAddresses (CheckoutForm.fields st)))
        as [a|] eqn:Ha.
      * destruct (find_some _ _ _ Ha) as [Hina Hpa]. apply String.eqb_eq in Hpa.
        split; [simpl; rewrite Hpa; reflexivity|].
        split; [reflexivity|]. split; [reflexivity|].
        intros _. right. exists (Address.id a). split; [reflexivity|].
        simpl. apply in_map. exact Hina.
      * split; [reflexivity|]. split; [reflexivity|]. split; [reflexivity|].
        intros [Hv|Hv].
        -- subst value. discriminate En.
        -- destruct (find_selected value _ Hv) as [a Ha']. congruence.
  - unfold CheckoutForm.onCheckedChange. cbv zeta.
    split; [reflexivity|]. split; [left; reflexivity|]. split.
    + intros first rest El. rewrite El. split; [reflexivity|].
      right. exists (Address.id first). split; [reflexivity|].
      simpl. left. reflexivity.
    + intros El. rewrite El. split; [reflexivity|]. split.
      * intros [[s [Hs _]] _]. simpl in Hs. discriminate.
      * split; reflexivity.
  - intros Hsel. destruct (selected_address_resolves env _ Hsel) as [addr [addrs [H _]]].
    exists addr, addrs. exact H.
Qed.

Lemma modal_selection_always_resolves_witness :
  CheckoutDetailsModal.selectedAddressId
    (CheckoutForm.fields
       (snd (CheckoutForm.fetchUserProfile None (Some "asha@example.org")
               (Sample.world, Scenario.formBlank))))
  = Some "addr-1"
  /\ selectsAnAddress
       (CheckoutForm.fields
          (CheckoutForm.handleAddressSelectionChange "addr-2" Scenario.formNew)).
Proof.
  destruct (modal_selection_always_resolves
              (Some "asha@example.org") Sample.env Sample.world Scenario.formBlank
              "user-1" "addr-2" "order_1" Sample.profileRow) as [Hload _].
  destruct (modal_selection_always_resolves
              (Some "asha@example.org") Sample.env Sample.world Scenario.formNew
              "user-1" "addr-2" "order_1" Sample.profileRow) as [_ [[_ [_ [_ Hradio]]] _]].
  split.
  - pose proof (Hload eq_refl eq_refl) as H. cbv zeta in H.
    destruct H as [_ [_ [Hpre _]]].
    destruct (Hpre Sample.home [Sample.office] eq_refl)
      as [_ [a [Hin [_ [Hsel [Hd _]]]]]].
    rewrite Hsel.
    destruct Hin as [Ha|[Ha|[]]]; subst a; [reflexivity|].
    exfalso. destruct Hd as [Hd|[Hd _]].
    + discriminate Hd.
    + specialize (Hd Sample.home (or_introl eq_refl)). discriminate Hd.
  - apply Hradio. right. simpl. right. left. reflexivity.
Defined.

(* ================================================================== *)
(** ** Checkout: what happens when a write fails *)
(* ================================================================== *)

(** X9.  A confirmed payment stores no order when nobody is signed in,
    when the chosen address does not resolve, or when the backend
    refuses the order: the orders and the cart are as before, the
    page that mounted the modal is untouched (its success callback is
    not run), and a destructive notice is shown.  The payment itself
    is not undone; and when only the order insert fails, the profile
    row has already been rewritten with the new address list. *)
Theorem confirmed_payment_without_order
        (Parent : Type) (items : list CheckoutItem)
        (onClose : Parent -> Parent)
        (onOrderSuccess : World.t * Parent -> World.t * Parent)
        (profileUpdateError orderError : option PostgrestError.t)
        (env : CheckoutDetailsModal.Env)
        (response : CheckoutDetailsModal.RazorpayResponse)
        (w : World.t) (parent : Parent) (st : CheckoutDetailsModal.State) :
  Js.orNull (World.session w) = None
  \/ fst (CheckoutDetailsModal.shippingAddresses env st) = None
  \/ orderError <> None ->
  let s' :=
    CheckoutDetailsModal.handlePaymentSuccess
      Parent items onClose onOrderSuccess profileUpdateError orderError env response
      (w, parent, st) in
  World.orders (fst (fst s')) = World.orders w
  /\ World.cart_items (fst (fst s')) = World.cart_items w
  /\ snd (fst s') = parent
  /\ (exists t, World.toasts (fst (fst s')) = World.toasts w ++ [t]
                /\ Toast.variant t = "destructive")
  /\ (forall userId addr addrs,
         Js.orNull (World.session w) = Some userId ->
         CheckoutDetailsModal.shippingAddresses env st = (Some addr, addrs) ->
         profileUpdateError = None ->
         Forall (fun row => UserProfile.id row = userId ->
                            UserProfile.addresses row = Some addrs)
                (World.user_profiles (fst (fst s')))).
Proof.
  intros Hfail s'. unfold s', CheckoutDetailsModal.handlePaymentSuccess.
  destruct (World.session w) as [u|] eqn:Hs.
  2:{ repeat split; try (eexists; split; reflexivity).
      intros ? ? ? H. simpl in H. discriminate. }
  destruct (Js.truthy u) eqn:Ht.
  2:{ repeat split; try (eexists; split; reflexivity).
      intros ? ? ? H. simpl in H. rewrite Ht in H. discriminate. }
  assert (Hu : Js.orNull (Some u) = Some u) by (simpl; rewrite Ht; reflexivity).
  destruct (CheckoutDetailsModal.shippingAddresses env st) as [[addr|] addrs] eqn:Ha.
  2:{ repeat split; try (eexists; split; reflexivity).
      intros ? ? ? _ H. discriminate. }
  destruct orderError as [e|].
  2:{ exfalso. destruct Hfail as [H|[H|H]]; [congruence | discriminate | congruence]. }
  destruct profileUpdateError as [pe|]; simpl.
  - repeat split; try (eexists; split; reflexivity). intros ? ? ? _ _ H. discriminate.
  - repeat split; try (eexists; split; reflexivity).
    intros userId addr' addrs' Hid Heq _. simpl in Hid. rewrite Ht in Hid.
    injection Hid as Hid. injection Heq as _ Heq. subst userId addrs'.
    apply Forall_forall. intros row Hrow. apply in_map_iff in Hrow.
    destruct Hrow as [r [Heq _]].
    destruct (String.eqb (UserProfile.id r) u) eqn:E; subst row.
    + intros _. reflexivity.
    + apply String.eqb_neq in E. intros H. contradiction.
Qed.

Lemma confirmed_payment_without_order_witness :
  let s' :=
    CartPage.checkout None (Some (PostgrestError.mk "23514" "violates check constraint"))
                      None Sample.env (CheckoutDetailsModal.Paid Sample.response)
                      (Sample.world, Sample.cartPage "", Sample.modalStateNew) in
  World.orders (fst (fst s')) = [Sample.shippedOrder]
  /\ World.cart_items (fst (fst s')) = Sample.cartRows
  /\ snd (fst s') = Sample.cartPage ""
  /\ map (fun row => option_map (@List.length Address.t) (UserProfile.addresses row))
         (World.user_profiles (fst (fst s')))
     = [Some 3%nat].
Proof.
  assert (Hf : Js.orNull (World.session Sample.world) = None
               \/ fst (CheckoutDetailsModal.shippingAddresses Sample.env Sample.modalStateNew)
                  = None
               \/ Some (PostgrestError.mk "23514" "violates check constraint") <> None).
  { right. right. discriminate. }
  destruct (confirmed_payment_without_order
              CartPage.State (CartPage.checkoutItems (Sample.cartPage ""))
              (CartPage.setShowCheckoutModal false) (CartPage.handleOrderSuccess None)
              None (Some (PostgrestError.mk "23514" "violates check constraint"))
              Sample.env Sample.response Sample.world (Sample.cartPage "")
              Sample.modalStateNew Hf)
    as [Ho [Hc [Hp _]]].
  split; [exact Ho|]. split; [exact Hc|]. split; [exact Hp|]. reflexivity.
Defined.

(** X10.  The three writes of a checkout are independent.  Once the
    payment is confirmed for a signed-in user with a resolved address
    and the backend accepts the order, the same order is stored and the
    user is sent to the orders page whether or not the profile update
    and the cart clear succeed: a failed profile update leaves the
    profiles as they were, a failed cart clear leaves the paid lines in
    the cart, in the table and on the page. *)
Theorem order_stored_despite_profile_or_cart_failure
        (profileUpdateError deleteError : option PostgrestError.t)
        (env : CheckoutDetailsModal.Env)
        (response : CheckoutDetailsModal.RazorpayResponse)
        (w : World.t) (page : CartPage.State) (st : CheckoutDetailsModal.State)
        (userId : string) (addr : Address.t) (addrs : list Address.t) :
  World.session w = Some userId -> userId <> "" ->
  CheckoutDetailsModal.shippingAddresses env st = (Some addr, addrs) ->
  let s' := CartPage.checkout profileUpdateError None deleteError env
                              (CheckoutDetailsModal.Paid response) (w, page, st) in
  World.orders (fst (fst s'))
  = World.orders w
    ++ [CheckoutDetailsModal.orderData env st (CartPage.checkoutItems page)
                                       userId response addr]
  /\ World.route (fst (fst s')) = Some "/orders"
  /\ CartPage.showCheckoutModal (snd (fst s')) = false
  /\ (profileUpdateError <> None ->
      World.user_profiles (fst (fst s')) = World.user_profiles w)
  /\ (deleteError <> None ->
      World.cart_items (fst (fst s')) = World.cart_items w
      /\ CartPage.cartItems (snd (fst s')) = CartPage.cartItems page).
Proof.
  intros Hs Hne Ha s'. unfold s', CartPage.checkout, CheckoutDetailsModal.razorpayPayment.
  rewrite (payment_success_steps
             CartPage.State (CartPage.checkoutItems (snd (fst (w, page, st))))
             (CartPage.setShowCheckoutModal false) (CartPage.handleOrderSuccess deleteError)
             profileUpdateError None env response w page st userId addr addrs
             Hs Hne Ha eq_refl).
  unfold CartPage.handleOrderSuccess.
  assert (Hu : Js.orNull (Some userId) = Some userId).
  { destruct userId; [congruence | reflexivity]. }
  destruct profileUpdateError as [pe|], deleteError as [de|];
    simpl; rewrite Hs, Hu; simpl; repeat split; congruence.
Qed.

Lemma order_stored_despite_profile_or_cart_failure_witness :
  let s' :=
    CartPage.checkout None None (Some (PostgrestError.mk "57014" "timeout"))
                      Sample.env (CheckoutDetailsModal.Paid Sample.response)
                      (Sample.world, Sample.cartPage "", Sample.modalState) in
  List.length (World.orders (fst (fst s'))) = 2%nat
  /\ World.cart_items (fst (fst s')) = Sample.cartRows.
Proof.
  assert (Hne : "user-1" <> "") by discriminate.
  destruct (order_stored_despite_profile_or_cart_failure
              None (Some (PostgrestError.mk "57014" "timeout"))
              Sample.env Sample.response Sample.world (Sample.cartPage "")
              Sample.modalState "user-1" Sample.home [Sample.home; Sample.office]
              eq_refl Hne eq_refl) as [Ho [_ [_ [_ Hc]]]].
  split.
  - rewrite Ho. reflexivity.
  - apply Hc. discriminate.
Defined.

(* ================================================================== *)
(** ** Product page: adding and removing *)
(* ================================================================== *)

Lemma orNull_some (userId : string) : userId <> "" -> Js.orNull (Some userId) = Some userId.
Proof. intros Hne. destruct userId; [congruence | reflexivity]. Qed.

Lemma handleAddToCart_inserts
      (insertedId userId : string) (product : ProductPage.Product)
      (w : World.t) (st : ProductPage.State) :
  ProductPage.currentUserId st = Some userId -> userId <> "" ->
  linesOf userId (ProductPage.id product) (World.cart_items w) = [] ->
  ProductPage.handleAddToCart None None insertedId product (w, st)
  = (World.toast
       (Toast.mk "Added to cart!"
                 (Some (Js.numberToString (ProductPage.quantity st) ++ " unit(s) of "
                        ++ ProductPage.productName product
                        ++ " added to your shopping cart.")%string)
                 "default")
       (World.withCartItems
          (World.cart_items w ++
           [CartRow.mk insertedId userId (ProductPage.id product)
                       (ProductPage.quantity st) (ProductPage.displayPrice product)])
          w),
     ProductPage.setInCart true st).
Proof.
  intros Hu Hne Hnone. unfold ProductPage.handleAddToCart.
  rewrite Hu, (orNull_some userId Hne).
  fold (linesOf userId (ProductPage.id product) (World.cart_items w)).
  rewrite Hnone. reflexivity.
Qed.

Lemma linesOf_single_new (userId productId insertedId : string) (q : Z) (price : float)
      (rows : list CartRow.t) :
  linesOf userId productId rows = [] ->
  linesOf userId productId (rows ++ [CartRow.mk insertedId userId productId q price])
  = [CartRow.mk insertedId userId productId q price].
Proof.
  intros Hnone. rewrite linesOf_app, Hnone. unfold linesOf. simpl.
  rewrite !String.eqb_refl. reflexivity.
Qed.

(** X11.  Adding a product the signed-in user does not have in the cart
    appends one line, with the quantity chosen on the page and the
    price shown on the page as its price-at-add, and marks the
    product as in the cart; adding it again, whatever the quantity
    then chosen, is answered "Already in cart" and inserts nothing. *)
Theorem adding_twice_inserts_one_line
        (id1 id2 userId : string) (q2 : Z) (product : ProductPage.Product)
        (w : World.t) (st : ProductPage.State) :
  ProductPage.currentUserId st = Some userId -> userId <> "" ->
  linesOf userId (ProductPage.id product) (World.cart_items w) = [] ->
  let s1 := ProductPage.handleAddToCart None None id1 product (w, st) in
  let s2 := ProductPage.handleAddToCart None None id2 product
                                        (fst s1, ProductPage.setQuantity q2 (snd s1)) in
  World.cart_items (fst s1)
  = World.cart_items w
    ++ [CartRow.mk id1 userId (ProductPage.id product)
                   (ProductPage.quantity st) (ProductPage.displayPrice product)]
  /\ ProductPage.inCart (snd s1) = true
  /\ World.cart_items (fst s2) = World.cart_items (fst s1)
  /\ World.toasts (fst s2)
     = World.toasts (fst s1)
       ++ [Toast.mk "Already in cart" (Some "This product is already in your cart!")
                    "default"].
Proof.
  intros Hu Hne Hnone s1 s2.
  assert (H1 : s1 = _) by (apply (handleAddToCart_inserts id1 userId); assumption).
  unfold s2. rewrite H1. cbn [fst snd]. split; [reflexivity|]. split; [reflexivity|].
  unfold ProductPage.handleAddToCart.
  cbn [ProductPage.currentUserId ProductPage.setQuantity ProductPage.setInCart].
  rewrite Hu, (orNull_some userId Hne).
  cbn [World.cart_items World.withCartItems World.toast].
  fold (linesOf userId (ProductPage.id product)
                (World.cart_items w ++
                 [CartRow.mk id1 userId (ProductPage.id product)
                             (ProductPage.quantity st) (ProductPage.displayPrice product)])).
  rewrite (linesOf_single_new _ _ _ _ _ _ Hnone). split; reflexivity.
Qed.

Lemma adding_twice_inserts_one_line_witness :
  map CartRow.id
      (World.cart_items
         (fst (ProductPage.handleAddToCart None None "line-11" Scenario.ghee
                 (fst (ProductPage.handleAddToCart None None "line-10" Scenario.ghee
                         (Sample.world, Sample.productPage)),
                  ProductPage.setQuantity 7
                    (snd (ProductPage.handleAddToCart None None "line-10" Scenario.ghee
                            (Sample.world, Sample.productPage)))))))
  = ["line-1"; "line-2"; "line-9"; "line-10"].
Proof.
  assert (Hne : "user-1" <> "") by discriminate.
  destruct (adding_twice_inserts_one_line
              "line-10" "line-11" "user-1" 7 Scenario.ghee Sample.world Sample.productPage
              eq_refl Hne eq_refl) as [H1 [_ [H2 _]]].
  rewrite H2, H1. reflexivity.
Defined.

Lemma filter_negb_none {A : Type} (p : A -> bool) (l : list A) :
  filter p l = [] -> filter (fun x => negb (p x)) l = l.
Proof.
  induction l as [|x l IH]; simpl; [reflexivity|].
  destruct (p x); [discriminate|]. intros H. simpl. rewrite (IH H). reflexivity.
Qed.

Lemma filter_negb_same {A : Type} (p : A -> bool) (l : list A) :
  filter p (filter (fun x => negb (p x)) l) = [].
Proof.
  induction l as [|x l IH]; simpl; [reflexivity|].
  destruct (p x) eqn:E; simpl; [exact IH | rewrite E; exact IH].
Qed.

Lemma handleRemoveFromCart_removes
      (userId : string) (product : ProductPage.Product)
      (w : World.t) (st : ProductPage.State) :
  ProductPage.currentUserId st = Some userId -> userId <> "" ->
  ProductPage.handleRemoveFromCart None product (w, st)
  = (World.toast
       (Toast.mk "Removed from cart"
                 (Some (ProductPage.productName product ++ " removed from your cart.")%string)
                 "default")
       (World.withCartItems
          (filter (fun r => negb (String.eqb (CartRow.user_id r) userId
                                  && String.eqb (CartRow.product_id r)
                                                (ProductPage.id product)))
                  (World.cart_items w)) w),
     ProductPage.setQuantity 1 (ProductPage.setInCart false st)).
Proof.
  intros Hu Hne. unfold ProductPage.handleRemoveFromCart.
  rewrite Hu, (orNull_some userId Hne). reflexivity.
Qed.

(** X12.  Removing a product on its page deletes every cart line of the
    signed-in user for that product and no other line, and resets the
    page to quantity 1, not in cart.  Adding and then removing a product
    that was not in the cart gives back the cart table as it was; after
    a removal the product can be added again, as one line of
    quantity 1. *)
Theorem remove_from_cart_round_trip
        (insertedId userId : string) (product : ProductPage.Product)
        (w : World.t) (st : ProductPage.State) :
  ProductPage.currentUserId st = Some userId -> userId <> "" ->
  let s1 := ProductPage.handleRemoveFromCart None product (w, st) in
  linesOf userId (ProductPage.id product) (World.cart_items (fst s1)) = []
  /\ (forall r, In r (World.cart_items w) ->
                ~ (CartRow.user_id r = userId /\ CartRow.product_id r = ProductPage.id product) ->
                In r (World.cart_items (fst s1)))
  /\ ProductPage.quantity (snd s1) = 1
  /\ ProductPage.inCart (snd s1) = false
  /\ (linesOf userId (ProductPage.id product) (World.cart_items w) = [] ->
      World.cart_items
        (fst (ProductPage.handleRemoveFromCart
                None product
                (ProductPage.handleAddToCart None None insertedId product (w, st))))
      = World.cart_items w)
  /\ linesOf userId (ProductPage.id product)
             (World.cart_items
                (fst (ProductPage.handleAddToCart None None insertedId product s1)))
     = [CartRow.mk insertedId userId (ProductPage.id product) 1
                   (ProductPage.displayPrice product)].
Proof.
  intros Hu Hne s1.
  assert (H1 : s1 = _) by (apply (handleRemoveFromCart_removes userId); assumption).
  rewrite H1. cbn [fst snd World.cart_items World.withCartItems World.toast].
  assert (Hgone : linesOf userId (ProductPage.id product)
                          (filter (fun r => negb (String.eqb (CartRow.user_id r) userId
                                                  && String.eqb (CartRow.product_id r)
                                                                (ProductPage.id product)))
                                  (World.cart_items w)) = []).
  { unfold linesOf.
    apply (filter_negb_same
             (fun r => String.eqb (CartRow.user_id r) userId
                       && String.eqb (CartRow.product_id r) (ProductPage.id product))). }
  split; [exact Hgone|]. split; [|split; [reflexivity|split; [reflexivity|split]]].
  - intros r Hin Hn. apply filter_In. split; [exact Hin|].
    destruct (String.eqb_spec (CartRow.user_id r) userId),
             (String.eqb_spec (CartRow.product_id r) (ProductPage.id product));
      simpl; try reflexivity.
    exfalso. apply Hn. split; assumption.
  - intros Hnone.
    rewrite (handleAddToCart_inserts insertedId userId) by assumption.
    rewrite (handleRemoveFromCart_removes userId) by assumption.
    cbn [fst World.cart_items World.withCartItems World.toast].
    rewrite filter_app. simpl. rewrite !String.eqb_refl. simpl. rewrite app_nil_r.
    apply (filter_negb_none
             (fun r => String.eqb (CartRow.user_id r) userId
                       && String.eqb (CartRow.product_id r) (ProductPage.id product))).
    exact Hnone.
  - rewrite (handleAddToCart_inserts insertedId userId) by assumption.
    cbn [fst World.cart_items World.withCartItems World.toast].
    apply linesOf_single_new. exact Hgone.
Qed.

Lemma remove_from_cart_round_trip_witness :
  World.cart_items
    (fst (ProductPage.handleRemoveFromCart
            None Scenario.ghee
            (ProductPage.handleAddToCart None None "line-10" Scenario.ghee
                                         (Sample.world, Sample.productPage))))
  = Sample.cartRows
  /\ map CartRow.id
         (World.cart_items
            (fst (ProductPage.handleRemoveFromCart None Sample.discounted
                                                   (Sample.world, Sample.productPage))))
     = ["line-2"; "line-9"].
Proof.
  assert (Hne : "user-1" <> "") by discriminate.
  destruct (remove_from_cart_round_trip
              "line-10" "user-1" Scenario.ghee Sample.world Sample.productPage
              eq_refl Hne) as [_ [_ [_ [_ [Hround _]]]]].
  split; [apply Hround; reflexivity | reflexivity].
Defined.

(* ================================================================== *)
(** ** Product page: the reload *)
(* ================================================================== *)

Lemma linesOf_exactly (userId productId : string) (rows : list CartRow.t)
      (line : CartRow.t) :
  oneLinePerProduct rows -> In line rows ->
  CartRow.user_id line = userId -> CartRow.product_id line = productId ->
  linesOf userId productId rows = [line].
Proof.
  intros Hone Hin Hu Hp.
  pose proof (linesOf_In _ _ _ _ Hin Hu Hp) as Hl.
  specialize (Hone userId productId).
  destruct (linesOf userId productId rows) as [|x [|y l]]; simpl in *.
  - contradiction.
  - destruct Hl as [Hl|[]]. subst x. reflexivity.
  - lia.
Qed.

(** X13.  The product page reloads the user's status from the cart
    table: with one line for the product it shows "in cart" and that
    line's quantity, also right after the quantity was changed on the
    cart page; with no line, or with nobody signed in, it shows "not in
    cart" and quantity 1.  The reload writes nothing. *)
Theorem product_page_reload_shows_cart_quantity
        (product : ProductPage.Product) (w : World.t) (tb : ProductDetails.Tables)
        (st : ProductPage.State) (ex : ProductDetails.Extra)
        (page : CartPage.State) (userId : string) (newQuantity : Z) :
  let shown (w0 : World.t) :=
    snd (fst (ProductDetails.fetchUserData None None None product (w0, tb, st, ex))) in
  (World.session w = Some userId -> userId <> "" ->
   oneLinePerProduct (World.cart_items w) ->
   (forall line,
       In line (World.cart_items w) -> CartRow.user_id line = userId ->
       CartRow.product_id line = ProductPage.id product ->
       (ProductPage.inCart (shown w) = true
        /\ ProductPage.quantity (shown w) = CartRow.quantity line)
       /\ (1 <= newQuantity ->
           let w' := fst (CartPage.handleQuantityChange None (CartRow.id line) newQuantity
                                                        (w, page)) in
           ProductPage.inCart (shown w') = true
           /\ ProductPage.quantity (shown w') = newQuantity))
   /\ (linesOf userId (ProductPage.id product) (World.cart_items w) = [] ->
       ProductPage.inCart (shown w) = false /\ ProductPage.quantity (shown w) = 1)
   /\ fst (fst (fst (ProductDetails.fetchUserData None None None product (w, tb, st, ex))))
      = w)
  /\ (Js.orNull (World.session w) = None ->
      ProductPage.inCart (shown w) = false
      /\ ProductPage.quantity (shown w) = 1
      /\ ProductPage.currentUserId (shown w) = None
      /\ fst (fst (fst (ProductDetails.fetchUserData None None None product
                                                     (w, tb, st, ex))))
         = w).
Proof.
  intros shown. split.
  2:{ intros Hnobody. unfold shown, ProductDetails.fetchUserData.
      rewrite Hnobody. repeat split. }
  intros Hs Hne Hone.
  pose proof (orNull_session w userId Hs Hne) as Hu.
  split; [|split].
  - intros line Hin Hlu Hlp. split.
    + unfold shown, ProductDetails.fetchUserData. rewrite Hu.
      fold (linesOf userId (ProductPage.id product) (World.cart_items w)).
      rewrite (linesOf_exactly _ _ _ line Hone Hin Hlu Hlp). split; reflexivity.
    + intros Hq w'. unfold w'.
      rewrite (handleQuantityChange_accepted userId) by assumption.
      cbn [fst]. unfold shown, ProductDetails.fetchUserData.
      cbn [World.session World.withCartItems World.cart_items].
      rewrite Hu.
      match goal with
      | |- context [filter ?p (map ?f (World.cart_items w))] =>
          rewrite (filter_map_commute p f)
      end.
      2:{ intros r.
          destruct (String.eqb (CartRow.id r) (CartRow.id line)
                    && String.eqb (CartRow.user_id r) userId); reflexivity. }
      fold (linesOf userId (ProductPage.id product) (World.cart_items w)).
      rewrite (linesOf_exactly _ _ _ line Hone Hin Hlu Hlp).
      cbn [map]. rewrite Hlu, !String.eqb_refl. split; reflexivity.
  - intros Hnone. unfold shown, ProductDetails.fetchUserData. rewrite Hu.
    fold (linesOf userId (ProductPage.id product) (World.cart_items w)).
    rewrite Hnone. split; reflexivity.
  - unfold ProductDetails.fetchUserData. rewrite Hu. reflexivity.
Qed.

Lemma product_page_reload_shows_cart_quantity_witness :
  ProductPage.quantity
    (snd (fst (ProductDetails.fetchUserData
                 None None None Sample.discounted
                 (fst (CartPage.handleQuantityChange None "line-1" 6
                                                     (Sample.world, Sample.cartPage "")),
                  Scenario.tables, Sample.productPage, Scenario.extra))))
  = 6.
Proof.
  assert (Hne : "user-1" <> "") by discriminate.
  assert (Hone : oneLinePerProduct (World.cart_items Sample.world)).
  { apply distinct_keys_one_line. unfold lineKey. simpl.
    repeat constructor; simpl; intuition congruence. }
  assert (Hq : 1 <= 6) by lia.
  destruct (product_page_reload_shows_cart_quantity
              Sample.discounted Sample.world Scenario.tables Sample.productPage
              Scenario.extra (Sample.cartPage "") "user-1" 6) as [Hin _].
  destruct (Hin eq_refl Hne Hone) as [Hline _].
  destruct (Hline (CartRow.mk "line-1" "user-1" "prod-honey" 1 200)
                  (or_introl eq_refl) eq_refl eq_refl) as [_ Hafter].
  exact (proj2 (Hafter Hq)).
Defined.

(* ================================================================== *)
(** ** Product page: favourites and reviews *)
(* ================================================================== *)

Lemma toggleFavorite_steps (userId : string) (product : ProductPage.Product)
      (w : World.t) (tb : ProductDetails.Tables) (st : ProductPage.State)
      (ex : ProductDetails.Extra) :
  ProductPage.currentUserId st = Some userId -> userId <> "" ->
  ProductDetails.favorites
    (snd (fst (fst (ProductDetails.toggleFavorite None product (w, tb, st, ex)))))
  = (if ProductDetails.isFavorite ex
     then filter (fun r => negb (String.eqb (Favorite.user_id r) userId
                                 && String.eqb (Favorite.product_id r)
                                               (ProductPage.id product)))
                 (ProductDetails.favorites tb)
     else ProductDetails.favorites tb ++ [Favorite.mk userId (ProductPage.id product)])
  /\ ProductDetails.isFavorite (snd (ProductDetails.toggleFavorite None product (w, tb, st, ex)))
     = negb (ProductDetails.isFavorite ex)
  /\ snd (fst (ProductDetails.toggleFavorite None product (w, tb, st, ex))) = st
  /\ sameTables w (fst (fst (fst (ProductDetails.toggleFavorite None product (w, tb, st, ex)))))
  /\ ProductDetails.reviews
       (snd (fst (fst (ProductDetails.toggleFavorite None product (w, tb, st, ex)))))
     = ProductDetails.reviews tb.
Proof.
  intros Hu Hne. unfold ProductDetails.toggleFavorite.
  rewrite Hu, (orNull_some userId Hne).
  destruct (ProductDetails.isFavorite ex); repeat split.
Qed.

(** X14.  Toggling the favourite of a product for a signed-in user
    flips the heart and changes only the favourites table: from "not
    favourite" it appends the pair (user, product), from "favourite" it
    deletes every such pair and no other row.  Toggling twice from
    "not favourite" leaves no such pair, and gives back the table as
    it was when it held none. *)
Theorem favourite_toggle_adds_then_removes
        (userId : string) (product : ProductPage.Product)
        (w : World.t) (tb : ProductDetails.Tables) (st : ProductPage.State)
        (ex : ProductDetails.Extra) :
  ProductPage.currentUserId st = Some userId -> userId <> "" ->
  let s1 := ProductDetails.toggleFavorite None product (w, tb, st, ex) in
  let s2 := ProductDetails.toggleFavorite None product s1 in
  let favs (s : World.t * ProductDetails.Tables * ProductPage.State * ProductDetails.Extra) :=
    ProductDetails.favorites (snd (fst (fst s))) in
  sameTables w (fst (fst (fst s1)))
  /\ ProductDetails.isFavorite (snd s1) = negb (ProductDetails.isFavorite ex)
  /\ (ProductDetails.isFavorite ex = false ->
      In (Favorite.mk userId (ProductPage.id product)) (favs s1)
      /\ ProductDetails.favoritesOf userId (ProductPage.id product) (favs s2) = []
      /\ ProductDetails.isFavorite (snd s2) = false
      /\ (ProductDetails.favoritesOf userId (ProductPage.id product)
                                     (ProductDetails.favorites tb) = [] ->
          favs s2 = ProductDetails.favorites tb))
  /\ (ProductDetails.isFavorite ex = true ->
      ProductDetails.favoritesOf userId (ProductPage.id product) (favs s1) = []
      /\ forall r, In r (ProductDetails.favorites tb) ->
                   ~ (Favorite.user_id r = userId
                      /\ Favorite.product_id r = ProductPage.id product) ->
                   In r (favs s1)).
Proof.
  intros Hu Hne s1 s2 favs.
  destruct (toggleFavorite_steps userId product w tb st ex Hu Hne)
    as [Hf1 [Hi1 [Hst1 [Hw1 _]]]].
  fold s1 in Hf1, Hi1, Hst1, Hw1.
  assert (Hu1 : ProductPage.currentUserId (snd (fst s1)) = Some userId)
    by (rewrite Hst1; exact Hu).
  destruct s1 as [[[w1 tb1] st1] ex1] eqn:E1.
  cbn [fst snd] in *.
  destruct (toggleFavorite_steps userId product w1 tb1 st1 ex1 Hu1 Hne)
    as [Hf2 [Hi2 _]].
  fold s2 in Hf2, Hi2. unfold favs. cbn [fst snd].
  split; [exact Hw1|]. split; [exact Hi1|]. split.
  - intros Hfalse. rewrite Hfalse in *. simpl in Hi1. rewrite Hi1 in *.
    rewrite Hf1 in *. split; [apply in_or_app; right; left; reflexivity|].
    split; [|split].
    + rewrite Hf2. unfold ProductDetails.favoritesOf.
      apply (filter_negb_same
               (fun r => String.eqb (Favorite.user_id r) userId
                         && String.eqb (Favorite.product_id r) (ProductPage.id product))).
    + rewrite Hi2. reflexivity.
    + intros Hnone. rewrite Hf2, filter_app. simpl. rewrite !String.eqb_refl. simpl.
      rewrite app_nil_r.
      apply (filter_negb_none
               (fun r => String.eqb (Favorite.user_id r) userId
                         && String.eqb (Favorite.product_id r) (ProductPage.id product))).
      exact Hnone.
  - intros Htrue. rewrite Htrue in *. rewrite Hf1. split.
    + unfold ProductDetails.favoritesOf.
      apply (filter_negb_same
               (fun r => String.eqb (Favorite.user_id r) userId
                         && String.eqb (Favorite.product_id r) (ProductPage.id product))).
    + intros r Hin Hn. apply filter_In. split; [exact Hin|].
      destruct (String.eqb_spec (Favorite.user_id r) userId),
               (String.eqb_spec (Favorite.product_id r) (ProductPage.id product));
        simpl; try reflexivity.
      exfalso. apply Hn. split; assumption.
Qed.

Lemma favourite_toggle_adds_then_removes_witness :
  ProductDetails.favorites
    (snd (fst (fst (ProductDetails.toggleFavorite
                      None Scenario.ghee
                      (ProductDetails.toggleFavorite
                         None Scenario.ghee
                         (Sample.world, Scenario.tables, Sample.productPage,
                          Scenario.extra))))))
  = [Favorite.mk "user-2" "prod-ghee"].
Proof.
  assert (Hne : "user-1" <> "") by discriminate.
  destruct (favourite_toggle_adds_then_removes
              "user-1" Scenario.ghee Sample.world Scenario.tables Sample.productPage
              Scenario.extra eq_refl Hne) as [_ [_ [Hoff _]]].
  destruct (Hoff eq_refl) as [_ [_ [_ Hback]]].
  apply Hback. reflexivity.
Defined.

Lemma reviewsOf_app (userId productId : string) (l1 l2 : list Review.t) :
  ProductDetails.reviewsOf userId productId (l1 ++ l2)
  = ProductDetails.reviewsOf userId productId l1
    ++ ProductDetails.reviewsOf userId productId l2.
Proof. apply filter_app. Qed.

(** X15.  A signed-in user reviews a product at most once.  The first
    submission appends one review with the rating and text of the form,
    marks the product as reviewed, closes the review modal and resets
    the form to five stars and no text; a second submission is answered
    "Already Reviewed" and stores nothing.  The handler keeps the
    one-review-per-user-and-product invariant, and touches neither the
    favourites nor the tables of the shop. *)
Theorem one_review_per_user_and_product
        (now now2 userId : string) (product : ProductPage.Product)
        (w : World.t) (tb : ProductDetails.Tables) (st : ProductPage.State)
        (ex : ProductDetails.Extra) :
  ProductPage.currentUserId st = Some userId -> userId <> "" ->
  ProductDetails.reviewsOf userId (ProductPage.id product) (ProductDetails.reviews tb) = [] ->
  let s1 := ProductDetails.handleReviewSubmit None None now product (w, tb, st, ex) in
  let s2 := ProductDetails.handleReviewSubmit None None now2 product s1 in
  let revs (s : World.t * ProductDetails.Tables * ProductPage.State * ProductDetails.Extra) :=
    ProductDetails.reviews (snd (fst (fst s))) in
  revs s1
  = ProductDetails.reviews tb
    ++ [Review.mk (ProductPage.id product) userId (ProductDetails.reviewRating ex)
                  (ProductDetails.reviewText ex) now]
  /\ ProductDetails.reviewCount product (snd (fst (fst s1)))
     = ProductDetails.reviewCount product tb + 1
  /\ snd s1 = ProductDetails.mkExtra (ProductDetails.isFavorite ex) false 5 "" true
  /\ sameTables w (fst (fst (fst s1)))
  /\ ProductDetails.favorites (snd (fst (fst s1))) = ProductDetails.favorites tb
  /\ revs s2 = revs s1
  /\ (exists t, World.toasts (fst (fst (fst s2))) = World.toasts (fst (fst (fst s1))) ++ [t]
                /\ Toast.title t = "Already Reviewed")
  /\ (oneReviewPerProduct (ProductDetails.reviews tb) -> oneReviewPerProduct (revs s1)).
Proof.
  intros Hu Hne Hnone s1 s2 revs.
  assert (H1 : s1 = (World.toast
                       (Toast.mk "Review Submitted!"
                                 (Some "Your review has been successfully submitted.")
                                 "default") w,
                     ProductDetails.mkTables
                       (ProductDetails.favorites tb)
                       (ProductDetails.reviews tb ++
                        [Review.mk (ProductPage.id product) userId
                                   (ProductDetails.reviewRating ex)
                                   (ProductDetails.reviewText ex) now]),
                     st,
                     ProductDetails.mkExtra (ProductDetails.isFavorite ex) false 5 "" true)).
  { unfold s1, ProductDetails.handleReviewSubmit.
    rewrite Hu, (orNull_some userId Hne), Hnone. reflexivity. }
  assert (Hnew : ProductDetails.reviewsOf
                   userId (ProductPage.id product)
                   (ProductDetails.reviews tb ++
                    [Review.mk (ProductPage.id product) userId
                               (ProductDetails.reviewRating ex)
                               (ProductDetails.reviewText ex) now])
                 = [Review.mk (ProductPage.id product) userId
                              (ProductDetails.reviewRating ex)
                              (ProductDetails.reviewText ex) now]).
  { rewrite reviewsOf_app, Hnone. unfold ProductDetails.reviewsOf. simpl.
    rewrite !String.eqb_refl. reflexivity. }
  assert (H2 : s2 = (World.toast
                       (Toast.mk "Already Reviewed"
                                 (Some "You have already reviewed this product!")
                                 "default") (fst (fst (fst s1))),
                     snd (fst (fst s1)), snd (fst s1), snd s1)).
  { unfold s2. rewrite H1. cbn [fst snd]. unfold ProductDetails.handleReviewSubmit.
    rewrite Hu, (orNull_some userId Hne).
    cbn [ProductDetails.reviews]. rewrite Hnew. reflexivity. }
  unfold revs. rewrite H2. rewrite H1. cbn [fst snd ProductDetails.reviews].
  split; [reflexivity|]. split.
  - unfold ProductDetails.reviewCount, ProductDetails.fetchReviews.
    cbn [ProductDetails.reviews]. rewrite filter_app, length_app. simpl.
    rewrite String.eqb_refl. simpl. lia.
  - split; [reflexivity|]. split; [repeat split|]. split; [reflexivity|].
    split; [reflexivity|]. split; [eexists; split; reflexivity|].
    intros Hone u p. rewrite reviewsOf_app, length_app.
    unfold ProductDetails.reviewsOf at 2. simpl.
    destruct (String.eqb userId u && String.eqb (ProductPage.id product) p) eqn:E.
    + apply andb_true_iff in E. destruct E as [E1 E2].
      apply String.eqb_eq in E1, E2. subst u p. rewrite Hnone. simpl. lia.
    + simpl. specialize (Hone u p). lia.
Qed.

Lemma one_review_per_user_and_product_witness :
  map Review.rating
      (ProductDetails.reviews
         (snd (fst (fst (ProductDetails.handleReviewSubmit
                           None None "2025-01-03T10:00:00.000Z" Scenario.ghee
                           (ProductDetails.handleReviewSubmit
                              None None "2025-01-02T10:00:00.000Z" Scenario.ghee
                              (Sample.world, Scenario.tables, Sample.productPage,
                               Scenario.extra)))))))
  = [4; 3].
Proof.
  assert (Hne : "user-1" <> "") by discriminate.
  destruct (one_review_per_user_and_product
              "2025-01-02T10:00:00.000Z" "2025-01-03T10:00:00.000Z" "user-1"
              Scenario.ghee Sample.world Scenario.tables Sample.productPage
              Scenario.extra eq_refl Hne eq_refl) as [H1 [_ [_ [_ [_ [H2 _]]]]]].
  cbv zeta in H1, H2. rewrite H2, H1. reflexivity.
Defined.

(* ================================================================== *)
(** ** Profile page: deleting an address *)
(* ================================================================== *)

Lemma countDefaults_filter_le (p : Address.t -> bool) (l : list Address.t) :
  (countDefaults (filter p l) <= countDefaults l)%nat.
Proof.
  unfold countDefaults. induction l as [|a l IH]; simpl; [lia|].
  destruct (p a); simpl; destruct (Address.isDefault a); simpl; lia.
Qed.

Lemma countDefaults_remove_default (i : string) (a : Address.t) (l : list Address.t) :
  In a l -> Address.id a = i -> Address.isDefault a = true ->
  (countDefaults (filter (fun x => negb (String.eqb (Address.id x) i)) l)
   < countDefaults l)%nat.
Proof.
  unfold countDefaults. induction l as [|x l IH]; simpl; intros Hin Hid Hd; [contradiction|].
  destruct Hin as [Hx|Hin].
  - subst x. rewrite Hid, String.eqb_refl, Hd. simpl.
    pose proof (countDefaults_filter_le
                  (fun x => negb (String.eqb (Address.id x) i)) l) as Hle.
    unfold countDefaults in Hle. lia.
  - specialize (IH Hin Hid Hd).
    destruct (String.eqb (Address.id x) i); simpl.
    + destruct (Address.isDefault x); simpl; lia.
    + destruct (Address.isDefault x); simpl; lia.
Qed.

(** X16.  Deleting an address writes the book without the entries of
    that id to the profile row, keeping every other entry in order and
    the ids unique; no other address is promoted: the number of
    defaults never grows, and deleting the only default leaves a book
    without a default.  Other profile rows are kept. *)
Theorem delete_address_never_promotes
        (reloadFault : option PostgrestError.t)
        (addressId : string) (w : World.t) (st : ProfilePage.State)
        (p : UserProfile.t) (addrs : list Address.t) :
  ProfilePage.profile st = Some p ->
  UserProfile.addresses p = Some addrs ->
  let w' := fst (ProfilePage.handleDeleteAddress None reloadFault addressId (w, st)) in
  exists l',
    Forall (fun row => UserProfile.id row = UserProfile.id p ->
                       UserProfile.addresses row = Some l')
           (World.user_profiles w')
    /\ (forall row, In row (World.user_profiles w) ->
                    UserProfile.id row <> UserProfile.id p ->
                    In row (World.user_profiles w'))
    /\ ~ In addressId (map Address.id l')
    /\ (forall a, In a addrs -> Address.id a <> addressId -> In a l')
    /\ (forall a, In a l' -> In a addrs)
    /\ (uniqueIds addrs -> uniqueIds l')
    /\ (countDefaults l' <= countDefaults addrs)%nat
    /\ (forall a, In a addrs -> Address.id a = addressId ->
                  Address.isDefault a = true -> countDefaults addrs = 1%nat ->
                  countDefaults l' = 0%nat).
Proof.
  intros Hp Ha w'.
  exists (filter (fun addr => negb (String.eqb (Address.id addr) addressId)) addrs).
  unfold w', ProfilePage.handleDeleteAddress. rewrite Hp, Ha.
  cbv zeta. rewrite fetchProfileData_profiles. cbn [fst].
  cbn [World.user_profiles World.toast World.withUserProfiles].
  split; [|split; [|split; [|split; [|split; [|split; [|split]]]]]].
  - apply Forall_forall. intros row Hrow. apply in_map_iff in Hrow.
    destruct Hrow as [r [Heq _]].
    destruct (String.eqb (UserProfile.id r) (UserProfile.id p)) eqn:E; subst row.
    + intros _. reflexivity.
    + apply String.eqb_neq in E. intros H. contradiction.
  - intros row Hrow Hid. apply in_map_iff. exists row. split; [|exact Hrow].
    apply String.eqb_neq in Hid. rewrite Hid. reflexivity.
  - intros Hin. apply in_map_iff in Hin. destruct Hin as [a [Hid Hin]].
    apply filter_In in Hin. destruct Hin as [_ Hn].
    rewrite Hid, String.eqb_refl in Hn. discriminate.
  - intros a Hin Hid. apply filter_In. split; [exact Hin|].
    apply String.eqb_neq in Hid. rewrite Hid. reflexivity.
  - intros a Hin. apply filter_In in Hin. apply Hin.
  - unfold uniqueIds. apply filter_keeps_distinct_keys.
  - apply countDefaults_filter_le.
  - intros a Hin Hid Hd Hone.
    pose proof (countDefaults_remove_default addressId a addrs Hin Hid Hd). lia.
Qed.

Lemma delete_address_never_promotes_witness :
  map (fun row => option_map (map Address.id) (UserProfile.addresses row))
      (World.user_profiles
         (fst (ProfilePage.handleDeleteAddress None None "addr-1"
                 (Sample.world, Sample.profilePageAdding))))
  = [Some ["addr-2"]]
  /\ exists l',
       Forall (fun row => UserProfile.id row = "user-1" ->
                          UserProfile.addresses row = Some l')
              (World.user_profiles
                 (fst (ProfilePage.handleDeleteAddress None None "addr-1"
                         (Sample.world, Sample.profilePageAdding))))
       /\ countDefaults l' = 0%nat.
Proof.
  split; [reflexivity|].
  destruct (delete_address_never_promotes
              None "addr-1" Sample.world Sample.profilePageAdding Sample.profileRow
              [Sample.home; Sample.office] eq_refl eq_refl)
    as [l' [Hrow [_ [_ [_ [_ [_ [_ Hzero]]]]]]]].
  exists l'. split; [exact Hrow|].
  apply (Hzero Sample.home); [left; reflexivity | reflexivity | reflexivity | reflexivity].
Defined.

(* ================================================================== *)
(** ** Address book: ids stay unique *)
(* ================================================================== *)

Lemma newAddress_id_edit (uuid : string) (st : ProfilePage.State) (a : Address.t) :
  ProfilePage.editingAddress st = Some a -> Address.id a <> "" ->
  Address.id (ProfilePage.newAddress uuid st) = Address.id a.
Proof.
  intros He Hne. unfold ProfilePage.newAddress. rewrite He. simpl.
  destruct (Address.id a); [congruence | reflexivity].
Qed.

Lemma map_id_replace (i : string) (new : Address.t) (l : list Address.t) :
  Address.id new = i ->
  map Address.id (map (fun addr => if String.eqb (Address.id addr) i then new else addr) l)
  = map Address.id l.
Proof.
  intros Hi. rewrite map_map. apply map_ext. intros a.
  destruct (String.eqb (Address.id a) i) eqn:E; [|reflexivity].
  apply String.eqb_eq in E. congruence.
Qed.

Lemma updatedAddresses_ids (uuid : string) (st : ProfilePage.State) (p : UserProfile.t) :
  map Address.id (ProfilePage.updatedAddresses uuid st p)
  = match ProfilePage.editingAddress st with
    | Some _ => map Address.id (Js.nullish (UserProfile.addresses p) [])
    | None => map Address.id (Js.nullish (UserProfile.addresses p) []) ++ [uuid]
    end.
Proof.
  unfold ProfilePage.updatedAddresses.
  set (l := Js.nullish (UserProfile.addresses p) []) in *.
  assert (Hc : map Address.id (if ProfilePage.isDefaultAddress st
                               then map (Address.withDefault false) l else l)
               = map Address.id l).
  { destruct (ProfilePage.isDefaultAddress st); [apply map_id_cleared | reflexivity]. }
  destruct (ProfilePage.editingAddress st) as [a|] eqn:Ee.
  - rewrite map_id_replace; [exact Hc | reflexivity].
  - rewrite map_app, Hc. unfold ProfilePage.newAddress. rewrite Ee. reflexivity.
Qed.

Lemma NoDup_snoc {A : Type} (x : A) (l : list A) :
  NoDup l -> ~ In x l -> NoDup (l ++ [x]).
Proof.
  induction l as [|y l IH]; simpl; intros Hnd Hx.
  - constructor; [intros [] | constructor].
  - inversion Hnd as [|z zs Hy Hnd']; subst. constructor.
    + intros Hin. apply in_app_or in Hin. destruct Hin as [Hin|[Hin|[]]].
      * contradiction.
      * apply Hx. left. symmetry. exact Hin.
    + apply IH; [exact Hnd'|]. intros Hin. apply Hx. right. exact Hin.
Qed.

(** X17.  The address book keeps its ids unique.  On the profile page an
    edit leaves the list of ids as it is and an addition appends the
    fresh id; at checkout a new address appends its fresh id and the
    choice of a saved address leaves the ids as they are. *)
Theorem address_ids_stay_unique
        (uuid : string) (st : ProfilePage.State) (p : UserProfile.t)
        (env : CheckoutDetailsModal.Env) (mst : CheckoutDetailsModal.State) :
  uniqueIds (Js.nullish (UserProfile.addresses p) []) ->
  ~ In uuid (map Address.id (Js.nullish (UserProfile.addresses p) [])) ->
  uniqueIds (CheckoutDetailsModal.userAddresses mst) ->
  ~ In (CheckoutDetailsModal.uuidv4 env 0%nat)
       (map Address.id (CheckoutDetailsModal.userAddresses mst)) ->
  uniqueIds (ProfilePage.updatedAddresses uuid st p)
  /\ (ProfilePage.editingAddress st <> None ->
      map Address.id (ProfilePage.updatedAddresses uuid st p)
      = map Address.id (Js.nullish (UserProfile.addresses p) []))
  /\ (ProfilePage.editingAddress st = None ->
      map Address.id (ProfilePage.updatedAddresses uuid st p)
      = map Address.id (Js.nullish (UserProfile.addresses p) []) ++ [uuid])
  /\ uniqueIds (snd (CheckoutDetailsModal.shippingAddresses env mst))
  /\ map Address.id (snd (CheckoutDetailsModal.shippingAddresses env mst))
     = (if CheckoutDetailsModal.isNew mst
        then map Address.id (CheckoutDetailsModal.userAddresses mst)
             ++ [CheckoutDetailsModal.uuidv4 env 0%nat]
        else map Address.id (CheckoutDetailsModal.userAddresses mst)).
Proof.
  intros Hu Hfresh Hmu Hmfresh.
  pose proof (updatedAddresses_ids uuid st p) as Hids.
  assert (Hmids : map Address.id (snd (CheckoutDetailsModal.shippingAddresses env mst))
                  = (if CheckoutDetailsModal.isNew mst
                     then map Address.id (CheckoutDetailsModal.userAddresses mst)
                          ++ [CheckoutDetailsModal.uuidv4 env 0%nat]
                     else map Address.id (CheckoutDetailsModal.userAddresses mst))).
  { unfold CheckoutDetailsModal.shippingAddresses.
    destruct (CheckoutDetailsModal.isNew mst).
    - simpl. rewrite map_app, map_id_cleared. reflexivity.
    - destruct (Js.find _ _); simpl; [|reflexivity].
      rewrite map_map. reflexivity. }
  split; [|split; [|split; [|split]]].
  - unfold uniqueIds. rewrite Hids.
    destruct (ProfilePage.editingAddress st); [exact Hu | apply NoDup_snoc; assumption].
  - intros Hsome. rewrite Hids.
    destruct (ProfilePage.editingAddress st); [reflexivity | congruence].
  - intros Hnone. rewrite Hids, Hnone. reflexivity.
  - unfold uniqueIds. rewrite Hmids.
    destruct (CheckoutDetailsModal.isNew mst); [apply NoDup_snoc; assumption | exact Hmu].
  - exact Hmids.
Qed.

Lemma address_ids_stay_unique_witness :
  map Address.id (ProfilePage.updatedAddresses "uuid-7" Sample.profilePageAdding
                                               Sample.profileRow)
  = ["addr-1"; "addr-2"; "uuid-7"]
  /\ uniqueIds (snd (CheckoutDetailsModal.shippingAddresses Sample.env Sample.modalStateNew)).
Proof.
  assert (Hu : uniqueIds [Sample.home; Sample.office]).
  { unfold uniqueIds. simpl. repeat constructor; simpl; intuition discriminate. }
  assert (Hf1 : ~ In "uuid-7" (map Address.id [Sample.home; Sample.office])).
  { simpl. intuition discriminate. }
  assert (Hf2 : ~ In (CheckoutDetailsModal.uuidv4 Sample.env 0%nat)
                     (map Address.id [Sample.home; Sample.office])).
  { simpl. vm_compute. intuition discriminate. }
  destruct (address_ids_stay_unique
              "uuid-7" Sample.profilePageAdding Sample.profileRow
              Sample.env Sample.modalStateNew Hu Hf1 Hu Hf2)
    as [_ [_ [Hadd [Hmu _]]]].
  split; [exact (Hadd eq_refl) | exact Hmu].
Defined.

(* ================================================================== *)
(** ** Profile page: saving without the default flag, and saving an
       address unchanged *)
(* ================================================================== *)

Lemma replace_other_ids (i : string) (new : Address.t) (l : list Address.t) :
  ~ In i (map Address.id l) ->
  map (fun addr => if String.eqb (Address.id addr) i then new else addr) l = l.
Proof.
  induction l as [|x l IH]; simpl; intros Hn; [reflexivity|].
  destruct (String.eqb_spec (Address.id x) i) as [E|E].
  - exfalso. apply Hn. left. exact E.
  - rewrite IH; [reflexivity|]. intros H. apply Hn. right. exact H.
Qed.

Lemma countDefaults_replace_plain (i : string) (new entry : Address.t)
      (l : list Address.t) :
  Address.isDefault new = false ->
  uniqueIds l -> In entry l -> Address.id entry = i ->
  (countDefaults (map (fun addr => if String.eqb (Address.id addr) i then new else addr) l)
   + (if Address.isDefault entry then 1 else 0)
   = countDefaults l)%nat.
Proof.
  intros Hnew. unfold uniqueIds.
  induction l as [|x l IH]; simpl; intros Hnd Hin Hid; [contradiction|].
  inversion Hnd as [|k ks Hnotin Hnd']; subst k ks.
  destruct Hin as [Hx|Hin].
  - subst x. rewrite Hid, String.eqb_refl.
    rewrite replace_other_ids by (rewrite <- Hid; exact Hnotin).
    unfold countDefaults. simpl. rewrite Hnew.
    destruct (Address.isDefault entry); simpl; lia.
  - destruct (String.eqb_spec (Address.id x) i) as [E|E].
    + exfalso. apply Hnotin. rewrite E, <- Hid. apply in_map. exact Hin.
    + specialize (IH Hnd' Hin Hid). unfold countDefaults in *. simpl.
      destruct (Address.isDefault x); simpl; lia.
Qed.

(** X18.  Saving an address without the default flag clears nothing:
    an addition keeps the number of default addresses, and an edit
    lowers it by one exactly when the edited entry was a default - so
    unticking the box on the only default address leaves the book
    without a default. *)
Theorem upsert_without_default_flag
        (uuid : string) (st : ProfilePage.State) (p : UserProfile.t) :
  ProfilePage.isDefaultAddress st = false ->
  (ProfilePage.editingAddress st = None ->
   countDefaults (ProfilePage.updatedAddresses uuid st p)
   = countDefaults (Js.nullish (UserProfile.addresses p) []))
  /\ (forall e entry,
         ProfilePage.editingAddress st = Some e -> Address.id e <> "" ->
         uniqueIds (Js.nullish (UserProfile.addresses p) []) ->
         In entry (Js.nullish (UserProfile.addresses p) []) ->
         Address.id entry = Address.id e ->
         (countDefaults (ProfilePage.updatedAddresses uuid st p)
          + (if Address.isDefault entry then 1 else 0)
          = countDefaults (Js.nullish (UserProfile.addresses p) []))%nat).
Proof.
  intros Hd. unfold ProfilePage.updatedAddresses. rewrite Hd. split.
  - intros He. rewrite He, countDefaults_app.
    unfold countDefaults at 2, ProfilePage.newAddress. simpl. rewrite Hd. simpl. lia.
  - intros e entry He Hne Hu Hin Hid. rewrite He.
    apply (countDefaults_replace_plain _ _ entry);
      [exact Hd | exact Hu | exact Hin |].
    rewrite (newAddress_id_edit uuid st e He Hne). exact Hid.
Qed.

Lemma upsert_without_default_flag_witness :
  countDefaults
    (ProfilePage.updatedAddresses
       "uuid-7"
       (ProfilePage.mkState (Some Sample.profileRow) true (Some Sample.home)
                            "Home" "A-101" "SV Road" "Andheri West" "Mumbai"
                            "Maharashtra" "400001" "India" "9876543210" "" false)
       Sample.profileRow)
  = 0%nat.
Proof.
  assert (Hu : uniqueIds [Sample.home; Sample.office]).
  { unfold uniqueIds. simpl. repeat constructor; simpl; intuition discriminate. }
  assert (Hne : Address.id Sample.home <> "") by discriminate.
  pose proof (proj2 (upsert_without_default_flag
                       "uuid-7"
                       (ProfilePage.mkState (Some Sample.profileRow) true (Some Sample.home)
                                            "Home" "A-101" "SV Road" "Andheri West" "Mumbai"
                                            "Maharashtra" "400001" "India" "9876543210" ""
                                            false)
                       Sample.profileRow eq_refl)
                    Sample.home Sample.home eq_refl Hne Hu (or_introl eq_refl) eq_refl) as H.
  simpl (if Address.isDefault Sample.home then _ else _) in H.
  change (countDefaults (Js.nullish (UserProfile.addresses Sample.profileRow) []))
    with 1%nat in H.
  lia.
Defined.

(** X19.  Opening an address in the edit form and saving it unchanged
    keeps its id, its text fields and its default flag, but the saved
    entry carries no coordinates: an address with a latitude or
    longitude (as the checkout stores them) loses them on such a save.
    An empty secondary phone is stored as absent.  The book keeps its
    length. *)
Theorem edit_and_save_drops_coordinates
        (uuid : string) (st : ProfilePage.State) (p : UserProfile.t)
        (a : Address.t) (l : list Address.t) :
  UserProfile.addresses p = Some l ->
  In a l -> Address.id a <> "" ->
  let saved := ProfilePage.updatedAddresses uuid (ProfilePage.openEditAddressForm a st) p in
  (exists a',
      In a' saved
      /\ Address.id a' = Address.id a
      /\ Address.name a' = Address.name a
      /\ Address.houseNumber a' = Address.houseNumber a
      /\ Address.street a' = Address.street a
      /\ Address.area a' = Address.area a
      /\ Address.city a' = Address.city a
      /\ Address.state a' = Address.state a
      /\ Address.pincode a' = Address.pincode a
      /\ Address.country a' = Address.country a
      /\ Address.primaryPhone a' = Address.primaryPhone a
      /\ Address.isDefault a' = Address.isDefault a
      /\ Address.secondaryPhone a' = Js.orNull (Address.secondaryPhone a)
      /\ Address.lat a' = None /\ Address.lng a' = None)
  /\ (forall x, In x saved -> Address.id x = Address.id a ->
                Address.lat x = None /\ Address.lng x = None)
  /\ List.length saved = List.length l.
Proof.
  intros Hl Hin Hne saved.
  set (st1 := ProfilePage.openEditAddressForm a st).
  assert (He : ProfilePage.editingAddress st1 = Some a) by reflexivity.
  assert (Hid : Address.id (ProfilePage.newAddress uuid st1) = Address.id a)
    by (apply (newAddress_id_edit uuid st1 a He Hne)).
  assert (Hs : saved
               = map (fun addr =>
                        if String.eqb (Address.id addr) (Address.id a)
                        then ProfilePage.newAddress uuid st1 else addr)
                     (if Address.isDefault a
                      then map (Address.withDefault false) l else l)).
  { unfold saved, ProfilePage.updatedAddresses. fold st1. rewrite He, Hid, Hl. reflexivity. }
  split; [|split].
  - exists (ProfilePage.newAddress uuid st1). split.
    + rewrite Hs. apply in_map_iff.
      destruct (Address.isDefault a).
      * exists (Address.withDefault false a). simpl. rewrite String.eqb_refl.
        split; [reflexivity|]. apply in_map. exact Hin.
      * exists a. rewrite String.eqb_refl. split; [reflexivity | exact Hin].
    + split; [exact Hid|].
      unfold ProfilePage.newAddress, st1, ProfilePage.openEditAddressForm. simpl.
      repeat split.
      destruct (Address.secondaryPhone a) as [s|]; [destruct s|]; reflexivity.
  - intros x Hx Hxid. rewrite Hs in Hx. apply in_map_iff in Hx.
    destruct Hx as [y [Hy _]].
    destruct (String.eqb (Address.id y) (Address.id a)) eqn:E.
    + subst x. split; reflexivity.
    + subst x. apply String.eqb_neq in E. contradiction.
  - rewrite Hs, length_map. destruct (Address.isDefault a); [apply length_map | reflexivity].
Qed.

Lemma edit_and_save_drops_coordinates_witness :
  Address.lat Scenario.farm = Some 19%float
  /\ map Address.lat
         (ProfilePage.updatedAddresses
            "uuid-7" (ProfilePage.openEditAddressForm Scenario.farm Sample.profilePageAdding)
            Scenario.farmProfile)
     = [None; None]
  /\ forall x,
       In x (ProfilePage.updatedAddresses
               "uuid-7"
               (ProfilePage.openEditAddressForm Scenario.farm Sample.profilePageAdding)
               Scenario.farmProfile) ->
       Address.id x = "addr-3" -> Address.lat x = None.
Proof.
  assert (Hne : Address.id Scenario.farm <> "") by discriminate.
  destruct (edit_and_save_drops_coordinates
              "uuid-7" Sample.profilePageAdding Scenario.farmProfile Scenario.farm
              [Sample.home; Scenario.farm] eq_refl (or_intror (or_introl eq_refl)) Hne)
    as [_ [Hlost _]].
  split; [reflexivity|]. split; [reflexivity|].
  intros x Hx Hid. apply (Hlost x Hx Hid).
Defined.

(* ================================================================== *)
(** ** The timeline and the steps the vendor is offered *)
(* ================================================================== *)

(** The index of a status: it is one of the five stages, at its
    position, or it is unknown, at -1. *)
Lemma indexOf_cases (s : string) :
  (s = "confirmed" /\ Js.indexOf Dashboard.statusOrder s = 0)
  \/ (s = "payment_accepted" /\ Js.indexOf Dashboard.statusOrder s = 1)
  \/ (s = "preparing" /\ Js.indexOf Dashboard.statusOrder s = 2)
  \/ (s = "shipped" /\ Js.indexOf Dashboard.statusOrder s = 3)
  \/ (s = "delivered" /\ Js.indexOf Dashboard.statusOrder s = 4)
  \/ (~ In s Dashboard.statusOrder /\ Js.indexOf Dashboard.statusOrder s = -1).
Proof.
  unfold Js.indexOf, Dashboard.statusOrder. cbn [Js.indexOfFrom].
  destruct (String.eqb_spec "confirmed" s) as [E1|E1]; [left; split; [congruence | reflexivity]|].
  destruct (String.eqb_spec "payment_accepted" s) as [E2|E2];
    [right; left; split; [congruence | reflexivity]|].
  destruct (String.eqb_spec "preparing" s) as [E3|E3];
    [right; right; left; split; [congruence | reflexivity]|].
  destruct (String.eqb_spec "shipped" s) as [E4|E4];
    [right; right; right; left; split; [congruence | reflexivity]|].
  destruct (String.eqb_spec "delivered" s) as [E5|E5];
    [right; right; right; right; left; split; [congruence | reflexivity]|].
  right; right; right; right; right. split; [|reflexivity].
  simpl. intuition congruence.
Qed.

(** X20.  The timeline and the update modal agree.  For a status among
    the five stages the timeline shows the earlier stages completed,
    that stage active and the later ones inactive; for any other
    status (pending, cancelled) every stage is inactive.  The stages
    the vendor's modal offers are exactly the inactive ones. *)
Theorem timeline_marks_progress (o : Order.t) (step : Dashboard.TimelineStep) :
  (In step Dashboard.proTimelineSteps ->
   (OrderStatusTimeline.look (Order.status o) step = OrderStatusTimeline.Inactive
    <-> In step (Dashboard.availableSteps o)))
  /\ (In (Order.status o) Dashboard.statusOrder ->
      map snd (OrderStatusTimeline.timeline (Order.status o))
      = repeat OrderStatusTimeline.Completed
               (Z.to_nat (Js.indexOf Dashboard.statusOrder (Order.status o)))
        ++ [OrderStatusTimeline.Active]
        ++ repeat OrderStatusTimeline.Inactive
                  (4 - Z.to_nat (Js.indexOf Dashboard.statusOrder (Order.status o))))
  /\ (~ In (Order.status o) Dashboard.statusOrder ->
      map snd (OrderStatusTimeline.timeline (Order.status o))
      = repeat OrderStatusTimeline.Inactive 5
      /\ Dashboard.availableSteps o = Dashboard.proTimelineSteps).
Proof.
  split; [|split].
  - intros Hin. unfold Dashboard.availableSteps. rewrite filter_In.
    unfold OrderStatusTimeline.look, OrderStatusTimeline.isActive,
      OrderStatusTimeline.isCompleted.
    set (i := Js.indexOf Dashboard.statusOrder (Dashboard.status step)).
    set (c := Js.indexOf Dashboard.statusOrder (Order.status o)).
    destruct (Z.eqb_spec i c), (Z.ltb_spec i c), (Z.gtb_spec i c);
      split; try discriminate; try lia; intros Hx;
      try (split; [exact Hin | reflexivity]); try reflexivity;
      destruct Hx as [_ Hx]; discriminate.
  - intros Hin.
    destruct (indexOf_cases (Order.status o))
      as [[E Hi]|[[E Hi]|[[E Hi]|[[E Hi]|[[E Hi]|[E Hi]]]]]];
      try contradiction; rewrite E; reflexivity.
  - intros Hn.
    destruct (indexOf_cases (Order.status o))
      as [[E Hi]|[[E Hi]|[[E Hi]|[[E Hi]|[[E Hi]|[_ Hi]]]]]];
      try (exfalso; apply Hn; rewrite E; simpl; tauto).
    unfold OrderStatusTimeline.timeline, OrderStatusTimeline.look,
      OrderStatusTimeline.isActive, OrderStatusTimeline.isCompleted,
      Dashboard.availableSteps.
    rewrite Hi. split; reflexivity.
Qed.

Lemma timeline_marks_progress_witness :
  map snd (OrderStatusTimeline.timeline (Order.status Sample.shippedOrder))
  = [OrderStatusTimeline.Completed; OrderStatusTimeline.Completed;
     OrderStatusTimeline.Completed; OrderStatusTimeline.Active;
     OrderStatusTimeline.Inactive]
  /\ (OrderStatusTimeline.look (Order.status Sample.shippedOrder)
                               (Dashboard.mkStep "Order Successfully Delivered" "delivered")
      = OrderStatusTimeline.Inactive ->
      In (Dashboard.mkStep "Order Successfully Delivered" "delivered")
         (Dashboard.availableSteps Sample.shippedOrder)).
Proof.
  destruct (timeline_marks_progress
              Sample.shippedOrder
              (Dashboard.mkStep "Order Successfully Delivered" "delivered"))
    as [Hoff [Hknown _]].
  split.
  - rewrite Hknown; [reflexivity|]. simpl. tauto.
  - apply Hoff. simpl. tauto.
Defined.

(** X21.  The modal only moves an order forward, and not twice to the
    same stage.  Once an order carries an offered status, that status
    and every earlier one are no longer offered: the offers for the
    updated order are among the previous ones and strictly fewer.
    Nothing is offered exactly for a delivered order.  After a click,
    every stored order of that id has the clicked status. *)
Theorem offered_steps_shrink
        (o : Order.t) (target : string) (s : World.t * Dashboard.State) :
  (Dashboard.availableSteps o = [] <-> Order.status o = "delivered")
  /\ (In target (map Dashboard.status (Dashboard.availableSteps o)) ->
      let o' := Order.withStatus target o in
      ~ In target (map Dashboard.status (Dashboard.availableSteps o'))
      /\ (forall t, In t (map Dashboard.status (Dashboard.availableSteps o')) ->
                    In t (map Dashboard.status (Dashboard.availableSteps o)))
      /\ (List.length (Dashboard.availableSteps o')
          < List.length (Dashboard.availableSteps o))%nat
      /\ (Dashboard.selectedOrder (snd s) = Some o ->
          exists s',
            Dashboard.clickStep None target s = Some s'
            /\ Forall (fun x => Order.id x = Order.id o -> Order.status x = target)
                      (World.orders (fst s')))).
Proof.
  split.
  - unfold Dashboard.availableSteps.
    destruct (indexOf_cases (Order.status o))
      as [[E Hi]|[[E Hi]|[[E Hi]|[[E Hi]|[[E Hi]|[E Hi]]]]]];
      rewrite Hi; split; intros H.
    all: first [ exact E
               | reflexivity
               | vm_compute in H; discriminate H
               | rewrite E in H; discriminate H
               | exfalso; apply E; rewrite H; simpl; tauto ].
  - intros Hoff o'.
    pose proof (proj1 (offered_iff_later o target) Hoff) as Hgt.
    assert (Hst : Order.status o' = target) by reflexivity.
    split; [|split; [|split]].
    + intros H. apply offered_iff_later in H. rewrite Hst in H. lia.
    + intros t H. apply offered_iff_later in H. rewrite Hst in H.
      apply offered_iff_later. lia.
    + unfold Dashboard.availableSteps. rewrite Hst.
      destruct (indexOf_cases target)
        as [[E Hi]|[[E Hi]|[[E Hi]|[[E Hi]|[[E Hi]|[E Hi]]]]]];
        destruct (indexOf_cases (Order.status o))
        as [[E' Hi']|[[E' Hi']|[[E' Hi']|[[E' Hi']|[[E' Hi']|[E' Hi']]]]]];
        rewrite Hi, Hi' in *; try lia; simpl; lia.
    + intros Hsel. rewrite (clickStep_offered None o target s Hsel).
      destruct (Z.gtb_spec (Js.indexOf Dashboard.statusOrder target)
                           (Js.indexOf Dashboard.statusOrder (Order.status o)));
        [|lia].
      eexists. split; [reflexivity|].
      destruct s as [w st]. simpl. apply setStatus_sets.
Qed.

Lemma offered_steps_shrink_witness :
  map Dashboard.status
      (Dashboard.availableSteps (Order.withStatus "delivered" Sample.shippedOrder))
  = []
  /\ ~ In "delivered"
          (map Dashboard.status
               (Dashboard.availableSteps (Order.withStatus "delivered" Sample.shippedOrder))).
Proof.
  destruct (offered_steps_shrink Sample.shippedOrder "delivered"
                                 (Sample.world, Sample.dashboard)) as [_ H].
  assert (Hoff : In "delivered"
                    (map Dashboard.status (Dashboard.availableSteps Sample.shippedOrder))).
  { left. reflexivity. }
  destruct (H Hoff) as [Hnot _].
  split; [reflexivity | exact Hnot].
Defined.

(* ================================================================== *)
(** ** Status updates that fail, and the realtime listener *)
(* ================================================================== *)

Lemma setStatus_idempotent (orderId newStatus : string) (os : list Order.t) :
  Dashboard.setStatus orderId newStatus (Dashboard.setStatus orderId newStatus os)
  = Dashboard.setStatus orderId newStatus os.
Proof.
  unfold Dashboard.setStatus. rewrite map_map. apply map_ext. intros o.
  destruct (String.eqb (Order.id o) orderId) eqn:E.
  - change (Order.id (Order.withStatus newStatus o)) with (Order.id o).
    rewrite E. reflexivity.
  - rewrite E. reflexivity.
Qed.

Lemma setStatus_last_wins (orderId first second : string) (os : list Order.t) :
  Dashboard.setStatus orderId second (Dashboard.setStatus orderId first os)
  = Dashboard.setStatus orderId second os.
Proof.
  unfold Dashboard.setStatus. rewrite map_map. apply map_ext. intros o.
  destruct (String.eqb (Order.id o) orderId) eqn:E.
  - change (Order.id (Order.withStatus first o)) with (Order.id o).
    rewrite E. reflexivity.
  - rewrite E. reflexivity.
Qed.

(** X22.  A status update the backend rejects changes no table and no
    order on the page: it only posts the destructive "Update Failed"
    notice, clears the busy flag and leaves the modal as it was.  After
    an accepted update the realtime echo of the same change is a no-op
    on the page, a page that agreed with the orders table still agrees
    with it, and of two echoes for one order the later status wins. *)
Theorem status_update_failure_and_echo
        (e : PostgrestError.t) (orderId newStatus other : string)
        (w : World.t) (st : Dashboard.State) :
  (let r := Dashboard.handleStatusUpdate (Some e) orderId newStatus (w, st) in
   onlyWarned w (fst r)
   /\ Dashboard.orders (snd r) = Dashboard.orders st
   /\ Dashboard.modalOpen (snd r) = Dashboard.modalOpen st
   /\ Dashboard.selectedOrder (snd r) = Dashboard.selectedOrder st
   /\ Dashboard.isUpdating (snd r) = false)
  /\ (let r := Dashboard.handleStatusUpdate None orderId newStatus (w, st) in
      Dashboard.onOrderUpdate orderId newStatus (snd r) = snd r
      /\ Dashboard.modalOpen (snd r) = false
      /\ (World.orders w = Dashboard.orders st ->
          World.orders (fst r) = Dashboard.orders (snd r))
      /\ Dashboard.orders (Dashboard.onOrderUpdate orderId other (snd r))
         = Dashboard.setStatus orderId other (Dashboard.orders st)).
Proof.
  split.
  - cbn. repeat split. eexists. split; reflexivity.
  - unfold Dashboard.handleStatusUpdate, Dashboard.onOrderUpdate.
    cbn [fst snd Dashboard.orders Dashboard.modalOpen Dashboard.isUpdating
         Dashboard.selectedOrder World.orders World.toast World.withOrders].
    split; [|split; [|split]].
    + rewrite setStatus_idempotent. reflexivity.
    + reflexivity.
    + intros H. rewrite H. reflexivity.
    + apply setStatus_last_wins.
Qed.

Lemma status_update_failure_and_echo_witness :
  World.orders
    (fst (Dashboard.handleStatusUpdate None "order-0001" "delivered"
                                       (Sample.world, Sample.dashboard)))
  = Dashboard.orders
      (snd (Dashboard.handleStatusUpdate None "order-0001" "delivered"
                                         (Sample.world, Sample.dashboard))).
Proof.
  destruct (status_update_failure_and_echo
              (PostgrestError.mk "500" "boom") "order-0001" "delivered" "shipped"
              Sample.world Sample.dashboard) as [_ [_ [_ [H _]]]].
  apply H. reflexivity.
Defined.

(* ================================================================== *)
(** ** The status counts of the vendor's pie chart *)
(* ================================================================== *)

Lemma countOrZero_setCount (acc : list (string * Z)) (key s : string) (v : Z) :
  Dashboard.countOrZero (Dashboard.setCount acc key v) s
  = if String.eqb key s then v else Dashboard.countOrZero acc s.
Proof.
  unfold Dashboard.countOrZero.
  induction acc as [|[k v0] acc IH]; cbn [Dashboard.setCount Dashboard.getCount].
  - destruct (String.eqb key s); [|reflexivity].
    destruct (Z.eqb_spec v 0); congruence.
  - destruct (String.eqb_spec k key) as [E|E]; cbn [Dashboard.getCount].
    + subst k. destruct (String.eqb key s); [|reflexivity].
      destruct (Z.eqb_spec v 0); congruence.
    + destruct (String.eqb_spec k s) as [E'|E'].
      * destruct (String.eqb_spec key s) as [E''|E'']; [congruence | reflexivity].
      * exact IH.
Qed.

Lemma counts_from (l : list Order.t) (acc : list (string * Z)) (s : string) :
  Dashboard.countOrZero
    (Js.reduce
       (fun acc order =>
          Dashboard.setCount acc (Order.status order)
                             (Dashboard.countOrZero acc (Order.status order) + 1))
       acc l) s
  = Dashboard.countOrZero acc s + ordersWithStatus s l.
Proof.
  unfold ordersWithStatus.
  revert acc. induction l as [|o l IH]; intros acc.
  - cbn. lia.
  - cbn [Js.reduce fold_left filter]. unfold Js.reduce in IH. rewrite IH.
    rewrite countOrZero_setCount.
    destruct (String.eqb_spec (Order.status o) s) as [E|E].
    + rewrite E. cbn [List.length]. lia.
    + lia.
Qed.

Lemma filter_length_lt {A : Type} (p : A -> bool) (x : A) (l : list A) :
  In x l -> p x = false ->
  (List.length (filter p l) < List.length l)%nat.
Proof.
  induction l as [|y l IH]; intros Hin Hp; [destruct Hin|].
  cbn [filter List.length]. destruct Hin as [->|Hin].
  - rewrite Hp. pose proof (filter_length p l). lia.
  - specialize (IH Hin Hp). destruct (p y); cbn [List.length]; lia.
Qed.

Lemma charted_orders (l : list Order.t) :
  ordersWithStatus "pending" l + ordersWithStatus "confirmed" l
  + ordersWithStatus "shipped" l + ordersWithStatus "delivered" l
  + ordersWithStatus "cancelled" l
  = Z.of_nat
      (List.length
         (filter (fun o =>
                    existsb (String.eqb (Order.status o))
                            ["pending"; "confirmed"; "shipped"; "delivered"; "cancelled"])
                 l)).
Proof.
  unfold ordersWithStatus. cbn [existsb].
  induction l as [|o l IH]; [reflexivity|].
  cbn [filter].
  destruct (String.eqb_spec (Order.status o) "pending") as [E1|E1];
    destruct (String.eqb_spec (Order.status o) "confirmed") as [E2|E2];
    try (rewrite E1 in E2; discriminate E2);
    destruct (String.eqb_spec (Order.status o) "shipped") as [E3|E3];
    try (rewrite E1 in E3; discriminate E3);
    try (rewrite E2 in E3; discriminate E3);
    destruct (String.eqb_spec (Order.status o) "delivered") as [E4|E4];
    try (rewrite E1 in E4; discriminate E4);
    try (rewrite E2 in E4; discriminate E4);
    try (rewrite E3 in E4; discriminate E4);
    destruct (String.eqb_spec (Order.status o) "cancelled") as [E5|E5];
    try (rewrite E1 in E5; discriminate E5);
    try (rewrite E2 in E5; discriminate E5);
    try (rewrite E3 in E5; discriminate E5);
    try (rewrite E4 in E5; discriminate E5);
    cbn [orb List.length]; lia.
Qed.

(** X23.  The status counts count orders: the entry of a status is the
    number of listed orders with exactly that status.  The pie chart
    adds up to the orders that are pending, confirmed, shipped,
    delivered or cancelled, so as soon as one listed order is in
    payment_accepted or preparing the chart shows fewer orders than
    the list has. *)
Theorem status_counts_count_orders
        (filteredOrders : list Order.t) (s : string) (o : Order.t) :
  Dashboard.countOrZero (Dashboard.orderStatusCounts filteredOrders) s
  = ordersWithStatus s filteredOrders
  /\ total (Dashboard.statusCounts filteredOrders)
     = Z.of_nat
         (List.length
            (filter (fun o =>
                       existsb (String.eqb (Order.status o))
                               ["pending"; "confirmed"; "shipped"; "delivered"; "cancelled"])
                    filteredOrders))
  /\ (In o filteredOrders ->
      Order.status o = "payment_accepted" \/ Order.status o = "preparing" ->
      total (Dashboard.statusCounts filteredOrders)
      < Z.of_nat (List.length filteredOrders)).
Proof.
  assert (Hc : forall s, Dashboard.countOrZero (Dashboard.orderStatusCounts filteredOrders) s
                         = ordersWithStatus s filteredOrders).
  { intros s0. unfold Dashboard.orderStatusCounts. rewrite counts_from. reflexivity. }
  assert (Ht : total (Dashboard.statusCounts filteredOrders)
               = Z.of_nat
                   (List.length
                      (filter (fun o =>
                                 existsb (String.eqb (Order.status o))
                                         ["pending"; "confirmed"; "shipped"; "delivered";
                                          "cancelled"])
                              filteredOrders))).
  { rewrite <- charted_orders. unfold Dashboard.statusCounts, total.
    cbn [fold_right]. rewrite !Hc. lia. }
  split; [apply Hc | split; [exact Ht|]].
  intros Hin Hst. rewrite Ht. apply Nat2Z.inj_lt.
  apply (filter_length_lt _ o); [exact Hin|].
  destruct Hst as [E|E]; rewrite E; reflexivity.
Qed.

Lemma status_counts_count_orders_witness :
  total (Dashboard.statusCounts
           [Sample.shippedOrder; Order.withStatus "preparing" Sample.shippedOrder])
  < 2.
Proof.
  apply (status_counts_count_orders
           [Sample.shippedOrder; Order.withStatus "preparing" Sample.shippedOrder]
           "shipped" (Order.withStatus "preparing" Sample.shippedOrder)).
  - right. left. reflexivity.
  - right. reflexivity.
Defined.

(* ================================================================== *)
(** ** Vendor dashboard: what the figures add up to *)
(* ================================================================== *)

Lemma existsb_filter_nil {A : Type} (p : A -> bool) (l : list A) :
  existsb p l = false <-> filter p l = [].
Proof.
  induction l as [|x l IH]; cbn [existsb filter]; [tauto|].
  destruct (p x); cbn [orb]; [split; discriminate | exact IH].
Qed.

Lemma total_cons (x : Z) (l : list Z) : total (x :: l) = x + total l.
Proof. reflexivity. Qed.

Lemma addSale_units (ps : list (string * DashboardPage.Sale.t))
      (productId : string) (quantity : Z) (amount : float) :
  total (map (fun e => DashboardPage.Sale.units (snd e))
             (DashboardPage.addSale ps productId quantity amount))
  = total (map (fun e => DashboardPage.Sale.units (snd e)) ps) + quantity.
Proof.
  unfold total.
  induction ps as [|[k v] ps IH]; cbn [DashboardPage.addSale].
  - cbn. lia.
  - destruct (String.eqb k productId); cbn [map fold_right snd DashboardPage.Sale.units];
      lia.
Qed.

Lemma unitsOf_addSale (ps : list (string * DashboardPage.Sale.t))
      (productId k : string) (quantity : Z) (amount : float) :
  unitsOf (DashboardPage.addSale ps productId quantity amount) k
  = unitsOf ps k + (if String.eqb productId k then quantity else 0).
Proof.
  unfold unitsOf.
  induction ps as [|[k0 v] ps IH]; cbn [DashboardPage.addSale Js.find fst snd].
  - destruct (String.eqb productId k); cbn [DashboardPage.Sale.units snd]; lia.
  - destruct (String.eqb_spec k0 productId) as [E|E]; cbn [Js.find fst snd].
    + subst k0. destruct (String.eqb productId k);
        cbn [DashboardPage.Sale.units snd]; lia.
    + destruct (String.eqb_spec k0 k) as [E'|E'].
      * subst k0. destruct (String.eqb_spec productId k); [congruence | lia].
      * exact IH.
Qed.

Lemma unitsOf_entry (ps : list (string * DashboardPage.Sale.t))
      (k : string) (v : DashboardPage.Sale.t) :
  NoDup (map fst ps) -> In (k, v) ps -> unitsOf ps k = DashboardPage.Sale.units v.
Proof.
  unfold unitsOf.
  induction ps as [|[k0 v0] ps IH]; intros Hnd Hin; [destruct Hin|].
  inversion Hnd as [|? ? Hnot Hnd']; subst.
  cbn [Js.find fst]. destruct Hin as [Hin|Hin].
  - injection Hin as -> ->. rewrite String.eqb_refl. reflexivity.
  - destruct (String.eqb_spec k0 k) as [E|E].
    + exfalso. apply Hnot. subst k0. apply in_map_iff. exists (k, v).
      split; [reflexivity | exact Hin].
    + apply IH; assumption.
Qed.

Lemma addSale_keys (ps : list (string * DashboardPage.Sale.t))
      (productId : string) (quantity : Z) (amount : float) :
  NoDup (map fst ps) ->
  NoDup (map fst (DashboardPage.addSale ps productId quantity amount))
  /\ forall k, In k (map fst (DashboardPage.addSale ps productId quantity amount))
               <-> k = productId \/ In k (map fst ps).
Proof.
  induction ps as [|[k0 v] ps IH]; cbn [DashboardPage.addSale]; intros Hnd.
  - split; [repeat constructor; intros []|]. intros k. cbn. intuition congruence.
  - inversion Hnd as [|? ? Hnot Hnd']; subst.
    destruct (String.eqb_spec k0 productId) as [E|E].
    + subst k0. split; [exact Hnd|]. intros k. cbn [map fst In]. intuition congruence.
    + destruct (IH Hnd') as [IHnd IHin]. cbn [map fst]. split.
      * constructor; [|exact IHnd]. rewrite IHin. intros [E'|Hin]; [congruence|].
        exact (Hnot Hin).
      * intros k. cbn [In]. rewrite IHin. tauto.
Qed.

(** The loop over the items of one order, in closed form: only the
    vendor's items count, in their order. *)
Lemma items_loop (ids : list string) (items : list OrderItem.t)
      (a : DashboardPage.ItemAcc) :
  fold_left (DashboardPage.itemStep ids) items a
  = let sold := filter (fun item => DashboardPage.has ids (OrderItem.product_id item))
                       items in
    DashboardPage.mkItemAcc
      (DashboardPage.hasCompanyProductInOrder a
       || existsb (fun item => DashboardPage.has ids (OrderItem.product_id item)) items)
      (fold_left (fun amount item => (amount + lineAmount item)%float)
                 sold (DashboardPage.companySpecificOrderAmount a))
      (fold_left (fun ps item =>
                    DashboardPage.addSale ps (OrderItem.product_id item)
                                          (OrderItem.quantity item) (lineAmount item))
                 sold (DashboardPage.itemSales a)).
Proof.
  cbv zeta. revert a.
  induction items as [|item items IH]; intros a; cbn [fold_left filter existsb].
  - destruct a. cbn. rewrite orb_false_r. reflexivity.
  - rewrite IH. unfold DashboardPage.itemStep.
    destruct (DashboardPage.has ids (OrderItem.product_id item)).
    + cbn [DashboardPage.hasCompanyProductInOrder
             DashboardPage.companySpecificOrderAmount DashboardPage.itemSales
             orb fold_left].
      rewrite orb_true_r. reflexivity.
    + cbn [orb]. reflexivity.
Qed.

(** The loop over the orders, in closed form: only the orders with an
    item of the vendor count, in their order. *)
Lemma orders_loop (ids : list string) (orders : list Order.t)
      (acc : DashboardPage.Acc) :
  fold_left (DashboardPage.orderStep ids) orders acc
  = DashboardPage.mkAcc
      (fold_left (fun total order => (total + orderAmount ids order)%float)
                 (filter (hasCompanyItem ids) orders)
                 (DashboardPage.accSalesAmount acc))
      (DashboardPage.accOrders acc
       + Z.of_nat (List.length (filter (hasCompanyItem ids) orders)))
      (DashboardPage.accPending acc
       + Z.of_nat (List.length
                     (filter (fun o => hasCompanyItem ids o && awaitsVendor o) orders)))
      (fold_left (fun ps item =>
                    DashboardPage.addSale ps (OrderItem.product_id item)
                                          (OrderItem.quantity item) (lineAmount item))
                 (soldItems ids orders) (DashboardPage.productSales acc)).
Proof.
  revert acc.
  induction orders as [|o orders IH]; intros acc.
  - destruct acc. cbn. f_equal; lia.
  - cbn [fold_left]. rewrite IH. unfold DashboardPage.orderStep.
    rewrite items_loop. cbv zeta.
    cbn [DashboardPage.hasCompanyProductInOrder
           DashboardPage.companySpecificOrderAmount DashboardPage.itemSales orb].
    unfold soldItems. cbn [flat_map filter]. fold (soldItems ids orders).
    rewrite fold_left_app.
    fold (companyItems ids o). fold (hasCompanyItem ids o). fold (orderAmount ids o).
    unfold awaitsVendor at 2.
    destruct (hasCompanyItem ids o) eqn:Hh;
      cbn [DashboardPage.accSalesAmount DashboardPage.accOrders
             DashboardPage.accPending DashboardPage.productSales andb fold_left].
    + destruct (String.eqb (Order.status o) "pending"
                || String.eqb (Order.status o) "confirmed");
        cbn [List.length]; f_equal; lia.
    + assert (Hnil : companyItems ids o = []).
      { apply existsb_filter_nil; exact Hh. }
      rewrite Hnil. cbn [fold_left]. f_equal; lia.
Qed.

Lemma soldUnits_cons (k : string) (item : OrderItem.t) (items : list OrderItem.t) :
  soldUnits k (item :: items)
  = (if String.eqb (OrderItem.product_id item) k then OrderItem.quantity item else 0)
    + soldUnits k items.
Proof.
  unfold soldUnits. cbn [filter].
  destruct (String.eqb (OrderItem.product_id item) k); cbn [map]; [apply total_cons | lia].
Qed.

Lemma sales_fold (items : list OrderItem.t) (ps : list (string * DashboardPage.Sale.t)) :
  let sales :=
    fold_left (fun ps item =>
                 DashboardPage.addSale ps (OrderItem.product_id item)
                                       (OrderItem.quantity item) (lineAmount item))
              items ps in
  total (map (fun e => DashboardPage.Sale.units (snd e)) sales)
  = total (map (fun e => DashboardPage.Sale.units (snd e)) ps)
    + total (map OrderItem.quantity items)
  /\ (forall k, unitsOf sales k = unitsOf ps k + soldUnits k items)
  /\ (NoDup (map fst ps) ->
      NoDup (map fst sales)
      /\ forall k, In k (map fst sales)
                   <-> In k (map fst ps) \/ In k (map OrderItem.product_id items)).
Proof.
  cbv zeta. revert ps.
  induction items as [|item items IH]; intros ps; cbn [fold_left map].
  - unfold soldUnits, total. cbn [filter map fold_right].
    split; [lia | split; [intros k; lia|]].
    intros Hnd. split; [exact Hnd|]. intros k. cbn [In]. tauto.
  - destruct (IH (DashboardPage.addSale ps (OrderItem.product_id item)
                                        (OrderItem.quantity item) (lineAmount item)))
      as [Hu [Hper Hk]].
    rewrite Hu, addSale_units, total_cons.
    split; [lia | split].
    + intros k. rewrite Hper, unitsOf_addSale, soldUnits_cons. lia.
    + intros Hnd.
      destruct (addSale_keys ps (OrderItem.product_id item)
                             (OrderItem.quantity item) (lineAmount item) Hnd)
        as [And Ain].
      destruct (Hk And) as [Hnd' Hin']. split; [exact Hnd'|].
      intros k. rewrite Hin', Ain. cbn [In]. intuition congruence.
Qed.

Lemma insertSorted_perm (a : DashboardPage.SellingProduct.t)
      (l : list DashboardPage.SellingProduct.t) :
  Permutation (DashboardPage.insertSorted a l) (a :: l).
Proof.
  induction l as [|b l IH]; cbn [DashboardPage.insertSorted]; [reflexivity|].
  destruct (DashboardPage.SellingProduct.units_sold b
            - DashboardPage.SellingProduct.units_sold a >? 0); [|reflexivity].
  rewrite IH. apply perm_swap.
Qed.

Lemma sortByUnits_perm (l : list DashboardPage.SellingProduct.t) :
  Permutation (DashboardPage.sortByUnits l) l.
Proof.
  unfold DashboardPage.sortByUnits.
  induction l as [|a l IH]; cbn [fold_right]; [reflexivity|].
  rewrite insertSorted_perm. constructor. exact IH.
Qed.

Lemma total_perm (l l' : list Z) : Permutation l l' -> total l = total l'.
Proof.
  unfold total. induction 1; cbn [fold_right]; lia.
Qed.

Lemma insertSorted_descending (a : DashboardPage.SellingProduct.t)
      (l : list DashboardPage.SellingProduct.t) :
  descending (map DashboardPage.SellingProduct.units_sold l) ->
  descending (map DashboardPage.SellingProduct.units_sold
                  (DashboardPage.insertSorted a l)).
Proof.
  induction l as [|b l IH]; cbn [DashboardPage.insertSorted map descending].
  - intros _. split; [constructor | exact I].
  - intros [Hb Hd].
    destruct (Z.gtb_spec (DashboardPage.SellingProduct.units_sold b
                          - DashboardPage.SellingProduct.units_sold a) 0) as [Hgt|Hle];
      cbn [map descending].
    + split; [|exact (IH Hd)].
      assert (Hp : Permutation
                     (map DashboardPage.SellingProduct.units_sold (a :: l))
                     (map DashboardPage.SellingProduct.units_sold
                          (DashboardPage.insertSorted a l))).
      { apply Permutation_map. symmetry. apply insertSorted_perm. }
      apply (Permutation_Forall Hp).
      cbn [map]. constructor; [lia | exact Hb].
    + split; [|split; [exact Hb | exact Hd]].
      constructor; [lia|].
      eapply Forall_impl; [|exact Hb]. cbn beta. intros y Hy. lia.
Qed.

Lemma sortByUnits_descending (l : list DashboardPage.SellingProduct.t) :
  descending (map DashboardPage.SellingProduct.units_sold (DashboardPage.sortByUnits l)).
Proof.
  unfold DashboardPage.sortByUnits.
  induction l as [|a l IH]; cbn [fold_right]; [exact I|].
  apply insertSorted_descending. exact IH.
Qed.

Lemma sellingProduct_fields (productsData : option (list DashboardPage.ProductData.t))
      (ps : list (string * DashboardPage.Sale.t)) :
  map DashboardPage.SellingProduct.product_id
      (map (DashboardPage.sellingProduct productsData) ps) = map fst ps
  /\ map DashboardPage.SellingProduct.units_sold
         (map (DashboardPage.sellingProduct productsData) ps)
     = map (fun e => DashboardPage.Sale.units (snd e)) ps
  /\ map DashboardPage.SellingProduct.revenue_generated
         (map (DashboardPage.sellingProduct productsData) ps)
     = map (fun e => DashboardPage.Sale.revenue (snd e)) ps.
Proof.
  rewrite !map_map. repeat split; apply map_ext; intros [k v]; reflexivity.
Qed.

Lemma counted_le_length {A : Type} (p q : A -> bool) (l : list A) :
  (List.length (filter (fun x => p x && q x) l) <= List.length (filter p l))%nat.
Proof.
  induction l as [|x l IH]; cbn [filter]; [lia|].
  destruct (p x), (q x); cbn [andb List.length]; lia.
Qed.

(** X24.  The vendor's counts add up.  The units sold over the selling
    list add up to the quantities of the items of the vendor's products
    in all orders; total orders is the number of orders with at least
    one such item, pending orders the number of those that are pending
    or confirmed, so the pending count never exceeds the total, nor the
    total the number of orders.  Total revenue is accumulated in double
    precision over those orders in their order, the amount of an order
    being accumulated from 0 over its vendor items. *)
Theorem dashboard_counts_add_up
        (companyName : string)
        (productsData : option (list DashboardPage.ProductData.t))
        (allOrdersData : option (list Order.t)) :
  let s := DashboardPage.computeStats companyName productsData allOrdersData in
  let ids := DashboardPage.companyProductIds productsData in
  let orders := DashboardPage.orEmpty allOrdersData in
  total (map DashboardPage.SellingProduct.units_sold
             (DashboardPage.allSellingProducts s))
  = total (map OrderItem.quantity (soldItems ids orders))
  /\ DashboardPage.totalOrders s
     = Z.of_nat (List.length (filter (hasCompanyItem ids) orders))
  /\ DashboardPage.pendingOrders s
     = Z.of_nat (List.length
                   (filter (fun o => hasCompanyItem ids o && awaitsVendor o) orders))
  /\ 0 <= DashboardPage.pendingOrders s <= DashboardPage.totalOrders s
  /\ DashboardPage.totalOrders s <= Z.of_nat (List.length orders)
  /\ DashboardPage.totalSalesAmount s
     = fold_left (fun total order => (total + orderAmount ids order)%float)
                 (filter (hasCompanyItem ids) orders) 0%float.
Proof.
  cbv zeta. unfold DashboardPage.computeStats, DashboardPage.aggregate.
  rewrite orders_loop.
  cbn [DashboardPage.totalSalesAmount DashboardPage.allSellingProducts
         DashboardPage.totalOrders DashboardPage.pendingOrders
         DashboardPage.accSalesAmount DashboardPage.accOrders
         DashboardPage.accPending DashboardPage.productSales].
  set (ids := DashboardPage.companyProductIds productsData).
  set (orders := DashboardPage.orEmpty allOrdersData).
  destruct (sales_fold (soldItems ids orders) []) as [Hu _].
  cbv zeta in Hu.
  destruct (sellingProduct_fields
              productsData
              (fold_left (fun ps item =>
                            DashboardPage.addSale ps (OrderItem.product_id item)
                                                  (OrderItem.quantity item)
                                                  (lineAmount item))
                         (soldItems ids orders) [])) as [_ [Fu _]].
  pose proof (counted_le_length (hasCompanyItem ids) awaitsVendor orders) as Hp.
  pose proof (filter_length (hasCompanyItem ids) orders) as Hl.
  split; [|split; [|split; [|split; [|split]]]]; try lia; try reflexivity.
  rewrite (total_perm _ _ (Permutation_map _ (sortByUnits_perm _))).
  rewrite Fu, Hu. unfold total at 1. cbn [map fold_right]. lia.
Qed.

Lemma dashboard_counts_add_up_witness :
  DashboardPage.totalOrders
    (DashboardPage.computeStats "Hive & Co" (Some Scenario.catalogue)
                                (Some [Sample.shippedOrder]))
  <= 1.
Proof.
  destruct (dashboard_counts_add_up "Hive & Co" (Some Scenario.catalogue)
                                    (Some [Sample.shippedOrder]))
    as [_ [_ [_ [_ [H _]]]]].
  exact H.
Defined.

Lemma has_In (ids : list string) (x : string) :
  DashboardPage.has ids x = true <-> In x ids.
Proof.
  unfold DashboardPage.has. rewrite existsb_exists. split.
  - intros [y [Hin E]]. apply String.eqb_eq in E. subst y. exact Hin.
  - intros Hin. exists x. split; [exact Hin | apply String.eqb_refl].
Qed.

Lemma soldItems_company (ids : list string) (orders : list Order.t) (item : OrderItem.t) :
  In item (soldItems ids orders) -> In (OrderItem.product_id item) ids.
Proof.
  unfold soldItems, companyItems. rewrite in_flat_map.
  intros [o [_ Hin]]. apply filter_In in Hin. destruct Hin as [_ H].
  apply has_In. exact H.
Qed.

Lemma details_of_company_product
      (productsData : option (list DashboardPage.ProductData.t)) (productId : string) :
  In productId (DashboardPage.companyProductIds productsData) ->
  exists row,
    DashboardPage.productDetailsMap_get productsData productId = Some row
    /\ In row (DashboardPage.orEmpty productsData)
    /\ DashboardPage.ProductData.id row = productId.
Proof.
  unfold DashboardPage.companyProductIds, DashboardPage.productDetailsMap_get.
  intros Hin. apply in_map_iff in Hin. destruct Hin as [r [Hid Hr]].
  destruct (Js.find (fun p => String.eqb (DashboardPage.ProductData.id p) productId)
                    (rev (DashboardPage.orEmpty productsData))) as [row|] eqn:G.
  - apply find_some in G. destruct G as [Hrow E].
    exists row. split; [reflexivity|]. split.
    + apply in_rev. exact Hrow.
    + apply String.eqb_eq. exact E.
  - exfalso. pose proof (find_none_all _ _ G r) as H. cbn beta in H.
    rewrite Hid, String.eqb_refl in H.
    assert (true = false) by (apply H; apply in_rev; rewrite rev_involutive; exact Hr).
    discriminate.
Qed.

(** X25.  The selling list holds each sold product once, ranked by
    units.  Every product of the vendor that occurs in some order has
    an entry, and every entry is such a product; no product id occurs
    twice; the units of an entry are the quantities of the items of
    that product in all orders, and they never increase down the list.
    The name of an entry is that of a catalogue row, "Unknown Product"
    being shown only for a row whose name is empty. *)
Theorem selling_products_ranked_once
        (companyName : string)
        (productsData : option (list DashboardPage.ProductData.t))
        (allOrdersData : option (list Order.t)) :
  let s := DashboardPage.computeStats companyName productsData allOrdersData in
  let ids := DashboardPage.companyProductIds productsData in
  let orders := DashboardPage.orEmpty allOrdersData in
  NoDup (map DashboardPage.SellingProduct.product_id (DashboardPage.allSellingProducts s))
  /\ descending (map DashboardPage.SellingProduct.units_sold
                     (DashboardPage.allSellingProducts s))
  /\ (forall item, In item (soldItems ids orders) ->
        exists p, In p (DashboardPage.allSellingProducts s)
                  /\ DashboardPage.SellingProduct.product_id p
                     = OrderItem.product_id item)
  /\ forall p, In p (DashboardPage.allSellingProducts s) ->
       (exists item, In item (soldItems ids orders)
                     /\ OrderItem.product_id item
                        = DashboardPage.SellingProduct.product_id p)
       /\ DashboardPage.SellingProduct.units_sold p
          = soldUnits (DashboardPage.SellingProduct.product_id p) (soldItems ids orders)
       /\ exists row, In row (DashboardPage.orEmpty productsData)
                      /\ DashboardPage.ProductData.id row
                         = DashboardPage.SellingProduct.product_id p
                      /\ DashboardPage.SellingProduct.product_name p
                         = Js.orElse (Some (DashboardPage.ProductData.product_name row))
                                     "Unknown Product".
Proof.
  cbv zeta. unfold DashboardPage.computeStats, DashboardPage.aggregate.
  rewrite orders_loop.
  cbn [DashboardPage.allSellingProducts DashboardPage.productSales].
  set (ids := DashboardPage.companyProductIds productsData).
  set (orders := DashboardPage.orEmpty allOrdersData).
  set (ps := fold_left _ (soldItems ids orders) []).
  destruct (sales_fold (soldItems ids orders) []) as [_ [Hper Hk]].
  cbv zeta in Hper, Hk. fold ps in Hper, Hk.
  destruct (Hk (NoDup_nil _)) as [Hnd Hin].
  destruct (sellingProduct_fields productsData ps) as [Fk _].
  split; [|split; [|split]].
  - apply (Permutation_NoDup
             (l := map DashboardPage.SellingProduct.product_id
                       (map (DashboardPage.sellingProduct productsData) ps))).
    + apply Permutation_map. symmetry. apply sortByUnits_perm.
    + rewrite Fk. exact Hnd.
  - apply sortByUnits_descending.
  - intros item Hitem.
    assert (Hkey : In (OrderItem.product_id item) (map fst ps)).
    { apply Hin. right. apply in_map. exact Hitem. }
    apply in_map_iff in Hkey. destruct Hkey as [[k v] [Hkv He]].
    exists (DashboardPage.sellingProduct productsData (k, v)). split.
    + apply (Permutation_in _ (Permutation_sym (sortByUnits_perm _))).
      apply in_map. exact He.
    + exact Hkv.
  - intros p Hp.
    apply (Permutation_in _ (sortByUnits_perm _)) in Hp.
    apply in_map_iff in Hp. destruct Hp as [[k v] [Hp He]].
    assert (Hkey : In k (map fst ps)).
    { apply in_map_iff. exists (k, v). split; [reflexivity | exact He]. }
    apply Hin in Hkey. destruct Hkey as [[]|Hkey].
    apply in_map_iff in Hkey. destruct Hkey as [item [Hid Hitem]].
    assert (Hc : In k ids).
    { rewrite <- Hid. exact (soldItems_company ids orders item Hitem). }
    destruct (details_of_company_product productsData k Hc) as [row [G [Hrow Hrid]]].
    pose proof (unitsOf_entry ps k v Hnd He) as Hunits.
    rewrite Hper in Hunits. cbn in Hunits.
    subst p. cbn [DashboardPage.sellingProduct]. rewrite G.
    cbn [DashboardPage.SellingProduct.product_id
           DashboardPage.SellingProduct.product_name
           DashboardPage.SellingProduct.units_sold option_map].
    split; [|split].
    + exists item. split; [exact Hitem | exact Hid].
    + symmetry. exact Hunits.
    + exists row. split; [exact Hrow | split; [exact Hrid | reflexivity]].
Qed.

Lemma selling_products_ranked_once_witness :
  (exists p,
      In p (DashboardPage.allSellingProducts
              (DashboardPage.computeStats "Hive & Co" (Some Scenario.catalogue)
                                          (Some [Sample.shippedOrder])))
      /\ DashboardPage.SellingProduct.product_id p = "prod-honey")
  /\ exists row,
       In row Scenario.catalogue
       /\ DashboardPage.ProductData.id row = "prod-honey"
       /\ "Forest Honey"
          = Js.orElse (Some (DashboardPage.ProductData.product_name row)) "Unknown Product".
Proof.
  destruct (selling_products_ranked_once "Hive & Co" (Some Scenario.catalogue)
                                         (Some [Sample.shippedOrder]))
    as [_ [_ [Hall H]]].
  split.
  - apply (Hall (OrderItem.mk "item-0" "prod-honey" 1 200 "2025-01-01T10:00:00.000Z")).
    left. reflexivity.
  - destruct (H (DashboardPage.SellingProduct.mk "prod-honey" "Forest Honey" 1 200 []))
      as [_ [_ Hrow]].
    + left. reflexivity.
    + exact Hrow.
Defined.

Lemma soldItems_filter (ids : list string) (orders : list Order.t) :
  soldItems ids (filter (hasCompanyItem ids) orders) = soldItems ids orders.
Proof.
  unfold soldItems.
  induction orders as [|o orders IH]; [reflexivity|].
  cbn [filter flat_map]. destruct (hasCompanyItem ids o) eqn:Hh.
  - cbn [flat_map]. rewrite IH. reflexivity.
  - rewrite IH.
    assert (Hnil : companyItems ids o = []) by (apply existsb_filter_nil; exact Hh).
    rewrite Hnil. reflexivity.
Qed.

Lemma filter_and_filter {A : Type} (p q : A -> bool) (l : list A) :
  filter (fun x => p x && q x) (filter p l) = filter (fun x => p x && q x) l.
Proof.
  induction l as [|x l IH]; [reflexivity|].
  cbn [filter]. destruct (p x) eqn:E; cbn [filter andb].
  - rewrite E. cbn [andb]. destruct (q x); rewrite IH; reflexivity.
  - exact IH.
Qed.

Lemma hasCompanyItem_nil (o : Order.t) : hasCompanyItem [] o = false.
Proof.
  unfold hasCompanyItem.
  induction (Order.order_items o) as [|i items IH]; [reflexivity|].
  cbn [existsb DashboardPage.has orb]. exact IH.
Qed.

Lemma soldItems_nil (orders : list Order.t) : soldItems [] orders = [].
Proof.
  unfold soldItems.
  induction orders as [|o orders IH]; [reflexivity|].
  cbn [flat_map]. rewrite IH, app_nil_r.
  apply existsb_filter_nil. apply (hasCompanyItem_nil o).
Qed.

Lemma filter_none {A : Type} (p : A -> bool) (l : list A) :
  (forall x, In x l -> p x = false) -> filter p l = [].
Proof.
  induction l as [|x l IH]; intros H; [reflexivity|].
  cbn [filter]. rewrite (H x (or_introl eq_refl)).
  apply IH. intros y Hy. apply H. right. exact Hy.
Qed.

(** X26.  Orders without an item of the vendor do not influence the
    dashboard: the figures computed from all orders are those computed
    from the orders that contain one of the vendor's products.  A
    vendor without products has no orders, no revenue and an empty
    selling list, whatever the orders table holds. *)
Theorem foreign_orders_are_ignored
        (companyName : string)
        (productsData : option (list DashboardPage.ProductData.t))
        (allOrdersData : option (list Order.t)) :
  DashboardPage.computeStats companyName productsData allOrdersData
  = DashboardPage.computeStats
      companyName productsData
      (Some (filter (hasCompanyItem (DashboardPage.companyProductIds productsData))
                    (DashboardPage.orEmpty allOrdersData)))
  /\ (DashboardPage.orEmpty productsData = [] ->
      let s := DashboardPage.computeStats companyName productsData allOrdersData in
      DashboardPage.totalOrders s = 0
      /\ DashboardPage.totalSalesAmount s = 0%float
      /\ DashboardPage.pendingOrders s = 0
      /\ DashboardPage.allSellingProducts s = []).
Proof.
  split.
  - unfold DashboardPage.computeStats, DashboardPage.aggregate.
    rewrite !orders_loop. cbn [DashboardPage.orEmpty].
    rewrite soldItems_filter, filter_filter_same, filter_and_filter.
    reflexivity.
  - intros Hnone. cbv zeta.
    unfold DashboardPage.computeStats, DashboardPage.aggregate.
    rewrite orders_loop.
    cbn [DashboardPage.totalOrders DashboardPage.totalSalesAmount
           DashboardPage.pendingOrders DashboardPage.allSellingProducts
           DashboardPage.accSalesAmount DashboardPage.accOrders
           DashboardPage.accPending DashboardPage.productSales].
    unfold DashboardPage.companyProductIds. rewrite Hnone. cbn [map].
    rewrite soldItems_nil.
    rewrite (filter_none _ (DashboardPage.orEmpty allOrdersData)
                         (fun o _ => hasCompanyItem_nil o)).
    rewrite (filter_none (fun o => hasCompanyItem [] o && awaitsVendor o)
                         (DashboardPage.orEmpty allOrdersData)).
    + cbn. repeat split.
    + intros o _. rewrite hasCompanyItem_nil. reflexivity.
Qed.

Lemma foreign_orders_are_ignored_witness :
  DashboardPage.totalOrders
    (DashboardPage.computeStats "Hive & Co" (Some []) (Some [Sample.shippedOrder])) = 0.
Proof.
  destruct (foreign_orders_are_ignored "Hive & Co" (Some []) (Some [Sample.shippedOrder]))
    as [_ H].
  exact (proj1 (H eq_refl)).
Defined.

Lemma stock_partition (rows : list DashboardPage.ProductData.t) :
  Z.of_nat
    (List.length (filter (fun p => DashboardPage.ProductData.stock_quantity p =? 0) rows))
  + Z.of_nat
      (List.length
         (filter (fun p => (DashboardPage.ProductData.stock_quantity p >? 0)
                           && (DashboardPage.ProductData.stock_quantity p <? 10)) rows))
  + Z.of_nat
      (List.length
         (filter (fun p => (DashboardPage.ProductData.stock_quantity p <? 0)
                           || (DashboardPage.ProductData.stock_quantity p >=? 10)) rows))
  = Z.of_nat (List.length rows).
Proof.
  induction rows as [|p rows IH]; [reflexivity|].
  cbn [filter].
  destruct (Z.eqb_spec (DashboardPage.ProductData.stock_quantity p) 0);
    destruct (Z.gtb_spec (DashboardPage.ProductData.stock_quantity p) 0);
    destruct (Z.ltb_spec (DashboardPage.ProductData.stock_quantity p) 10);
    destruct (Z.ltb_spec (DashboardPage.ProductData.stock_quantity p) 0);
    destruct (Z.geb_spec (DashboardPage.ProductData.stock_quantity p) 10);
    try lia; cbn [andb orb List.length]; lia.
Qed.

(** X27.  The stock cards split the catalogue.  Every product of the
    vendor is counted out of stock (stock 0), listed as low stock
    (stock from 1 to 9), or in neither (stock of 10 or more, or
    negative): the three groups add up to the total number of
    products, and no low-stock entry is out of stock.  The active
    listings never exceed the total. *)
Theorem stock_cards_split_catalogue
        (companyName : string)
        (productsData : option (list DashboardPage.ProductData.t))
        (allOrdersData : option (list Order.t)) :
  let s := DashboardPage.computeStats companyName productsData allOrdersData in
  DashboardPage.outOfStockProducts s
  + Z.of_nat (List.length (DashboardPage.lowStockProducts s))
  + Z.of_nat
      (List.length
         (filter (fun p => (DashboardPage.ProductData.stock_quantity p <? 0)
                           || (DashboardPage.ProductData.stock_quantity p >=? 10))
                 (DashboardPage.orEmpty productsData)))
  = DashboardPage.totalProducts s
  /\ Forall (fun p => 1 <= DashboardPage.ProductData.stock_quantity p <= 9)
            (DashboardPage.lowStockProducts s)
  /\ 0 <= DashboardPage.activeListings s <= DashboardPage.totalProducts s.
Proof.
  cbv zeta. unfold DashboardPage.computeStats.
  cbn [DashboardPage.outOfStockProducts DashboardPage.lowStockProducts
         DashboardPage.totalProducts DashboardPage.activeListings].
  split; [|split].
  - pose proof (stock_partition (DashboardPage.orEmpty productsData)). lia.
  - apply Forall_forall. intros p Hp. apply filter_In in Hp.
    destruct Hp as [_ Hp]. apply andb_true_iff in Hp. destruct Hp as [H1 H2].
    apply Z.gtb_lt in H1. apply Z.ltb_lt in H2. lia.
  - pose proof (filter_length DashboardPage.ProductData.is_approved
                              (DashboardPage.orEmpty productsData)).
    lia.
Qed.

Lemma stock_cards_split_catalogue_witness :
  Forall (fun p => 1 <= DashboardPage.ProductData.stock_quantity p <= 9)
         (DashboardPage.lowStockProducts
            (DashboardPage.computeStats "Hive & Co" (Some Scenario.catalogue) None)).
Proof.
  destruct (stock_cards_split_catalogue "Hive & Co" (Some Scenario.catalogue) None)
    as [_ [H _]].
  exact H.
Defined.

(** X28.  The dashboard load fails closed.  The load ends with the
    spinner off.  The statistics are replaced exactly when the session,
    the company, the products and the orders were all read; otherwise
    the statistics stay as they were and an error message is shown.
    A missing session is reported as such whatever the later calls
    would have answered. *)
Theorem dashboard_load_fails_closed
        (session : option string) (sessionError : option PostgrestError.t)
        (companyData : option (string * string))
        (companyError : option PostgrestError.t)
        (productsData : option (list DashboardPage.ProductData.t))
        (productsError : option PostgrestError.t)
        (allOrdersData : option (list Order.t))
        (ordersError : option PostgrestError.t)
        (st : DashboardPage.State) :
  let st' := DashboardPage.fetchDashboardStats
               session sessionError companyData companyError
               productsData productsError allOrdersData ordersError st in
  let allRead :=
    sessionError = None /\ session <> None
    /\ companyError = None /\ companyData <> None
    /\ productsError = None /\ ordersError = None in
  DashboardPage.loading st' = false
  /\ (DashboardPage.error st' = None <-> allRead)
  /\ (allRead ->
      exists companyId companyName,
        companyData = Some (companyId, companyName)
        /\ DashboardPage.stats st'
           = Some (DashboardPage.computeStats companyName productsData allOrdersData))
  /\ (~ allRead -> DashboardPage.stats st' = DashboardPage.stats st)
  /\ (sessionError <> None \/ session = None ->
      DashboardPage.error st' = Some "Authentication required.").
Proof.
  cbv zeta. unfold DashboardPage.fetchDashboardStats.
  destruct sessionError as [e1|], session as [u|],
           companyError as [e2|], companyData as [[cid cname]|],
           productsError as [e3|], ordersError as [e4|];
    cbn [DashboardPage.loading DashboardPage.error DashboardPage.stats];
    (split; [reflexivity|]);
    (split; [split; [discriminate || (intros _; repeat split; discriminate)
                    | intros H; try reflexivity;
                      decompose [and] H; congruence]|]);
    (split; [intros H; try (exists cid, cname; split; reflexivity);
             decompose [and] H; congruence|]);
    (split; [intros H; try reflexivity; exfalso; apply H;
             repeat split; discriminate|]);
    intros [H|H]; try reflexivity; congruence.
Qed.

Lemma dashboard_load_fails_closed_witness :
  DashboardPage.stats
    (DashboardPage.fetchDashboardStats
       (Some "user-9") None (Some ("company-1", "Hive & Co")) None
       (Some Scenario.catalogue) (Some (PostgrestError.mk "500" "timeout"))
       None None Scenario.overview)
  = None
  /\ DashboardPage.error
       (DashboardPage.fetchDashboardStats
          None None (Some ("company-1", "Hive & Co")) None
          (Some Scenario.catalogue) None (Some [Sample.shippedOrder]) None
          Scenario.overview)
     = Some "Authentication required.".
Proof.
  split.
  - destruct (dashboard_load_fails_closed
                (Some "user-9") None (Some ("company-1", "Hive & Co")) None
                (Some Scenario.catalogue) (Some (PostgrestError.mk "500" "timeout"))
                None None Scenario.overview) as [_ [_ [_ [H _]]]].
    rewrite H; [reflexivity|].
    intros [_ [_ [_ [_ [E _]]]]]. discriminate E.
  - destruct (dashboard_load_fails_closed
                None None (Some ("company-1", "Hive & Co")) None
                (Some Scenario.catalogue) None (Some [Sample.shippedOrder]) None
                Scenario.overview) as [_ [_ [_ [_ H]]]].
    apply H. right. reflexivity.
Defined.

(* ================================================================== *)
(** ** Vendor orders page: what the load shows *)
(* ================================================================== *)

(** With session, company, products and orders read, the load ends in
    one shape, the early exits included. *)
Lemma fetchCompanyOrders_loaded
      (userId companyId : string)
      (productsTable : list CompanyOrders.ProductDetailsForOrder.t)
      (allOrdersData : option (list Order.t))
      (productsDetailsError : option PostgrestError.t)
      (s : World.t * CompanyOrders.State) :
  let ids := CompanyOrders.companyProductIds productsTable companyId in
  let kept := filter (hasCompanyItem ids) (DashboardPage.orEmpty allOrdersData) in
  CompanyOrders.fetchCompanyOrders
    (Some userId) None (Some companyId) None productsTable None
    allOrdersData None productsDetailsError s
  = (fst s,
     CompanyOrders.mkState
       (CompanyOrders.resolvedOrders
          ids
          (CompanyOrders.productsMap productsTable productsDetailsError
                                     (CompanyOrders.productIdsInCompanyOrders kept))
          kept)
       false None).
Proof.
  cbv zeta. destruct s as [w st]. unfold CompanyOrders.fetchCompanyOrders.
  cbn [fst].
  change (CompanyOrders.filteredCompanyOrders
            (CompanyOrders.companyProductIds productsTable companyId) allOrdersData)
    with (filter (hasCompanyItem (CompanyOrders.companyProductIds productsTable companyId))
                 (DashboardPage.orEmpty allOrdersData)).
  destruct (CompanyOrders.companyProductIds productsTable companyId) as [|i ids] eqn:Ei.
  - rewrite (filter_none (hasCompanyItem []) _ (fun o _ => hasCompanyItem_nil o)).
    reflexivity.
  - destruct (filter (hasCompanyItem (i :: ids)) (DashboardPage.orEmpty allOrdersData))
      as [|o kept] eqn:Ek; reflexivity.
Qed.

Lemma resolvedOrders_rows (ids : list string)
      (entries : list CompanyOrders.ProductDetailsForOrder.t) (kept : list Order.t) :
  map CompanyOrders.ResolvedOrder.order (CompanyOrders.resolvedOrders ids entries kept)
  = kept.
Proof.
  unfold CompanyOrders.resolvedOrders. rewrite map_map. cbn [CompanyOrders.ResolvedOrder.order].
  apply map_id.
Qed.

(** X29.  The vendor's orders page lists what the dashboard counts.
    After a load in which the four reads succeed, the page shows
    exactly the orders with at least one item of the vendor, in the
    order the backend returned them; each shows the vendor's items of
    that order and nothing else, and at least one.  The number of
    orders shown equals the dashboard's total orders for the same
    product ids and the same orders. *)
Theorem orders_page_lists_what_dashboard_counts
        (userId companyId companyName : string)
        (productsTable : list CompanyOrders.ProductDetailsForOrder.t)
        (productsData : option (list DashboardPage.ProductData.t))
        (allOrdersData : option (list Order.t))
        (productsDetailsError : option PostgrestError.t)
        (s : World.t * CompanyOrders.State) :
  let r := CompanyOrders.fetchCompanyOrders
             (Some userId) None (Some companyId) None productsTable None
             allOrdersData None productsDetailsError s in
  let ids := CompanyOrders.companyProductIds productsTable companyId in
  map CompanyOrders.ResolvedOrder.order (CompanyOrders.orders (snd r))
  = filter (hasCompanyItem ids) (DashboardPage.orEmpty allOrdersData)
  /\ Forall (fun ro =>
               map CompanyOrders.OrderItemWithProduct.item
                   (CompanyOrders.ResolvedOrder.resolved_order_items ro)
               = companyItems ids (CompanyOrders.ResolvedOrder.order ro)
               /\ CompanyOrders.ResolvedOrder.resolved_order_items ro <> [])
            (CompanyOrders.orders (snd r))
  /\ (DashboardPage.companyProductIds productsData = ids ->
      Z.of_nat (List.length (CompanyOrders.orders (snd r)))
      = DashboardPage.totalOrders
          (DashboardPage.computeStats companyName productsData allOrdersData)).
Proof.
  cbv zeta. rewrite fetchCompanyOrders_loaded. cbn [snd CompanyOrders.orders].
  set (ids := CompanyOrders.companyProductIds productsTable companyId).
  set (kept := filter (hasCompanyItem ids) (DashboardPage.orEmpty allOrdersData)).
  split; [apply resolvedOrders_rows | split].
  - apply Forall_forall. intros ro Hro.
    unfold CompanyOrders.resolvedOrders in Hro. apply in_map_iff in Hro.
    destruct Hro as [o [Hro Ho]]. subst ro.
    cbn [CompanyOrders.ResolvedOrder.order
           CompanyOrders.ResolvedOrder.resolved_order_items].
    fold (companyItems ids o). split.
    + rewrite map_map. cbn [CompanyOrders.OrderItemWithProduct.item]. apply map_id.
    + apply filter_In in Ho. destruct Ho as [_ Hh].
      intros Hnil. apply map_eq_nil in Hnil.
      apply existsb_filter_nil in Hnil.
      unfold hasCompanyItem in Hh. rewrite Hh in Hnil. discriminate.
  - intros Hids.
    rewrite <- (length_map CompanyOrders.ResolvedOrder.order), resolvedOrders_rows.
    unfold DashboardPage.computeStats, DashboardPage.aggregate.
    rewrite orders_loop. cbn [DashboardPage.totalOrders DashboardPage.accOrders].
    rewrite Hids. reflexivity.
Qed.

Lemma orders_page_lists_what_dashboard_counts_witness :
  Z.of_nat
    (List.length
       (CompanyOrders.orders
          (snd (CompanyOrders.fetchCompanyOrders
                  (Some "user-9") None (Some "company-1") None
                  Scenario.productsTable None (Some [Sample.shippedOrder]) None None
                  (Sample.world, Scenario.ordersPage)))))
  = DashboardPage.totalOrders
      (DashboardPage.computeStats "Hive & Co" (Some Scenario.catalogue)
                                  (Some [Sample.shippedOrder])).
Proof.
  apply (orders_page_lists_what_dashboard_counts
           "user-9" "company-1" "Hive & Co" Scenario.productsTable
           (Some Scenario.catalogue) (Some [Sample.shippedOrder]) None
           (Sample.world, Scenario.ordersPage)).
  reflexivity.
Defined.

Lemma productsMap_In (productsTable : list CompanyOrders.ProductDetailsForOrder.t)
      (ids : list string) (p : CompanyOrders.ProductDetailsForOrder.t) :
  In p (CompanyOrders.productsMap productsTable None ids)
  <-> In p productsTable /\ In (CompanyOrders.ProductDetailsForOrder.id p) ids.
Proof.
  unfold CompanyOrders.productsMap. destruct ids as [|i ids].
  - cbn [In]. tauto.
  - rewrite filter_In, has_In. tauto.
Qed.

Lemma productsMap_failed (productsTable : list CompanyOrders.ProductDetailsForOrder.t)
      (e : PostgrestError.t) (ids : list string) :
  CompanyOrders.productsMap productsTable (Some e) ids = [].
Proof.
  unfold CompanyOrders.productsMap. destruct ids; reflexivity.
Qed.

Lemma resolvedOrders_In (ids : list string)
      (entries : list CompanyOrders.ProductDetailsForOrder.t) (kept : list Order.t)
      (ro : CompanyOrders.ResolvedOrder.t) (ri : CompanyOrders.OrderItemWithProduct.t) :
  In ro (CompanyOrders.resolvedOrders ids entries kept) ->
  In ri (CompanyOrders.ResolvedOrder.resolved_order_items ro) ->
  In (CompanyOrders.ResolvedOrder.order ro) kept
  /\ In (CompanyOrders.OrderItemWithProduct.item ri)
        (Order.order_items (CompanyOrders.ResolvedOrder.order ro))
  /\ In (OrderItem.product_id (CompanyOrders.OrderItemWithProduct.item ri)) ids
  /\ CompanyOrders.OrderItemWithProduct.products ri
     = CompanyOrders.productsMap_get
         entries (OrderItem.product_id (CompanyOrders.OrderItemWithProduct.item ri)).
Proof.
  unfold CompanyOrders.resolvedOrders. intros Hro Hri.
  apply in_map_iff in Hro. destruct Hro as [o [Hro Ho]]. subst ro.
  cbn [CompanyOrders.ResolvedOrder.order
         CompanyOrders.ResolvedOrder.resolved_order_items] in *.
  apply in_map_iff in Hri. destruct Hri as [item [Hri Hitem]]. subst ri.
  apply filter_In in Hitem. destruct Hitem as [Hitem Hhas].
  cbn [CompanyOrders.OrderItemWithProduct.item
         CompanyOrders.OrderItemWithProduct.products].
  repeat split; try assumption. apply has_In. exact Hhas.
Qed.

(** X30.  Every item shown on the vendor's orders page carries the
    details of its product: when the read of the product details
    succeeds, each resolved item points to a row of the products table
    with the item's product id.  When that read fails the load is not
    aborted: the same orders with the same items are shown, each
    without product details. *)
Theorem resolved_items_carry_product_details
        (userId companyId : string)
        (productsTable : list CompanyOrders.ProductDetailsForOrder.t)
        (allOrdersData : option (list Order.t))
        (e : PostgrestError.t)
        (s : World.t * CompanyOrders.State) :
  let load productsDetailsError :=
    CompanyOrders.orders
      (snd (CompanyOrders.fetchCompanyOrders
              (Some userId) None (Some companyId) None productsTable None
              allOrdersData None productsDetailsError s)) in
  Forall (fun ro =>
            Forall (fun ri =>
                      exists p,
                        CompanyOrders.OrderItemWithProduct.products ri = Some p
                        /\ In p productsTable
                        /\ CompanyOrders.ProductDetailsForOrder.id p
                           = OrderItem.product_id
                               (CompanyOrders.OrderItemWithProduct.item ri))
                   (CompanyOrders.ResolvedOrder.resolved_order_items ro))
         (load None)
  /\ Forall (fun ro =>
               Forall (fun ri => CompanyOrders.OrderItemWithProduct.products ri = None)
                      (CompanyOrders.ResolvedOrder.resolved_order_items ro))
            (load (Some e))
  /\ map CompanyOrders.ResolvedOrder.order (load (Some e))
     = map CompanyOrders.ResolvedOrder.order (load None)
  /\ map (fun ro => map CompanyOrders.OrderItemWithProduct.item
                        (CompanyOrders.ResolvedOrder.resolved_order_items ro))
         (load (Some e))
     = map (fun ro => map CompanyOrders.OrderItemWithProduct.item
                          (CompanyOrders.ResolvedOrder.resolved_order_items ro))
           (load None).
Proof.
  cbv beta zeta. rewrite !fetchCompanyOrders_loaded. cbn [snd CompanyOrders.orders].
  set (ids := CompanyOrders.companyProductIds productsTable companyId).
  set (kept := filter (hasCompanyItem ids) (DashboardPage.orEmpty allOrdersData)).
  split; [|split; [|split]].
  - apply Forall_forall. intros ro Hro. apply Forall_forall. intros ri Hri.
    destruct (resolvedOrders_In _ _ _ ro ri Hro Hri) as [Ho [Hitem [Hid Hget]]].
    set (pid := OrderItem.product_id (CompanyOrders.OrderItemWithProduct.item ri)) in *.
    assert (Hasked : In pid (CompanyOrders.productIdsInCompanyOrders kept)).
    { unfold CompanyOrders.productIdsInCompanyOrders. apply in_flat_map.
      exists (CompanyOrders.ResolvedOrder.order ro). split; [exact Ho|].
      apply in_map. exact Hitem. }
    unfold ids, CompanyOrders.companyProductIds in Hid.
    apply in_map_iff in Hid. destruct Hid as [row [Hrid Hrow]].
    apply filter_In in Hrow. destruct Hrow as [Hrow _].
    rewrite Hget. unfold CompanyOrders.productsMap_get.
    destruct (Js.find _ (rev _)) as [p|] eqn:G.
    + apply find_some in G. destruct G as [Hp E].
      apply in_rev in Hp. apply productsMap_In in Hp.
      exists p. split; [reflexivity|]. split; [exact (proj1 Hp)|].
      apply String.eqb_eq. exact E.
    + exfalso. pose proof (find_none_all _ _ G row) as H. cbn beta in H.
      rewrite Hrid, String.eqb_refl in H.
      assert (true = false); [|discriminate].
      apply H. apply in_rev. rewrite rev_involutive.
      apply productsMap_In. rewrite Hrid. split; [exact Hrow | exact Hasked].
  - apply Forall_forall. intros ro Hro. apply Forall_forall. intros ri Hri.
    destruct (resolvedOrders_In _ _ _ ro ri Hro Hri) as [_ [_ [_ Hget]]].
    rewrite Hget, productsMap_failed. reflexivity.
  - rewrite !resolvedOrders_rows. reflexivity.
  - unfold CompanyOrders.resolvedOrders. rewrite !map_map.
    apply map_ext. intros o.
    cbn [CompanyOrders.ResolvedOrder.resolved_order_items].
    rewrite !map_map. reflexivity.
Qed.

Lemma resolved_items_carry_product_details_witness :
  map CompanyOrders.ResolvedOrder.order
      (CompanyOrders.orders
         (snd (CompanyOrders.fetchCompanyOrders
                 (Some "user-9") None (Some "company-1") None
                 Scenario.productsTable None (Some [Sample.shippedOrder]) None
                 (Some (PostgrestError.mk "500" "timeout"))
                 (Sample.world, Scenario.ordersPage))))
  = map CompanyOrders.ResolvedOrder.order
        (CompanyOrders.orders
           (snd (CompanyOrders.fetchCompanyOrders
                   (Some "user-9") None (Some "company-1") None
                   Scenario.productsTable None (Some [Sample.shippedOrder]) None
                   None
                   (Sample.world, Scenario.ordersPage)))).
Proof.
  destruct (resolved_items_carry_product_details
              "user-9" "company-1" Scenario.productsTable (Some [Sample.shippedOrder])
              (PostgrestError.mk "500" "timeout")
              (Sample.world, Scenario.ordersPage)) as [_ [_ [H _]]].
  exact H.
Defined.
